(** * EarthQuakeDecte: the telemetry hub and its earthquake algorithm library

    A shallow embedding of [server/websocket-server.js] (the hub: connection
    registry, device directory, ingestion pipeline, liveness sweep, fan-out
    and snapshot cache, the device history endpoint), of
    [earthquake-algorithm.js] (the enrichment functions), of the message
    handlers of the command-line dashboard, and of the chart buffer of the
    web interface server.

    Conventions of the embedding.
    - In the hub, a JavaScript number is a [jsnum]: NaN, an infinity, or a
      finite value.  Finite values are real numbers and sums, products and
      square roots are exact: their IEEE rounding, their overflow and the
      sign of zero are not modelled; [Math.pow(10, y)] does overflow to
      [Infinity] and underflow to 0.  Where the last bit decides, the score
      functions are also given on binary64 numbers (module [Binary64]).
    - A string is the UTF-8 encoding of the JavaScript text.
    - [Date.now()], [new Date()] and [toISOString()] all read one clock value
      [now : Z] (milliseconds) per handler invocation.
    - [wss.clients] is an insertion-ordered list of sockets with their
      [readyState]; the [clients] and [deviceData] Maps are finite maps.
    - A handler returns the new hub together with the list of effects it
      performed, in program order. *)

From Stdlib Require Import Floats.
From Stdlib Require Import Reals Lra ZArith String Ascii.
From stdpp Require Import gmap strings list fin_maps.

Open Scope R_scope.

(* ===================================================================== *)
(** ** JavaScript numbers *)
(* ===================================================================== *)

Inductive jsnum : Type :=
| JNaN
| JFin (r : R)
| JInf (negative : bool).

Definition PosInf : jsnum := JInf false.
Definition NegInf : jsnum := JInf true.

Definition isNaN (x : jsnum) : bool :=
  match x with JNaN => true | _ => false end.

Definition Rltb (x y : R) : bool := if Rlt_dec x y then true else false.
Definition Rleb (x y : R) : bool := if Rle_dec x y then true else false.
Definition Reqb (x y : R) : bool := if Req_dec_T x y then true else false.

(** [a < b]; false as soon as one side is NaN. *)
Definition js_lt (a b : jsnum) : bool :=
  match a, b with
  | JNaN, _ | _, JNaN => false
  | JFin x, JFin y => Rltb x y
  | JFin _, JInf neg => negb neg
  | JInf neg, JFin _ => neg
  | JInf n1, JInf n2 => n1 && negb n2
  end.

Definition js_gt (a b : jsnum) : bool := js_lt b a.

(** [a <= b] and [a >= b]; again false on NaN. *)
Definition js_le (a b : jsnum) : bool :=
  match a, b with
  | JNaN, _ | _, JNaN => false
  | _, _ => negb (js_lt b a)
  end.

Definition js_ge (a b : jsnum) : bool := js_le b a.

Definition js_neg (a : jsnum) : jsnum :=
  match a with
  | JNaN => JNaN
  | JFin x => JFin (- x)
  | JInf neg => JInf (negb neg)
  end.

Definition js_add (a b : jsnum) : jsnum :=
  match a, b with
  | JNaN, _ | _, JNaN => JNaN
  | JFin x, JFin y => JFin (x + y)
  | JFin _, JInf n | JInf n, JFin _ => JInf n
  | JInf n1, JInf n2 => if Bool.eqb n1 n2 then JInf n1 else JNaN
  end.

Definition js_sub (a b : jsnum) : jsnum := js_add a (js_neg b).

(** The sign of a finite factor decides the sign of an infinite product;
    infinity times zero is NaN. *)
Definition inf_times (neg : bool) (x : R) : jsnum :=
  if Reqb x 0 then JNaN
  else if Rltb x 0 then JInf (negb neg) else JInf neg.

Definition js_mul (a b : jsnum) : jsnum :=
  match a, b with
  | JNaN, _ | _, JNaN => JNaN
  | JFin x, JFin y => JFin (x * y)
  | JFin x, JInf n | JInf n, JFin x => inf_times n x
  | JInf n1, JInf n2 => JInf (xorb n1 n2)
  end.

Definition js_div (a b : jsnum) : jsnum :=
  match a, b with
  | JNaN, _ | _, JNaN => JNaN
  | JFin x, JFin y =>
      if Reqb y 0 then
        (if Reqb x 0 then JNaN else JInf (Rltb x 0))
      else JFin (x / y)
  | JFin _, JInf _ => JFin 0
  | JInf n, JFin y => JInf (xorb n (Rltb y 0))
  | JInf _, JInf _ => JNaN
  end.

Module Math.

(** [Math.pow(x, 2)]. *)
Definition pow2 (x : jsnum) : jsnum :=
  match x with
  | JNaN => JNaN
  | JFin r => JFin (r * r)
  | JInf _ => PosInf
  end.

(** [Math.pow(10, y)]: the power where a double can hold it.  A value of
    [2^1024 - 2^970] or more rounds to [Infinity], one of [2^-1075] or less
    to 0; the rounding of the values between is not modelled. *)
Definition overflow_threshold : R := IZR (2 ^ 1024 - 2 ^ 970).
Definition underflow_threshold : R := / IZR (2 ^ 1075).

Definition pow10 (y : jsnum) : jsnum :=
  match y with
  | JNaN => JNaN
  | JFin r =>
      if Rleb overflow_threshold (Rpower 10 r) then PosInf
      else if Rleb (Rpower 10 r) underflow_threshold then JFin 0
      else JFin (Rpower 10 r)
  | JInf false => PosInf
  | JInf true => JFin 0
  end.

Definition sqrt (x : jsnum) : jsnum :=
  match x with
  | JNaN => JNaN
  | JFin r => if Rltb r 0 then JNaN else JFin (R_sqrt.sqrt r)
  | JInf false => PosInf
  | JInf true => JNaN
  end.

Definition Rlog10 (r : R) : R := ln r / ln 10.

Definition log10 (x : jsnum) : jsnum :=
  match x with
  | JNaN => JNaN
  | JFin r =>
      if Rltb r 0 then JNaN
      else if Reqb r 0 then NegInf
      else JFin (Rlog10 r)
  | JInf false => PosInf
  | JInf true => JNaN
  end.

Definition max (a b : jsnum) : jsnum :=
  match a, b with
  | JNaN, _ | _, JNaN => JNaN
  | _, _ => if js_lt a b then b else a
  end.

Definition min (a b : jsnum) : jsnum :=
  match a, b with
  | JNaN, _ | _, JNaN => JNaN
  | _, _ => if js_lt b a then b else a
  end.

End Math.

(** [parseFloat(x.toFixed(digits))].  [toFixed] takes the integer [n] with
    [n / 10^digits] closest to [|x|], the larger one on a tie, and keeps the
    sign; from [1e21] on it prints the number itself. *)
Definition round_half_up (y : R) : Z := Int_part (y + / 2).

Definition toFixed_value (digits : nat) (r : R) : R :=
  if Rleb 1e21 (Rabs r) then r
  else if Rltb r 0
       then - (IZR (round_half_up (- r * 10 ^ digits)) / 10 ^ digits)
       else IZR (round_half_up (r * 10 ^ digits)) / 10 ^ digits.

Definition toFixed_parsed (digits : nat) (x : jsnum) : jsnum :=
  match x with
  | JNaN => JNaN
  | JFin r => JFin (toFixed_value digits r)
  | JInf n => JInf n
  end.

(* ===================================================================== *)
(** ** earthquake-algorithm.js *)
(* ===================================================================== *)

Definition acceleration_norm (ax ay az : jsnum) : jsnum :=
  Math.sqrt (js_add (js_add (Math.pow2 ax) (Math.pow2 ay)) (Math.pow2 az)).

Definition calculateMagnitude (ax ay az : jsnum) : jsnum :=
  let acceleration := acceleration_norm ax ay az in
  let magnitude := js_mul (Math.log10 (js_add acceleration (JFin 1))) (JFin 2) in
  Math.max (JFin 0) (Math.min magnitude (JFin 10)).

Definition calculateIntensity (ax ay az distance : jsnum) : jsnum :=
  let acceleration := acceleration_norm ax ay az in
  let magnitude := js_mul (Math.log10 (js_add acceleration (JFin 1))) (JFin 2) in
  let distance := if js_le distance (JFin 0) then JFin 1 else distance in
  let intensity :=
    js_sub (js_sub magnitude (js_mul (Math.log10 distance) (JFin 0.2)))
           (JFin 0.5) in
  Math.max (JFin 1) (Math.min (JFin 12) intensity).

Record JmaResult : Type := mkJma {
  jma_intensity_of : jsnum;
  jma_pga : jsnum;
  jma_pga_raw : jsnum
}.

Definition jma_ladder (correctedPGA : jsnum) : R :=
  if js_lt correctedPGA (JFin 0.0017) then 0
  else if js_lt correctedPGA (JFin 0.014) then 1
  else if js_lt correctedPGA (JFin 0.039) then 1.5
  else if js_lt correctedPGA (JFin 0.098) then 2
  else if js_lt correctedPGA (JFin 0.197) then 2.5
  else if js_lt correctedPGA (JFin 0.394) then 3
  else if js_lt correctedPGA (JFin 0.787) then 3.5
  else if js_lt correctedPGA (JFin 1.637) then 4
  else if js_lt correctedPGA (JFin 3.386) then 4.5
  else if js_lt correctedPGA (JFin 6.889) then 5
  else if js_lt correctedPGA (JFin 14.050) then 5.5
  else if js_lt correctedPGA (JFin 28.650) then 6
  else 6.5.

Definition calculateJmaSeismicIntensity (ax ay az correctionFactor : jsnum)
  : JmaResult :=
  let PGA := js_mul (acceleration_norm ax ay az) (JFin 9.8) in
  let correctedPGA := js_mul PGA correctionFactor in
  mkJma (JFin (jma_ladder correctedPGA)) correctedPGA PGA.

Definition classifyEarthquake (magnitude : jsnum) : string :=
  if js_lt magnitude (JFin 2.0) then "微震"
  else if js_lt magnitude (JFin 3.0) then "弱震"
  else if js_lt magnitude (JFin 5.0) then "轻震"
  else if js_lt magnitude (JFin 6.0) then "中震"
  else if js_lt magnitude (JFin 7.0) then "强震"
  else if js_lt magnitude (JFin 8.0) then "大地震"
  else "巨大地震".

Record AlertAssessment : Type := mkAssessment {
  level : string;
  assessment_message : string;
  color : string
}.

Definition assessAlertLevel (magnitude intensity : jsnum) : AlertAssessment :=
  if js_ge magnitude (JFin 7.0) || js_ge intensity (JFin 9) then
    mkAssessment "严重" "强烈地震，可能造成重大损害" "red"
  else if js_ge magnitude (JFin 5.0) || js_ge intensity (JFin 7) then
    mkAssessment "高" "较强地震，可能造成损害" "orange"
  else if js_ge magnitude (JFin 4.0) || js_ge intensity (JFin 5) then
    mkAssessment "中" "中等地震，可能感受到震动" "yellow"
  else if js_ge magnitude (JFin 3.0) || js_ge intensity (JFin 3) then
    mkAssessment "低" "轻微地震，可能被部分人感受到" "blue"
  else
    mkAssessment "無" "未检测到地震活动" "green".

Definition default_threshold : jsnum := JFin 3.0.

Definition detectEarthquake (magnitude threshold : jsnum) : bool :=
  js_ge magnitude threshold.

Definition calculateEnergy (magnitude : jsnum) : jsnum :=
  Math.pow10 (js_add (JFin 4.8) (js_mul (JFin 1.5) magnitude)).

Record ImpactRadius : Type := mkRadius {
  extreme : jsnum;
  strong : jsnum;
  moderate : jsnum;
  felt : jsnum
}.

Definition calculateImpactRadius (magnitude : jsnum) : ImpactRadius :=
  mkRadius
    (if js_gt magnitude (JFin 6.0)
     then Math.pow10 (js_sub (js_div magnitude (JFin 2)) (JFin 1))
     else JFin 0)
    (if js_gt magnitude (JFin 5.0)
     then Math.pow10 (js_div magnitude (JFin 2))
     else Math.pow10 (js_div magnitude (JFin 2.5)))
    (Math.pow10 (js_add (js_div magnitude (JFin 2)) (JFin 1)))
    (Math.pow10 (js_add (js_div magnitude (JFin 1.5)) (JFin 2))).

(* ===================================================================== *)
(** ** Values carried by a parsed JSON frame *)
(* ===================================================================== *)

(** An absent field reads as [VUndef].  Arrays and nested objects are not
    modelled: no client of the repository sends them in these fields. *)
Inductive jsval : Type :=
| VUndef
| VNull
| VBool (b : bool)
| VNum (x : jsnum)
| VStr (s : string).

Definition truthy (v : jsval) : bool :=
  match v with
  | VUndef | VNull => false
  | VBool b => b
  | VNum JNaN => false
  | VNum (JFin r) => negb (Reqb r 0)
  | VNum (JInf _) => true
  | VStr s => negb (String.eqb s "")
  end.

Definition truthy_string (o : option string) : bool :=
  match o with
  | None => false
  | Some s => negb (String.eqb s "")
  end.

Module ParseFloat.

Definition is_digit (c : ascii) : bool :=
  let n := nat_of_ascii c in (48 <=? n)%nat && (n <=? 57)%nat.

Definition digit_value (c : ascii) : Z := Z.of_nat (nat_of_ascii c - 48).

(** [StrWhiteSpaceChar], the white space that [parseFloat] and [parseInt]
    skip.  A string is the UTF-8 encoding of the JavaScript text, so the
    members beyond ASCII take two or three bytes: U+00A0; U+1680, U+2000 to
    U+200A, U+2028, U+2029, U+202F, U+205F, U+3000 and U+FEFF. *)
Definition is_space (c : ascii) : bool :=
  let n := nat_of_ascii c in
  ((9 <=? n)%nat && (n <=? 13)%nat) || (n =? 32)%nat.

Definition is_space2 (c1 c2 : ascii) : bool :=
  (nat_of_ascii c1 =? 194)%nat && (nat_of_ascii c2 =? 160)%nat.

Definition is_space3 (c1 c2 c3 : ascii) : bool :=
  let n1 := nat_of_ascii c1 in
  let n2 := nat_of_ascii c2 in
  let n3 := nat_of_ascii c3 in
  ((n1 =? 225)%nat && (n2 =? 154)%nat && (n3 =? 128)%nat)
  || ((n1 =? 226)%nat && (n2 =? 128)%nat
      && (((128 <=? n3)%nat && (n3 <=? 138)%nat)
          || (n3 =? 168)%nat || (n3 =? 169)%nat || (n3 =? 175)%nat))
  || ((n1 =? 226)%nat && (n2 =? 129)%nat && (n3 =? 159)%nat)
  || ((n1 =? 227)%nat && (n2 =? 128)%nat && (n3 =? 128)%nat)
  || ((n1 =? 239)%nat && (n2 =? 187)%nat && (n3 =? 191)%nat).

Fixpoint trim_start (s : string) : string :=
  match s with
  | String c1 s1 =>
      if is_space c1 then trim_start s1
      else
        match s1 with
        | String c2 s2 =>
            if is_space2 c1 c2 then trim_start s2
            else
              match s2 with
              | String c3 s3 =>
                  if is_space3 c1 c2 c3 then trim_start s3 else s
              | EmptyString => s
              end
        | EmptyString => s
        end
  | EmptyString => s
  end.

(** Reads a run of decimal digits, continuing the value [acc]; returns the
    value, the number of digits read and the remaining text. *)
Fixpoint read_digits (s : string) (acc : Z) (count : nat)
  : Z * nat * string :=
  match s with
  | String c s' =>
      if is_digit c
      then read_digits s' (10 * acc + digit_value c)%Z (S count)
      else (acc, count, s)
  | EmptyString => (acc, count, s)
  end.

Definition read_sign (s : string) : bool * string :=
  match s with
  | String "-"%char s' => (true, s')
  | String "+"%char s' => (false, s')
  | _ => (false, s)
  end.

(** An [ExponentPart] counts only when at least one digit follows. *)
Definition read_exponent (s : string) : Z :=
  match s with
  | String c s' =>
      if Ascii.eqb c "e" || Ascii.eqb c "E" then
        let (neg, s'') := read_sign s' in
        let '(v, n, _) := read_digits s'' 0%Z 0%nat in
        if (n =? 0)%nat then 0%Z else if neg then (- v)%Z else v
      else 0%Z
  | EmptyString => 0%Z
  end.

(** The longest prefix of the trimmed text that is a [StrDecimalLiteral]. *)
Definition of_string (s : string) : jsnum :=
  let (neg, body) := read_sign (trim_start s) in
  if String.prefix "Infinity" body then JInf neg
  else
    let '(int_part, n1, rest) := read_digits body 0%Z 0%nat in
    let '(mantissa, n2, rest') :=
      match rest with
      | String "."%char r => read_digits r int_part 0%nat
      | _ => (int_part, 0%nat, rest)
      end in
    if (n1 + n2 =? 0)%nat then JNaN
    else
      let v := IZR mantissa
               * powerRZ 10 (read_exponent rest' - Z.of_nat n2) in
      JFin (if neg then - v else v).

End ParseFloat.

(** [parseFloat(v)]: the argument is converted to text first, so a number
    comes back unchanged and [undefined], [null] and booleans give NaN. *)
Definition parseFloat (v : jsval) : jsnum :=
  match v with
  | VNum x => x
  | VStr s => ParseFloat.of_string s
  | VUndef | VNull | VBool _ => JNaN
  end.

(** An inbound message after [JSON.parse].  Device ids, locations and type
    tags are strings; [None] is an absent field. *)
Record Message : Type := mkMessage {
  msg_type : option string;
  msg_device_id : option string;
  msg_timestamp : jsval;
  msg_ax : jsval;
  msg_ay : jsval;
  msg_az : jsval;
  msg_gx : jsval;
  msg_gy : jsval;
  msg_gz : jsval;
  msg_location : option string;
  msg_battery : jsval;
  msg_signal_strength : jsval;
  msg_free_heap : jsval;
  msg_client_type : option string
}.

(* ===================================================================== *)
(** ** The hub's data model *)
(* ===================================================================== *)

(** [enhancedData]: the message spread, then the derived fields. *)
Record EnhancedData : Type := mkEnhanced {
  e_data : Message;
  e_server_timestamp : Z;
  e_magnitude : jsnum;
  e_intensity : jsnum;
  e_jma_intensity : jsnum;
  e_pga : jsnum;
  e_earthquake_type : string;
  e_alert_level : string;
  e_energy : jsnum;
  e_impact_radius : ImpactRadius;
  e_is_earthquake : bool;
  e_location : option string
}.

Inductive DeviceStatus : Type := connected | disconnected.

Record DeviceInfo : Type := mkDevice {
  d_location : option string;
  d_status : DeviceStatus;
  d_connectedAt : Z;
  d_lastSeen : Z;
  d_history : list EnhancedData;
  d_battery : jsval;
  d_signal_strength : jsval;
  d_free_heap : jsval
}.

(** A socket handle.  [generateClientId] builds the id text from the peer
    address, the peer port and the clock; the triple stands for it. *)
Abbreviation ws := nat (only parsing).

Record ClientInfo : Type := mkClient {
  c_id : string * Z * Z;
  c_ip : string;
  c_connectedAt : Z;
  c_lastHeartbeat : Z;
  c_deviceId : option string;
  c_clientType : string
}.

Inductive ReadyState : Type := CONNECTING | OPEN | CLOSING | CLOSED.

Definition is_open (r : ReadyState) : bool :=
  match r with OPEN => true | _ => false end.

Record Hub : Type := mkHub {
  wss_clients : list (ws * ReadyState);
  clients : gmap ws ClientInfo;
  deviceData : gmap string DeviceInfo;
  recentData : list EnhancedData;
  dataCache : list EnhancedData;
  packetCount : Z;
  lastPacketReset : Z;
  currentPps : Z
}.

Definition MAX_CACHE_SIZE : nat := 1000.
Definition HEARTBEAT_INTERVAL : Z := 30000.
Definition MAX_HISTORY_SIZE : nat := 100.
Definition MAX_RECENT_DATA_SIZE : nat := 100.

Record HealthStatus : Type := mkHealth {
  health_timestamp : Z;
  health_connections : nat;
  health_devices : nat;
  health_uptime : Z
}.

Inductive ErrorText : Type := invalid_json | empty_device_id.

Inductive OutMsg : Type :=
| connection_established (server_time : Z) (client_id : string * Z * Z)
| error_reply (text : ErrorText)
| client_registered (client_type : string) (server_time : Z)
| server_health (h : HealthStatus)
| devices_data (devices : gmap string (option EnhancedData * DeviceInfo))
| recent_data (records : list EnhancedData)
| data_received (timestamp : Z) (magnitude : jsnum) (is_earthquake : bool)
| sensor_record (record : EnhancedData)
| device_registered (device_id : string) (server_time : Z)
| device_status (device_id : option string) (location : option string)
                (status : DeviceStatus) (timestamp : Z)
| heartbeat_ack (timestamp : Z)
| device_status_update (device_id : string)
                       (battery signal_strength free_heap : jsval)
                       (timestamp : Z)
| earthquake_alert (alert_level : string) (device_id : option string)
                   (magnitude : jsnum) (timestamp : Z) (location : string).

Inductive LogLevel : Type := log_info | log_warn | log_error.

(** What a handler does to the outside, one constructor per call: a log
    line, [ws.send], [ws.ping], [ws.terminate], the overwrite of the snapshot
    file with the whole buffer, the backup copy, and the removal of the
    snapshot file when it exists. *)
Inductive Effect : Type :=
| ELog (lvl : LogLevel)
| ESend (to : ws) (m : OutMsg)
| EPing (to : ws)
| ETerminate (target : ws)
| EWriteCache (contents : list EnhancedData)
| EWriteBackup (contents : list EnhancedData)
| EUnlinkCache.

(* ===================================================================== *)
(** ** Field updates *)
(* ===================================================================== *)

Definition with_lastHeartbeat (t : Z) (c : ClientInfo) : ClientInfo :=
  mkClient (c_id c) (c_ip c) (c_connectedAt c) t (c_deviceId c)
           (c_clientType c).

Definition with_deviceId (d : option string) (c : ClientInfo) : ClientInfo :=
  mkClient (c_id c) (c_ip c) (c_connectedAt c) (c_lastHeartbeat c) d
           (c_clientType c).

Definition with_clientType (t : string) (c : ClientInfo) : ClientInfo :=
  mkClient (c_id c) (c_ip c) (c_connectedAt c) (c_lastHeartbeat c)
           (c_deviceId c) t.

(** [deviceInfo.status = st; deviceInfo.lastSeen = new Date()]. *)
Definition mark (st : DeviceStatus) (now : Z) (d : DeviceInfo) : DeviceInfo :=
  mkDevice (d_location d) st (d_connectedAt d) now (d_history d)
           (d_battery d) (d_signal_strength d) (d_free_heap d).

Definition with_lastSeen (now : Z) (d : DeviceInfo) : DeviceInfo :=
  mark (d_status d) now d.

Definition with_history (l : list EnhancedData) (d : DeviceInfo) : DeviceInfo :=
  mkDevice (d_location d) (d_status d) (d_connectedAt d) (d_lastSeen d) l
           (d_battery d) (d_signal_strength d) (d_free_heap d).

Definition with_telemetry (b s f : jsval) (d : DeviceInfo) : DeviceInfo :=
  mkDevice (d_location d) (d_status d) (d_connectedAt d) (d_lastSeen d)
           (d_history d) b s f.

Definition with_sockets (l : list (ws * ReadyState)) (h : Hub) : Hub :=
  mkHub l (clients h) (deviceData h) (recentData h) (dataCache h)
        (packetCount h) (lastPacketReset h) (currentPps h).

Definition with_clients (c : gmap ws ClientInfo) (h : Hub) : Hub :=
  mkHub (wss_clients h) c (deviceData h) (recentData h) (dataCache h)
        (packetCount h) (lastPacketReset h) (currentPps h).

Definition with_deviceData (d : gmap string DeviceInfo) (h : Hub) : Hub :=
  mkHub (wss_clients h) (clients h) d (recentData h) (dataCache h)
        (packetCount h) (lastPacketReset h) (currentPps h).

Definition with_dataCache (l : list EnhancedData) (h : Hub) : Hub :=
  mkHub (wss_clients h) (clients h) (deviceData h) (recentData h) l
        (packetCount h) (lastPacketReset h) (currentPps h).

(* ===================================================================== *)
(** ** Fan-out *)
(* ===================================================================== *)

Definition is_dashboard (info : ClientInfo) : bool :=
  match c_deviceId info with
  | Some d => String.eqb d "DASHBOARD"
  | None => false
  end
  || String.eqb (c_clientType info) "monitor".

Definition dashboard_target (h : Hub) (entry : ws * ReadyState) : bool :=
  match clients h !! entry.1 with
  | Some info => is_open entry.2 && is_dashboard info
  | None => false
  end.

Definition broadcastToDashboards (h : Hub) (message : OutMsg) : list Effect :=
  map (fun entry => ESend entry.1 message)
      (List.filter (dashboard_target h) (wss_clients h)).

Definition send_to_open (h : Hub) (message : OutMsg) : list Effect :=
  map (fun entry => ESend entry.1 message)
      (List.filter (fun entry => is_open entry.2) (wss_clients h)).

Definition unknown_location : string := "未知位置".

(** [data.location || '未知位置']. *)
Definition location_or_unknown (l : option string) : string :=
  match l with
  | Some s => if String.eqb s "" then unknown_location else s
  | None => unknown_location
  end.

Definition alert_of (data : EnhancedData) : OutMsg :=
  earthquake_alert "warning" (msg_device_id (e_data data)) (e_magnitude data)
                   (e_server_timestamp data)
                   (location_or_unknown (e_location data)).

Definition handleEarthquakeAlert (h : Hub) (data : EnhancedData)
  : list Effect :=
  ELog log_warn :: send_to_open h (alert_of data).

(* ===================================================================== *)
(** ** Ingestion pipeline *)
(* ===================================================================== *)

(** A handler either returns, or throws before it changed anything (reading
    a property of an [undefined] client); the [message] listener catches it. *)
Inductive Outcome : Type :=
| Done (h : Hub) (out : list Effect)
| Throw.

(** [l.push(x); if (l.length > limit) l.shift()]. *)
Definition push_bounded {A : Type} (limit : nat) (l : list A) (x : A)
  : list A :=
  let pushed := l ++ [x] in
  if (limit <? length pushed)%nat then tail pushed else pushed.

(** [deviceInfo.location || null]. *)
Definition location_or_null (l : option string) : option string :=
  if truthy_string l then l else None.

Definition enhance (data : Message) (deviceInfo : DeviceInfo) (now : Z)
                   (ax ay az : jsnum) : EnhancedData :=
  let magnitude := calculateMagnitude ax ay az in
  let intensity := calculateIntensity ax ay az (JFin 10) in
  let jmaResult := calculateJmaSeismicIntensity ax ay az (JFin 1.0) in
  let jmaIntensity := jma_intensity_of jmaResult in
  let pga := jma_pga_raw jmaResult in
  let earthquakeType := classifyEarthquake magnitude in
  let alertLevel := level (assessAlertLevel magnitude intensity) in
  let energy := calculateEnergy magnitude in
  let impactRadius := calculateImpactRadius magnitude in
  let isEarthquake := detectEarthquake magnitude default_threshold in
  mkEnhanced data now
             (toFixed_parsed 4 magnitude) (toFixed_parsed 4 intensity)
             (toFixed_parsed 4 jmaIntensity) (toFixed_parsed 6 pga)
             earthquakeType alertLevel energy impactRadius isEarthquake
             (location_or_null (d_location deviceInfo)).

Definition parsed_axes (data : Message) : list jsnum :=
  [parseFloat (msg_ax data); parseFloat (msg_ay data);
   parseFloat (msg_az data); parseFloat (msg_gx data);
   parseFloat (msg_gy data); parseFloat (msg_gz data)].

(** The packet counter: one more packet, and once a second the count is
    published as the rate and reset. *)
Definition count_packet (now : Z) (h : Hub) : Hub :=
  let counted := (packetCount h + 1)%Z in
  if (1000 <=? now - lastPacketReset h)%Z
  then mkHub (wss_clients h) (clients h) (deviceData h) (recentData h)
             (dataCache h) 0%Z now counted
  else mkHub (wss_clients h) (clients h) (deviceData h) (recentData h)
             (dataCache h) counted (lastPacketReset h) (currentPps h).

Definition invalid_sensor_data (client : option ClientInfo) (h : Hub)
  : Outcome :=
  match client with
  | Some _ => Done h [ELog log_warn]
  | None => Throw
  end.

Definition handleSensorData (sock : option ws) (data : Message)
    (client : option ClientInfo) (now : Z) (h : Hub) : Outcome :=
  match msg_device_id data with
  | None => invalid_sensor_data client h
  | Some device_id =>
    if negb (truthy_string (Some device_id))
       || negb (truthy (msg_timestamp data))
    then invalid_sensor_data client h
    else
      match deviceData h !! device_id with
      | None => Done h [ELog log_warn]
      | Some deviceInfo =>
        if existsb isNaN (parsed_axes data) then Done h [ELog log_warn]
        else
          let deviceInfo := with_lastSeen now deviceInfo in
          let enhancedData :=
            enhance data deviceInfo now (parseFloat (msg_ax data))
                    (parseFloat (msg_ay data)) (parseFloat (msg_az data)) in
          let isEarthquake := e_is_earthquake enhancedData in
          let deviceInfo :=
            with_history (push_bounded MAX_HISTORY_SIZE (d_history deviceInfo)
                                       enhancedData) deviceInfo in
          let cache := push_bounded MAX_CACHE_SIZE (dataCache h) enhancedData in
          let h' :=
            count_packet now
              (mkHub (wss_clients h) (clients h)
                     (<[device_id := deviceInfo]> (deviceData h))
                     (push_bounded MAX_RECENT_DATA_SIZE (recentData h)
                                   enhancedData)
                     cache
                     (packetCount h) (lastPacketReset h) (currentPps h)) in
          Done h'
            ((if (length cache mod 100 =? 0)%nat || isEarthquake
              then [EWriteCache cache] else [])
             ++ [ELog log_info]
             ++ match sock with
                | Some s =>
                    [ESend s (data_received now
                                (calculateMagnitude (parseFloat (msg_ax data))
                                   (parseFloat (msg_ay data))
                                   (parseFloat (msg_az data)))
                                isEarthquake)]
                | None => []
                end
             ++ broadcastToDashboards h' (sensor_record enhancedData)
             ++ (if isEarthquake then handleEarthquakeAlert h' enhancedData
                 else []))
      end
  end.

Definition handleDeviceRegister (sock : ws) (data : Message)
    (client : option ClientInfo) (now : Z) (h : Hub) : Outcome :=
  let location := msg_location data in
  match msg_device_id data with
  | Some device_id =>
    if truthy_string (Some device_id) then
      match client with
      | None => Throw
      | Some client =>
        let registry := <[sock := with_deviceId (Some device_id) client]>
                          (clients h) in
        let directory :=
          match deviceData h !! device_id with
          | None =>
              <[device_id := mkDevice location connected now now []
                                      VUndef VUndef VUndef]> (deviceData h)
          | Some deviceInfo =>
              <[device_id := mark connected now deviceInfo]> (deviceData h)
          end in
        let h' := with_deviceData directory (with_clients registry h) in
        Done h'
          ([ELog log_info; ESend sock (device_registered device_id now)]
           ++ broadcastToDashboards h'
                (device_status (Some device_id) location connected now))
      end
    else Done h [ESend sock (error_reply empty_device_id)]
  | None => Done h [ESend sock (error_reply empty_device_id)]
  end.

(** [device_id && deviceData.has(device_id)]. *)
Definition known_device (h : Hub) (device_id : option string)
  : option (string * DeviceInfo) :=
  match device_id with
  | Some d =>
      if truthy_string (Some d)
      then match deviceData h !! d with
           | Some info => Some (d, info)
           | None => None
           end
      else None
  | None => None
  end.

Definition handleHeartbeat (sock : ws) (data : Message)
    (client : option ClientInfo) (now : Z) (h : Hub) : Outcome :=
  match client with
  | Some client =>
    let h1 := with_clients (<[sock := with_lastHeartbeat now client]>
                              (clients h)) h in
    let h2 :=
      match known_device h1 (msg_device_id data) with
      | Some (d, deviceInfo) =>
          with_deviceData (<[d := mark connected now deviceInfo]>
                             (deviceData h1)) h1
      | None => h1
      end in
    Done h2 [ESend sock (heartbeat_ack now)]
  | None => Done h []
  end.

Definition handleStatusUpdate (sock : ws) (data : Message)
    (client : option ClientInfo) (now : Z) (h : Hub) : Outcome :=
  let battery := msg_battery data in
  let signal_strength := msg_signal_strength data in
  let free_heap := msg_free_heap data in
  match known_device h (msg_device_id data) with
  | Some (device_id, deviceInfo) =>
    let deviceInfo :=
      mark connected now
           (with_telemetry battery signal_strength free_heap deviceInfo) in
    let h' := with_deviceData (<[device_id := deviceInfo]> (deviceData h)) h in
    Done h'
      (broadcastToDashboards h'
         (device_status_update device_id battery signal_strength free_heap
                               now))
  | None => Done h []
  end.

Definition getHealthStatus (h : Hub) (now uptime : Z) : HealthStatus :=
  mkHealth now (size (clients h)) (size (deviceData h)) uptime.

Definition handleClientRegister (sock : ws) (data : Message)
    (client : option ClientInfo) (now uptime : Z) (h : Hub) : Outcome :=
  let client_type := default "generic" (msg_client_type data) in
  match client with
  | None => Throw
  | Some client =>
    let h' := with_clients (<[sock := with_clientType client_type client]>
                              (clients h)) h in
    Done h'
      (ESend sock (client_registered client_type now)
       :: if String.eqb client_type "monitor" then
            [ESend sock (server_health (getHealthStatus h' now uptime));
             ESend sock
               (devices_data
                  ((fun info => (last (d_history info), info))
                     <$> deviceData h'));
             ESend sock (recent_data (recentData h'))]
          else [])
  end.

Definition unroutable (client : option ClientInfo) (h : Hub) : Outcome :=
  match client with
  | Some _ => Done h [ELog log_warn]
  | None => Throw
  end.

Definition handleMessage (sock : ws) (data : Message) (now uptime : Z)
    (h : Hub) : Outcome :=
  let client := clients h !! sock in
  match msg_type data with
  | None => unroutable client h
  | Some type =>
    if String.eqb type "" then unroutable client h
    else if String.eqb type "sensor_data"
    then handleSensorData (Some sock) data client now h
    else if String.eqb type "device_register"
    then handleDeviceRegister sock data client now h
    else if String.eqb type "heartbeat"
    then handleHeartbeat sock data client now h
    else if String.eqb type "status_update"
    then handleStatusUpdate sock data client now h
    else if String.eqb type "client_register"
    then handleClientRegister sock data client now uptime h
    else unroutable client h
  end.

(* ===================================================================== *)
(** ** Connection life cycle *)
(* ===================================================================== *)

(** [ws.readyState]; a socket the server no longer lists is closed. *)
Fixpoint ready_state (l : list (ws * ReadyState)) (sock : ws) : ReadyState :=
  match l with
  | [] => CLOSED
  | (w, r) :: l' => if Nat.eqb w sock then r else ready_state l' sock
  end.

Definition set_ready_state (sock : ws) (r : ReadyState)
    (l : list (ws * ReadyState)) : list (ws * ReadyState) :=
  map (fun entry => if Nat.eqb entry.1 sock then (entry.1, r) else entry) l.

Definition remove_socket (sock : ws) (l : list (ws * ReadyState))
  : list (ws * ReadyState) :=
  List.filter (fun entry => negb (Nat.eqb entry.1 sock)) l.

(** [Set.add] of a fresh, open socket: an element already present stays. *)
Definition add_socket (sock : ws) (l : list (ws * ReadyState))
  : list (ws * ReadyState) :=
  if existsb (fun entry => Nat.eqb entry.1 sock) l then l
  else l ++ [(sock, OPEN)].

Definition generateClientId (ip : string) (port now : Z) : string * Z * Z :=
  (ip, port, now).

(** [wss.on('connection', ...)]. *)
Definition on_connection (sock : ws) (ip : string) (port now : Z) (h : Hub)
  : Hub * list Effect :=
  let clientId := generateClientId ip port now in
  (with_clients
     (<[sock := mkClient clientId ip now now None "unknown"]> (clients h))
     (with_sockets (add_socket sock (wss_clients h)) h),
   [ELog log_info; ESend sock (connection_established now clientId)]).

(** [ws.on('pong', ...)]. *)
Definition on_pong (sock : ws) (now : Z) (h : Hub) : Hub * list Effect :=
  match clients h !! sock with
  | Some client =>
      (with_clients (<[sock := with_lastHeartbeat now client]> (clients h)) h,
       [])
  | None => (h, [])
  end.

(** The per-connection ping timer. *)
Definition on_ping_timer (sock : ws) (h : Hub) : Hub * list Effect :=
  if is_open (ready_state (wss_clients h) sock) then (h, [EPing sock])
  else (with_clients (delete sock (clients h)) h, []).

(** [ws.on('message', ...)]: [None] is a frame that [JSON.parse] rejects. *)
Definition on_message (sock : ws) (frame : option Message) (now uptime : Z)
    (h : Hub) : Hub * list Effect :=
  let failed := (h, [ELog log_error; ESend sock (error_reply invalid_json)]) in
  match frame with
  | None => failed
  | Some data =>
      match handleMessage sock data now uptime h with
      | Done h' out => (h', out)
      | Throw => failed
      end
  end.

(** [ws.on('close', ...)]: the server has already dropped the socket from
    [wss.clients] when the listener runs. *)
Definition on_close (sock : ws) (now : Z) (h : Hub) : Hub * list Effect :=
  let h0 := with_sockets (remove_socket sock (wss_clients h)) h in
  match clients h0 !! sock with
  | Some client =>
    let h1 :=
      match known_device h0 (c_deviceId client) with
      | Some (d, deviceInfo) =>
          with_deviceData (<[d := mark disconnected now deviceInfo]>
                             (deviceData h0)) h0
      | None => h0
      end in
    let h2 := with_clients (delete sock (clients h1)) h1 in
    (h2, ELog log_info
         :: broadcastToDashboards h2
              (device_status (c_deviceId client) None disconnected now))
  | None => (h0, [])
  end.

(** The peer starts the closing handshake. *)
Definition on_closing (sock : ws) (h : Hub) : Hub * list Effect :=
  (with_sockets (set_ready_state sock CLOSING (wss_clients h)) h, []).

(* ===================================================================== *)
(** ** Liveness monitor *)
(* ===================================================================== *)

Definition stale (now : Z) (info : ClientInfo) : bool :=
  (HEARTBEAT_INTERVAL * 2 <? now - c_lastHeartbeat info)%Z.

(** The body of the sweep's [forEach]. *)
Definition sweep_visit (now : Z) (acc : Hub * list Effect) (sock : ws)
  : Hub * list Effect :=
  let (h, out) := acc in
  match clients h !! sock with
  | Some clientInfo =>
    if stale now clientInfo then
      let h1 :=
        with_clients (delete sock (clients h))
          (with_sockets (set_ready_state sock CLOSING (wss_clients h)) h) in
      let evicted := out ++ [ELog log_warn; ETerminate sock] in
      match known_device h1 (c_deviceId clientInfo) with
      | Some (d, deviceInfo) =>
        let h2 :=
          with_deviceData (<[d := mark disconnected now deviceInfo]>
                             (deviceData h1)) h1 in
        (h2, evicted
             ++ broadcastToDashboards h2
                  (device_status (Some d) None disconnected now))
      | None => (h1, evicted)
      end
    else acc
  | None => acc
  end.

Definition sweep (now : Z) (h : Hub) : Hub * list Effect :=
  fold_left (sweep_visit now) (map fst (wss_clients h)) (h, []).

(* ===================================================================== *)
(** ** HTTP operations that change the hub *)
(* ===================================================================== *)

(** [POST /api/test/earthquake]: [magnitude] is the body's field as a number
    and [iso] the text of the current time. *)
Definition test_earthquake (magnitude : option jsnum)
    (device_id : option string) (iso : string) (now : Z) (h : Hub)
  : Hub * list Effect :=
  let magnitude := default (JFin 4.5) magnitude in
  let device_id := default "test_device" device_id in
  let testData :=
    mkMessage (Some "sensor_data") (Some device_id) (VStr iso)
              (VNum (js_mul magnitude (JFin 0.1)))
              (VNum (js_mul magnitude (JFin 0.2)))
              (VNum (js_mul magnitude (JFin 0.3)))
              (VNum (JFin 0)) (VNum (JFin 0)) (VNum (JFin 0))
              None VUndef VUndef VUndef None in
  let test_api := mkClient ("test_api", 0%Z, 0%Z) "" 0%Z 0%Z None "" in
  match handleSensorData None testData (Some test_api) now h with
  | Done h' out => (h', out)
  | Throw => (h, [])
  end.

(** [POST /api/clear-cache]. *)
Definition clear_cache (h : Hub) : Hub * list Effect :=
  (with_dataCache [] h,
   [EWriteBackup (dataCache h); EUnlinkCache; ELog log_info]).

(* ===================================================================== *)
(** ** The hub as a transition system *)
(* ===================================================================== *)

Inductive Event : Type :=
| EvConnection (sock : ws) (ip : string) (port now : Z)
| EvMessage (sock : ws) (frame : option Message) (now uptime : Z)
| EvPong (sock : ws) (now : Z)
| EvPingTimer (sock : ws)
| EvClosing (sock : ws)
| EvClose (sock : ws) (now : Z)
| EvSweep (now : Z)
| EvTestEarthquake (magnitude : option jsnum) (device_id : option string)
                   (iso : string) (now : Z)
| EvClearCache.

Definition step (h : Hub) (ev : Event) : Hub * list Effect :=
  match ev with
  | EvConnection sock ip port now => on_connection sock ip port now h
  | EvMessage sock frame now uptime => on_message sock frame now uptime h
  | EvPong sock now => on_pong sock now h
  | EvPingTimer sock => on_ping_timer sock h
  | EvClosing sock => on_closing sock h
  | EvClose sock now => on_close sock now h
  | EvSweep now => sweep now h
  | EvTestEarthquake magnitude device_id iso now =>
      test_earthquake magnitude device_id iso now h
  | EvClearCache => clear_cache h
  end.

Fixpoint run (h : Hub) (evs : list Event) : Hub :=
  match evs with
  | [] => h
  | ev :: evs' => run (step h ev).1 evs'
  end.

(** The hub at start-up; [loaded] is the snapshot file's array, or [[]]
    when there is no file or it does not parse. *)
Definition initial_hub (loaded : list EnhancedData) (now : Z) : Hub :=
  mkHub [] ∅ ∅ [] loaded 0%Z now 0%Z.

(* ===================================================================== *)
(** ** The command-line dashboard's alert list *)
(* ===================================================================== *)

Record ReceivedAlert : Type := mkReceived {
  alert_body : OutMsg;
  receivedAt : Z
}.

(** [MonitorDashboard.handleEarthquakeAlert]: newest first, at most ten. *)
Definition dashboard_handleEarthquakeAlert (earthquakeAlerts : list ReceivedAlert)
    (data : OutMsg) (now : Z) : list ReceivedAlert :=
  let alerts := mkReceived data now :: earthquakeAlerts in
  if (10 <? length alerts)%nat then removelast alerts else alerts.

(* ===================================================================== *)
(** ** Vocabulary of the properties *)
(* ===================================================================== *)

(** The closed forms the specification gives for the two clamped scores,
    over the reals; the intensity is taken at the distance of 10 km that
    [handleSensorData] passes. *)
Definition euclidean_norm (ax ay az : R) : R :=
  R_sqrt.sqrt (ax * ax + ay * ay + az * az).

Definition spec_magnitude (ax ay az : R) : R :=
  Rmax 0 (Rmin (Math.Rlog10 (euclidean_norm ax ay az + 1) * 2) 10).

Definition spec_intensity (ax ay az : R) : R :=
  Rmax 1 (Rmin 12 (Math.Rlog10 (euclidean_norm ax ay az + 1) * 2
                   - Math.Rlog10 10 * 0.2 - 0.5)).

(** Appending to a first-in first-out buffer of capacity [limit]. *)
Definition fifo_append {A : Type} (limit : nat) (l : list A) (x : A)
  : list A :=
  if (length l <? limit)%nat then l ++ [x] else drop 1 l ++ [x].

(** Every device's history is within its bound. *)
Definition histories_bounded (m : gmap string DeviceInfo) : Prop :=
  map_Forall (fun _ d => (length (d_history d) <= MAX_HISTORY_SIZE)%nat) m.

(** The three size bounds. *)
Definition bounded (h : Hub) : Prop :=
  histories_bounded (deviceData h)
  /\ (length (recentData h) <= MAX_RECENT_DATA_SIZE)%nat
  /\ (length (dataCache h) <= MAX_CACHE_SIZE)%nat.

(** A sample that passes every check of [handleSensorData]. *)
Definition accepted (h : Hub) (data : Message) (device_id : string)
    (deviceInfo : DeviceInfo) : Prop :=
  msg_device_id data = Some device_id
  /\ device_id <> ""%string
  /\ truthy (msg_timestamp data) = true
  /\ deviceData h !! device_id = Some deviceInfo
  /\ existsb isNaN (parsed_axes data) = false.

(** The record [handleSensorData] builds for an accepted sample. *)
Definition record_of (data : Message) (deviceInfo : DeviceInfo) (now : Z)
  : EnhancedData :=
  enhance data (with_lastSeen now deviceInfo) now (parseFloat (msg_ax data))
          (parseFloat (msg_ay data)) (parseFloat (msg_az data)).

(** The effects of an accepted sample, in program order; [cache] is the
    snapshot buffer after the append. *)
Definition sample_effects (sock : option ws) (data : Message)
    (record : EnhancedData) (now : Z) (h : Hub) (cache : list EnhancedData)
  : list Effect :=
  (if (length cache mod 100 =? 0)%nat || e_is_earthquake record
   then [EWriteCache cache] else [])
  ++ [ELog log_info]
  ++ match sock with
     | Some s =>
         [ESend s (data_received now
                     (calculateMagnitude (parseFloat (msg_ax data))
                        (parseFloat (msg_ay data)) (parseFloat (msg_az data)))
                     (e_is_earthquake record))]
     | None => []
     end
  ++ broadcastToDashboards h (sensor_record record)
  ++ (if e_is_earthquake record then handleEarthquakeAlert h record else []).

(** A sample that fails one of the checks. *)
Definition rejected (h : Hub) (data : Message) : Prop :=
  truthy_string (msg_device_id data) = false
  \/ truthy (msg_timestamp data) = false
  \/ (exists d, msg_device_id data = Some d /\ deviceData h !! d = None)
  \/ existsb isNaN (parsed_axes data) = true.

Definition is_finite (x : jsnum) : bool :=
  match x with JFin _ => true | _ => false end.

(** The reading of "fails validation" that also counts an infinite axis. *)
Definition rejected_or_infinite (h : Hub) (data : Message) : Prop :=
  rejected h data \/ forallb is_finite (parsed_axes data) = false.

(** Well-formedness of the two registries, kept by every operation. *)
Definition sockets_distinct (h : Hub) : Prop :=
  NoDup (map fst (wss_clients h)).

Definition tracked_listed (h : Hub) : Prop :=
  forall sock info, clients h !! sock = Some info ->
                    In sock (map fst (wss_clients h)).

Definition bound_known (h : Hub) : Prop :=
  forall sock info d, clients h !! sock = Some info ->
                      c_deviceId info = Some d ->
                      d <> ""%string /\ is_Some (deviceData h !! d).

Definition hub_ok (h : Hub) : Prop :=
  sockets_distinct h /\ tracked_listed h /\ bound_known h.

(** Effects of interest, as boolean tests. *)
Definition is_terminate (sock : ws) (e : Effect) : bool :=
  match e with
  | ETerminate w => Nat.eqb w sock
  | _ => false
  end.

Definition is_disconnect_notice (d : string) (to : ws) (e : Effect) : bool :=
  match e with
  | ESend w (device_status (Some d') _ disconnected _) =>
      Nat.eqb w to && String.eqb d' d
  | _ => false
  end.

Definition is_alert (e : Effect) : bool :=
  match e with
  | ESend _ (earthquake_alert _ _ _ _ _) => true
  | _ => false
  end.

Definition is_broadcast_to_others (sender : ws) (e : Effect) : bool :=
  match e with
  | ESend w _ => negb (Nat.eqb w sender)
  | _ => false
  end.

Definition is_cache_write (e : Effect) : bool :=
  match e with
  | EWriteCache _ => true
  | _ => false
  end.

(** A stale, tracked connection bound to device [d]. *)
Definition stale_bound_to (now : Z) (h : Hub) (d : string) (sock : ws)
  : bool :=
  match clients h !! sock with
  | Some info =>
      stale now info
      && match c_deviceId info with
         | Some d' => String.eqb d' d
         | None => false
         end
  | None => false
  end.

(** Whether the registry still holds [w] with [info] after the sweep has
    visited the sockets of [l]. *)
Definition survives (now : Z) (l : list ws) (w : ws) (info : ClientInfo)
  : bool :=
  negb (existsb (Nat.eqb w) l && stale now info).

(** The six orders of three arguments, and a choice of signs. *)
Inductive Order3 : Type := xyz | xzy | yxz | yzx | zxy | zyx.

Definition reorder {A : Type} (o : Order3) (f : A -> A -> A -> jsnum)
    (x y z : A) : jsnum :=
  match o with
  | xyz => f x y z
  | xzy => f x z y
  | yxz => f y x z
  | yzx => f y z x
  | zxy => f z x y
  | zyx => f z y x
  end.

Definition flip (negate : bool) (r : R) : jsnum :=
  JFin (if negate then - r else r).

(* ===================================================================== *)
(** ** Example messages and hubs *)
(* ===================================================================== *)

(** A sample from a device, stamped with an ISO date. *)
Definition sample (device_id : string) (ax ay az : jsval) : Message :=
  mkMessage (Some "sensor_data") (Some device_id)
            (VStr "2026-01-11T10:00:00.000Z") ax ay az
            (VNum (JFin 0)) (VNum (JFin 0)) (VNum (JFin 0))
            None VUndef VUndef VUndef None.

(** A sample at rest from device ["D1"]. *)
Definition quiet_sample : Message :=
  sample "D1" (VNum (JFin 0)) (VNum (JFin 0)) (VNum (JFin 0)).

Definition register_message (device_id : string) (location : option string)
  : Message :=
  mkMessage (Some "device_register") (Some device_id) VUndef
            VUndef VUndef VUndef VUndef VUndef VUndef
            location VUndef VUndef VUndef None.

Definition typed_message (type : string) : Message :=
  mkMessage (Some type) None VUndef VUndef VUndef VUndef VUndef VUndef VUndef
            None VUndef VUndef VUndef None.

(** One device connection registered as ["D1"] at ["Lab"]. *)
Definition lab_hub : Hub :=
  run (initial_hub [] 0)
      [EvConnection 1%nat "10.0.0.7" 50000 0;
       EvMessage 1%nat (Some (register_message "D1" (Some "Lab"))) 0 0].

Definition lab_device : DeviceInfo :=
  mkDevice (Some "Lab") connected 0 0 [] VUndef VUndef VUndef.

Definition lab_client : ClientInfo :=
  mkClient ("10.0.0.7", 50000%Z, 0%Z) "10.0.0.7" 0 0 (Some "D1") "unknown".

(** An axis sent as the text ["Infinity"]. *)
Definition infinite_sample : Message :=
  sample "D1" (VStr "Infinity") (VNum (JFin 0)) (VNum (JFin 0)).

(** A sample from a device that never registered. *)
Definition unregistered_sample : Message :=
  sample "D2" (VNum (JFin 0)) (VNum (JFin 0)) (VNum (JFin 0)).

(** A status update that reports the battery only. *)
Definition battery_report : Message :=
  mkMessage (Some "status_update") (Some "D1") VUndef
            VUndef VUndef VUndef VUndef VUndef VUndef
            None (VNum (JFin 87)) VUndef VUndef None.

Definition monitor_message : Message :=
  mkMessage (Some "client_register") None VUndef
            VUndef VUndef VUndef VUndef VUndef VUndef
            None VUndef VUndef VUndef (Some "monitor").

(** The laboratory device on socket 1, silent since time 0, and a monitor
    dashboard that connected on socket 2 at time 50000. *)
Definition watched_hub : Hub :=
  run (initial_hub [] 0)
      [EvConnection 1%nat "10.0.0.7" 50000 0;
       EvMessage 1%nat (Some (register_message "D1" (Some "Lab"))) 0 0;
       EvConnection 2%nat "10.0.0.9" 50001 50000;
       EvMessage 2%nat (Some monitor_message) 50000 50].


Definition strong_sample : Message :=
  sample "D1" (VNum (JFin 99)) (VNum (JFin 0)) (VNum (JFin 0)).

Definition quiet_event : Event := EvMessage 1%nat (Some quiet_sample) 5 5.

(** The laboratory hub after a thousand accepted quiet samples. *)
Definition saturated_hub : Hub := run lab_hub (repeat quiet_event 1000).

(** A sample whose magnitude is just below 3 and rounds to 3.0000. *)
Definition borderline_sample : Message :=
  sample "D1" (VNum (JFin 30.622)) (VNum (JFin 0)) (VNum (JFin 0)).

(* ===================================================================== *)
(** ** Further vocabulary: changes of the stored data *)
(* ===================================================================== *)

(** Whether one of three axis values is NaN. *)
Definition any_NaN (a b c : jsnum) : bool := isNaN a || isNaN b || isNaN c.

(** An update of a directory entry that keeps what identifies the device
    and what it has recorded. *)
Definition same_identity (info info' : DeviceInfo) : Prop :=
  d_location info' = d_location info
  /\ d_connectedAt info' = d_connectedAt info
  /\ d_history info' = d_history info.

(** The ways one handler call changes the stored data: nothing; one
    directory entry touched; one entry created, connected and with an empty
    history; one accepted sample appended to the three buffers; the snapshot
    buffer emptied. *)
Inductive data_change (h h' : Hub) : Prop :=
| data_kept :
    deviceData h' = deviceData h -> recentData h' = recentData h ->
    dataCache h' = dataCache h -> data_change h h'
| device_touched (d : string) (info info' : DeviceInfo) :
    deviceData h !! d = Some info -> same_identity info info' ->
    deviceData h' = <[d := info']> (deviceData h) ->
    recentData h' = recentData h -> dataCache h' = dataCache h ->
    data_change h h'
| device_created (d : string) (info' : DeviceInfo) :
    deviceData h !! d = None -> d <> ""%string ->
    d_history info' = [] -> d_status info' = connected ->
    deviceData h' = <[d := info']> (deviceData h) ->
    recentData h' = recentData h -> dataCache h' = dataCache h ->
    data_change h h'
| sample_stored (data : Message) (d : string) (info : DeviceInfo) (now : Z) :
    accepted h data d info ->
    deviceData h'
    = <[d := with_history
               (push_bounded MAX_HISTORY_SIZE (d_history info)
                             (record_of data info now))
               (with_lastSeen now info)]> (deviceData h) ->
    recentData h'
    = push_bounded MAX_RECENT_DATA_SIZE (recentData h)
                   (record_of data info now) ->
    dataCache h'
    = push_bounded MAX_CACHE_SIZE (dataCache h) (record_of data info now) ->
    data_change h h'
| cache_cleared :
    deviceData h' = deviceData h -> recentData h' = recentData h ->
    dataCache h' = [] -> data_change h h'.

(** A stored record: scores within their ranges and a device id. *)
Definition record_ok (r : EnhancedData) : Prop :=
  (exists m, e_magnitude r = JFin m /\ 0 <= m <= 10)
  /\ (exists i, e_intensity r = JFin i /\ 1 <= i <= 12)
  /\ exists d, msg_device_id (e_data r) = Some d /\ d <> ""%string.

(** Every record of the two shared buffers is well formed, and every
    record of a device's history is well formed and carries that device's
    id. *)
Definition records_ok (h : Hub) : Prop :=
  Forall record_ok (recentData h)
  /\ Forall record_ok (dataCache h)
  /\ map_Forall
       (fun d info =>
          Forall (fun r => record_ok r /\ msg_device_id (e_data r) = Some d)
                 (d_history info))
       (deviceData h).

(* ===================================================================== *)
(** ** Messages of the command-line dashboard *)
(* ===================================================================== *)

(** [MonitorDashboard.simulateEarthquake]: the sample the command-line
    dashboard sends on its [test] command; [iso] is the current time. *)
Definition simulateEarthquake (iso : string) : Message :=
  mkMessage (Some "sensor_data") (Some "TEST_DEVICE") (VStr iso)
            (VNum (JFin 5.0)) (VNum (JFin 4.5)) (VNum (JFin 5.5))
            (VNum (JFin 0)) (VNum (JFin 0)) (VNum (JFin 0))
            None VUndef VUndef VUndef None.

(** The registration the command-line dashboard sends when its connection
    opens; the hub does not read the [device_type] field. *)
Definition dashboard_registration : Message :=
  mkMessage (Some "device_register") (Some "DASHBOARD_CLI") VUndef
            VUndef VUndef VUndef VUndef VUndef VUndef
            None VUndef VUndef VUndef None.

(* ===================================================================== *)
(** ** The device history endpoint *)
(* ===================================================================== *)

Module ParseInt.

Definition hex_value (c : ascii) : option Z :=
  let n := nat_of_ascii c in
  if (48 <=? n)%nat && (n <=? 57)%nat then Some (Z.of_nat (n - 48))
  else if (97 <=? n)%nat && (n <=? 102)%nat then Some (Z.of_nat (n - 87))
  else if (65 <=? n)%nat && (n <=? 70)%nat then Some (Z.of_nat (n - 55))
  else None.

Fixpoint read_hex (s : string) (acc : Z) (count : nat) : Z * nat :=
  match s with
  | String c s' =>
      match hex_value c with
      | Some v => read_hex s' (16 * acc + v)%Z (S count)
      | None => (acc, count)
      end
  | EmptyString => (acc, count)
  end.

(** A [0x] or [0X] prefix selects radix 16. *)
Definition strip_prefix (s : string) : bool * string :=
  match s with
  | String "0"%char (String c s') =>
      if Ascii.eqb c "x" || Ascii.eqb c "X" then (true, s') else (false, s)
  | _ => (false, s)
  end.

(** [parseInt(s)] without a radix: [None] stands for NaN.  The value is the
    exact integer; JavaScript rounds it to a double above [2^53]. *)
Definition of_string (s : string) : option Z :=
  let (neg, body) := ParseFloat.read_sign (ParseFloat.trim_start s) in
  let (hex, digits) := strip_prefix body in
  let (v, n) :=
    if hex then read_hex digits 0%Z 0%nat
    else let '(v, n, _) := ParseFloat.read_digits digits 0%Z 0%nat in (v, n) in
  if (n =? 0)%nat then None else Some (if neg then (- v)%Z else v).

End ParseInt.

(** [parseInt(v)] of a query parameter: an absent one reads as the text
    ["undefined"], which has no digits. *)
Definition parseInt (v : option string) : option Z :=
  match v with
  | Some s => ParseInt.of_string s
  | None => None
  end.

(** [l.slice(start)] for an integer [start]: a negative one counts from the
    end, and both are clamped to the array. *)
Definition slice {A : Type} (start : Z) (l : list A) : list A :=
  let len := Z.of_nat (length l) in
  let k := if (start <? 0)%Z then Z.max (len + start) 0 else Z.min start len in
  drop (Z.to_nat k) l.

(** [parseInt(req.query.limit) || 100]. *)
Definition limit_or_default (limit : option string) : Z :=
  match parseInt limit with
  | Some n => if (n =? 0)%Z then 100%Z else n
  | None => 100%Z
  end.

(** [GET /api/device/:id/data]: the records of the answer, or [None] for
    the status 404. *)
Definition api_device_data (h : Hub) (deviceId : string)
    (limit : option string) : option (list EnhancedData) :=
  let limit := limit_or_default limit in
  match deviceData h !! deviceId with
  | Some deviceInfo => Some (slice (- limit) (d_history deviceInfo))
  | None => None
  end.

(* ===================================================================== *)
(** ** The command-line dashboard *)
(* ===================================================================== *)

(** A number after [JSON.stringify] and [JSON.parse]: NaN and the
    infinities arrive as [null]. *)
Definition json_number (x : jsnum) : jsval :=
  match x with
  | JFin r => VNum (JFin r)
  | _ => VNull
  end.

Module MonitorDashboard.

(** ['active'] is set by the dashboard itself, the other values come from
    the hub's [device_status]. *)
Inductive Status : Type := active | reported (s : DeviceStatus).

(** [new Date(timestamp)] of a message field, or [new Date()]. *)
Inductive Stamp : Type := stamp_of (timestamp : jsval) | stamp_now (now : Z).

(** An entry of [this.devices]; [None] is a property never assigned. *)
Record Device : Type := mkDevice {
  lastMagnitude : option jsval;
  lastUpdate : Stamp;
  status : Status;
  alertCount : nat;
  battery : option jsval;
  signal_strength : option jsval
}.

Record State : Type := mkState {
  devices : gmap (option string) Device;
  earthquakeAlerts : list ReceivedAlert
}.

Definition initial : State := mkState ∅ [].

Definition handleSensorData (data : EnhancedData) (st : State) : State :=
  let device_id := msg_device_id (e_data data) in
  let magnitude := json_number (e_magnitude data) in
  let timestamp := msg_timestamp (e_data data) in
  match devices st !! device_id with
  | None =>
      mkState (<[device_id := mkDevice (Some magnitude) (stamp_of timestamp)
                                       active 0 None None]> (devices st))
              (earthquakeAlerts st)
  | Some device =>
      mkState (<[device_id :=
                   mkDevice (Some magnitude) (stamp_of timestamp)
                            (status device)
                            (if e_is_earthquake data
                             then S (alertCount device)
                             else alertCount device)
                            (battery device) (signal_strength device)]>
                 (devices st))
              (earthquakeAlerts st)
  end.

Definition handleDeviceStatus (device_id : option string) (s : DeviceStatus)
    (now : Z) (st : State) : State :=
  match devices st !! device_id with
  | Some device =>
      mkState (<[device_id :=
                   mkDevice (lastMagnitude device) (lastUpdate device)
                            (reported s) (alertCount device)
                            (battery device) (signal_strength device)]>
                 (devices st))
              (earthquakeAlerts st)
  | None =>
      mkState (<[device_id := mkDevice None (stamp_now now) (reported s) 0
                                       None None]> (devices st))
              (earthquakeAlerts st)
  end.

Definition handleEarthquakeAlert (data : OutMsg) (now : Z) (st : State)
  : State :=
  mkState (devices st)
          (dashboard_handleEarthquakeAlert (earthquakeAlerts st) data now).

Definition handleDeviceUpdate (device_id : string)
    (battery signal_strength : jsval) (now : Z) (st : State) : State :=
  match devices st !! Some device_id with
  | Some device =>
      mkState (<[Some device_id :=
                   mkDevice (lastMagnitude device) (stamp_now now)
                            (status device) (alertCount device)
                            (Some battery) (Some signal_strength)]>
                 (devices st))
              (earthquakeAlerts st)
  | None => st
  end.

(** The [switch] on [message.type].  A record the hub broadcasts is the
    inbound sample with fields added, so its type is the sample's. *)
Definition handleMessage (message : OutMsg) (now : Z) (st : State) : State :=
  match message with
  | sensor_record data =>
      match msg_type (e_data data) with
      | Some type =>
          if String.eqb type "sensor_data" then handleSensorData data st
          else st
      | None => st
      end
  | device_status device_id _ s _ => handleDeviceStatus device_id s now st
  | earthquake_alert _ _ _ _ _ => handleEarthquakeAlert message now st
  | device_status_update device_id battery signal_strength _ _ =>
      handleDeviceUpdate device_id battery signal_strength now st
  | _ => st
  end.

(** What reaches the dashboard: a message of the hub, or the [clear]
    command typed by the operator. *)
Inductive Input : Type :=
| Received (message : OutMsg) (now : Z)
| Clear.

Definition step (st : State) (i : Input) : State :=
  match i with
  | Received message now => handleMessage message now st
  | Clear => mkState (devices st) []
  end.

Definition run (st : State) (inputs : list Input) : State :=
  fold_left step inputs st.

(** Whether an input is a sample record of device [d] ... *)
Definition is_record_of (d : option string) (i : Input) : option EnhancedData :=
  match i with
  | Received (sensor_record data) _ =>
      match msg_type (e_data data) with
      | Some type =>
          if String.eqb type "sensor_data"
             && bool_decide (msg_device_id (e_data data) = d)
          then Some data else None
      | None => None
      end
  | _ => None
  end.

(** ... or anything that makes the dashboard list device [d]. *)
Definition mentions (d : option string) (i : Input) : bool :=
  match i with
  | Received (device_status device_id _ _ _) _ => bool_decide (device_id = d)
  | _ => bool_decide (is_Some (is_record_of d i))
  end.

Definition is_quake_of (d : option string) (i : Input) : bool :=
  match is_record_of d i with
  | Some data => e_is_earthquake data
  | None => false
  end.

End MonitorDashboard.

(* ===================================================================== *)
(** ** The web interface server *)
(* ===================================================================== *)

Module WebInterface.

Definition SEND_INTERVAL : Z := 500.

(** An entry of [deviceChartData]: seven parallel arrays. *)
Record ChartData : Type := mkChart {
  timestamps : list jsnum;
  ax : list jsnum;
  ay : list jsnum;
  az : list jsnum;
  gx : list jsnum;
  gy : list jsnum;
  gz : list jsnum
}.

(** [lastSendTime] and [deviceChartData] are plain objects; their keys are
    property names. *)
Record State : Type := mkState {
  lastSendTime : gmap string Z;
  deviceChartData : gmap string ChartData
}.

Definition initial : State := mkState ∅ ∅.

(** The property name a device id is used as. *)
Definition property_key (device_id : option string) : string :=
  default "undefined"%string device_id.

(** The names a plain object inherits from [Object.prototype]: reading them
    gives a function or an object, never [undefined]. *)
Definition inherited (key : string) : bool :=
  existsb (String.eqb key)
    ["constructor"; "hasOwnProperty"; "isPrototypeOf";
     "propertyIsEnumerable"; "toLocaleString"; "toString"; "valueOf";
     "__proto__"; "__defineGetter__"; "__defineSetter__";
     "__lookupGetter__"; "__lookupSetter__"]%string.

(** [!lastSendTime[deviceId] || now - lastSendTime[deviceId] >= SEND_INTERVAL]
    for a key the object holds itself, or not at all. *)
Definition may_send (now : Z) (last : option Z) : bool :=
  match last with
  | None => true
  | Some t => (t =? 0)%Z || (SEND_INTERVAL <=? now - t)%Z
  end.

(** [parseFloat(v) || 0]. *)
Definition number_or_zero (v : jsval) : jsnum :=
  let x := parseFloat v in
  if truthy (VNum x) then x else JFin 0.

Definition empty_chart : ChartData := mkChart [] [] [] [] [] [] [].

Definition shift (c : ChartData) : ChartData :=
  mkChart (tail (timestamps c)) (tail (ax c)) (tail (ay c)) (tail (az c))
          (tail (gx c)) (tail (gy c)) (tail (gz c)).

Definition push (time : jsnum) (message : Message) (c : ChartData)
  : ChartData :=
  mkChart (timestamps c ++ [time])
          (ax c ++ [number_or_zero (msg_ax message)])
          (ay c ++ [number_or_zero (msg_ay message)])
          (az c ++ [number_or_zero (msg_az message)])
          (gx c ++ [number_or_zero (msg_gx message)])
          (gy c ++ [number_or_zero (msg_gy message)])
          (gz c ++ [number_or_zero (msg_gz message)]).

(** The chart block of the [message] listener; [getTime] stands for
    [new Date(v).getTime()].  The result carries the payload of the
    [detailed_sensor_data] event when one is emitted. *)
Definition chart_sensor_data (getTime : jsval -> jsnum) (now : Z)
    (message : Message) (st : State)
  : State * option (option string * ChartData) :=
  match msg_type message with
  | Some type =>
      if String.eqb type "sensor_data" then
        let deviceId := msg_device_id message in
        let key := property_key deviceId in
        if negb (inherited key) && may_send now (lastSendTime st !! key) then
          let chart := default empty_chart (deviceChartData st !! key) in
          let chart :=
            if (100 <=? length (timestamps chart))%nat then shift chart
            else chart in
          let chart := push (getTime (msg_timestamp message)) message chart in
          (mkState (<[key := now]> (lastSendTime st))
                   (<[key := chart]> (deviceChartData st)),
           Some (deviceId, chart))
        else (st, None)
      else (st, None)
  | None => (st, None)
  end.

Definition run (getTime : jsval -> jsnum) (st : State)
    (inputs : list (Z * Message)) : State :=
  fold_left (fun st input => (chart_sensor_data getTime input.1 input.2 st).1)
            inputs st.

(** A chart whose seven series have length [n], the axis ones without
    NaN. *)
Definition series_ok (n : nat) (c : ChartData) : Prop :=
  length (timestamps c) = n
  /\ Forall (fun series =>
               length series = n /\ Forall (fun x => isNaN x = false) series)
            [ax c; ay c; az c; gx c; gy c; gz c].

(** Seven series of one length between 1 and 100, the six axis series
    without NaN. *)
Definition aligned (c : ChartData) : Prop :=
  exists n, (1 <= n <= 100)%nat /\ series_ok n c.

End WebInterface.

(** The recent list and the snapshot buffer are tails of one sequence of
    records. *)
Definition common_tail (h : Hub) : Prop :=
  exists l, recentData h `suffix_of` l /\ dataCache h `suffix_of` l.

(** The reply to the sender of an accepted sample. *)
Definition is_acknowledgement (e : Effect) : bool :=
  match e with
  | ESend _ (data_received _ _ _) => true
  | _ => false
  end.

(* ===================================================================== *)
(** ** The score functions on binary64 numbers *)
(* ===================================================================== *)

#[local] Set Warnings "-inexact-float".

(** The same functions of [earthquake-algorithm.js] with the numbers the
    program has: IEEE 754 doubles, every sum, product and square root
    rounded to nearest. *)
Module Binary64.

(** [Math.pow(x, 2)], taken as the correctly rounded square. *)
Definition pow2 (x : float) : float := (x * x)%float.

Definition acceleration_norm (ax ay az : float) : float :=
  PrimFloat.sqrt (pow2 ax + pow2 ay + pow2 az)%float.

(** [Math.max] and [Math.min]: NaN as soon as an argument is, and [-0]
    below [+0]. *)
Definition max (a b : float) : float :=
  if PrimFloat.is_nan a || PrimFloat.is_nan b then nan
  else if (a <? b)%float then b
  else if (b <? a)%float then a
  else if PrimFloat.get_sign a then b else a.

Definition min (a b : float) : float :=
  if PrimFloat.is_nan a || PrimFloat.is_nan b then nan
  else if (a <? b)%float then a
  else if (b <? a)%float then b
  else if PrimFloat.get_sign a then a else b.

Section Scores.

(** The language leaves the precision of [Math.log10] to the
    implementation: any function on doubles. *)
Variable log10 : float -> float.

Definition calculateMagnitude (ax ay az : float) : float :=
  let acceleration := acceleration_norm ax ay az in
  let magnitude := (log10 (acceleration + 1) * 2)%float in
  max 0%float (min magnitude 10%float).

Definition calculateIntensity (ax ay az distance : float) : float :=
  let acceleration := acceleration_norm ax ay az in
  let magnitude := (log10 (acceleration + 1) * 2)%float in
  let distance := if (distance <=? 0)%float then 1%float else distance in
  let intensity := (magnitude - log10 distance * 0.2 - 0.5)%float in
  max 1%float (min 12%float intensity).

End Scores.

Record JmaResult : Type := mkJma {
  intensity : float;
  pga : float;
  pga_raw : float
}.

Definition calculateJmaSeismicIntensity
    (ax ay az correctionFactor : float) : JmaResult :=
  let PGA := (acceleration_norm ax ay az * 9.8)%float in
  let correctedPGA := (PGA * correctionFactor)%float in
  let intensity :=
    (if correctedPGA <? 0.0017 then 0
     else if correctedPGA <? 0.014 then 1
     else if correctedPGA <? 0.039 then 1.5
     else if correctedPGA <? 0.098 then 2
     else if correctedPGA <? 0.197 then 2.5
     else if correctedPGA <? 0.394 then 3
     else if correctedPGA <? 0.787 then 3.5
     else if correctedPGA <? 1.637 then 4
     else if correctedPGA <? 3.386 then 4.5
     else if correctedPGA <? 6.889 then 5
     else if correctedPGA <? 14.050 then 5.5
     else if correctedPGA <? 28.650 then 6
     else 6.5)%float in
  mkJma intensity correctedPGA PGA.

(** The sign of an axis, kept or flipped. *)
Definition flip (negate : bool) (x : float) : float :=
  if negate then (- x)%float else x.

End Binary64.

(* ===================================================================== *)
(** * Properties *)
(* ===================================================================== *)

(** ** Arithmetic of the enrichment functions on finite inputs *)

Lemma Rltb_true x y : x < y -> Rltb x y = true.
Proof. intros H. unfold Rltb. destruct (Rlt_dec x y); [reflexivity | contradiction]. Qed.

Lemma Rltb_false x y : y <= x -> Rltb x y = false.
Proof. intros H. unfold Rltb. destruct (Rlt_dec x y); [lra | reflexivity]. Qed.

Lemma Rleb_true x y : x <= y -> Rleb x y = true.
Proof. intros H. unfold Rleb. destruct (Rle_dec x y); [reflexivity | contradiction]. Qed.

Lemma Rleb_false x y : y < x -> Rleb x y = false.
Proof. intros H. unfold Rleb. destruct (Rle_dec x y); [lra | reflexivity]. Qed.

Lemma Reqb_false x y : x <> y -> Reqb x y = false.
Proof. intros H. unfold Reqb. destruct (Req_dec_T x y); [contradiction | reflexivity]. Qed.

Lemma Reqb_true x : Reqb x x = true.
Proof. unfold Reqb. destruct (Req_dec_T x x); [reflexivity | contradiction]. Qed.

Lemma min_finite x y : Math.min (JFin x) (JFin y) = JFin (Rmin x y).
Proof.
  unfold Math.min, js_lt, Rltb, Rmin.
  destruct (Rlt_dec y x), (Rle_dec x y); try reflexivity; lra.
Qed.

Lemma max_finite x y : Math.max (JFin x) (JFin y) = JFin (Rmax x y).
Proof.
  unfold Math.max, js_lt, Rltb, Rmax.
  destruct (Rlt_dec x y), (Rle_dec x y); try reflexivity; try lra.
  f_equal. lra.
Qed.

Lemma sum_squares_nonneg a b c : 0 <= a * a + b * b + c * c.
Proof. nra. Qed.

Lemma norm_nonneg a b c : 0 <= euclidean_norm a b c.
Proof. apply sqrt_pos. Qed.

Lemma acceleration_norm_finite a b c :
  acceleration_norm (JFin a) (JFin b) (JFin c) = JFin (euclidean_norm a b c).
Proof.
  unfold acceleration_norm, euclidean_norm. simpl.
  rewrite Rltb_false by apply sum_squares_nonneg. reflexivity.
Qed.

(** The unclamped score [Math.log10(acceleration + 1) * 2]. *)
Lemma raw_score_finite n :
  0 <= n ->
  js_mul (Math.log10 (js_add (JFin n) (JFin 1))) (JFin 2)
  = JFin (Math.Rlog10 (n + 1) * 2).
Proof.
  intros Hn. simpl.
  rewrite Rltb_false by lra. rewrite Reqb_false by lra. reflexivity.
Qed.

Lemma calculateMagnitude_finite a b c :
  calculateMagnitude (JFin a) (JFin b) (JFin c) = JFin (spec_magnitude a b c).
Proof.
  unfold calculateMagnitude, spec_magnitude.
  rewrite acceleration_norm_finite.
  rewrite raw_score_finite by apply norm_nonneg.
  rewrite min_finite, max_finite. reflexivity.
Qed.

Lemma log10_positive r : 0 < r -> Math.log10 (JFin r) = JFin (Math.Rlog10 r).
Proof.
  intros Hr. unfold Math.log10.
  rewrite Rltb_false by lra. rewrite Reqb_false by lra. reflexivity.
Qed.

Lemma sub_finite x y : js_sub (JFin x) (JFin y) = JFin (x - y).
Proof. reflexivity. Qed.

Lemma mul_finite x y : js_mul (JFin x) (JFin y) = JFin (x * y).
Proof. reflexivity. Qed.

Lemma calculateIntensity_finite a b c :
  calculateIntensity (JFin a) (JFin b) (JFin c) (JFin 10)
  = JFin (spec_intensity a b c).
Proof.
  unfold calculateIntensity, spec_intensity.
  rewrite acceleration_norm_finite.
  rewrite raw_score_finite by apply norm_nonneg.
  replace (js_le (JFin 10) (JFin 0)) with false
    by (unfold js_le, js_lt; rewrite Rltb_true by lra; reflexivity).
  rewrite log10_positive by lra.
  rewrite mul_finite, !sub_finite, min_finite, max_finite.
  reflexivity.
Qed.




Lemma round_half_up_between (a b : Z) (y : R) :
  IZR a <= y <= IZR b -> (a <= round_half_up y <= b)%Z.
Proof.
  intros [Ha Hb]. unfold round_half_up.
  destruct (base_Int_part (y + / 2)) as [Hle Hgt].
  split.
  - assert (IZR (a - 1) < IZR (Int_part (y + / 2))) as H
      by (rewrite minus_IZR; lra).
    apply lt_IZR in H. lia.
  - assert (IZR (Int_part (y + / 2)) < IZR (b + 1)) as H
      by (rewrite plus_IZR; lra).
    apply lt_IZR in H. lia.
Qed.

Lemma pow10_positive (d : nat) : 0 < 10 ^ d.
Proof. apply pow_lt. lra. Qed.

(** Rounding to [d] decimals keeps a value between two integer bounds. *)
Lemma toFixed_value_between (d : nat) (lo hi : Z) (r : R) :
  (0 <= lo)%Z -> IZR hi < 1e21 -> IZR lo <= r <= IZR hi ->
  IZR lo <= toFixed_value d r <= IZR hi.
Proof.
  intros Hlo Hhi [H1 H2].
  assert (0 <= r) as Hr by (apply IZR_le in Hlo; lra).
  unfold toFixed_value.
  rewrite Rleb_false by (rewrite Rabs_right; lra).
  rewrite Rltb_false by lra.
  pose proof (pow10_positive d) as Hd.
  destruct (round_half_up_between (lo * 10 ^ Z.of_nat d)
              (hi * 10 ^ Z.of_nat d) (r * 10 ^ d)) as [Ka Kb].
  { rewrite !mult_IZR, <- !pow_IZR. split; apply Rmult_le_compat_r; lra. }
  apply IZR_le in Ka, Kb.
  rewrite mult_IZR, <- pow_IZR in Ka, Kb.
  split.
  - apply Rmult_le_reg_r with (10 ^ d); [exact Hd |].
    unfold Rdiv. rewrite Rmult_assoc, Rinv_l by lra. lra.
  - apply Rmult_le_reg_r with (10 ^ d); [exact Hd |].
    unfold Rdiv. rewrite Rmult_assoc, Rinv_l by lra. lra.
Qed.

(** A rounded value is a whole number of units of the last decimal. *)
Lemma toFixed_value_grid (d : nat) (r : R) :
  0 <= r < 1e21 ->
  toFixed_value d r * 10 ^ d = IZR (round_half_up (r * 10 ^ d)).
Proof.
  intros [H0 H1]. unfold toFixed_value.
  rewrite Rleb_false by (rewrite Rabs_right; lra).
  rewrite Rltb_false by lra.
  pose proof (pow10_positive d) as Hd.
  unfold Rdiv. rewrite Rmult_assoc, Rinv_l by lra. lra.
Qed.

Lemma ln_10_positive : 0 < ln 10.
Proof. rewrite <- ln_1. apply ln_increasing; lra. Qed.






(** ** Bounded buffers *)

Section Buffers.
Context {A : Type}.
Implicit Types (l : list A) (x : A).

Lemma push_bounded_length limit l x :
  (length l <= limit)%nat -> (length (push_bounded limit l x) <= limit)%nat.
Proof.
  intros Hl. unfold push_bounded.
  destruct (Nat.ltb_spec limit (length (l ++ [x]))) as [Hlt | Hge].
  - rewrite length_tl, length_app. simpl. lia.
  - exact Hge.
Qed.

Lemma push_bounded_fifo limit l x :
  (0 < limit)%nat -> (length l <= limit)%nat ->
  push_bounded limit l x = fifo_append limit l x.
Proof.
  intros Hpos Hl. unfold push_bounded, fifo_append.
  rewrite length_app. simpl.
  destruct (Nat.ltb_spec limit (length l + 1)),
           (Nat.ltb_spec (length l) limit); try lia; try reflexivity.
  destruct l as [| y l']; [simpl in *; lia | reflexivity].
Qed.

Lemma push_bounded_last limit l x :
  (0 < limit)%nat -> last (push_bounded limit l x) = Some x.
Proof.
  intros Hpos. unfold push_bounded.
  destruct (Nat.ltb_spec limit (length (l ++ [x]))) as [Hlt | Hge].
  - destruct l as [| y l']; simpl in *.
    + lia.
    + apply last_snoc.
  - apply last_snoc.
Qed.
End Buffers.

(** ** Frame facts *)

Lemma count_packet_fields now h :
  wss_clients (count_packet now h) = wss_clients h
  /\ clients (count_packet now h) = clients h
  /\ deviceData (count_packet now h) = deviceData h
  /\ recentData (count_packet now h) = recentData h
  /\ dataCache (count_packet now h) = dataCache h.
Proof. unfold count_packet. destruct (_ <=? _)%Z; repeat split. Qed.

Lemma broadcast_ext h1 h2 m :
  wss_clients h1 = wss_clients h2 -> clients h1 = clients h2 ->
  broadcastToDashboards h1 m = broadcastToDashboards h2 m.
Proof.
  intros Hs Hc. unfold broadcastToDashboards. rewrite Hs. f_equal.
  apply filter_ext. intros entry. unfold dashboard_target. by rewrite Hc.
Qed.

Lemma send_to_open_ext h1 h2 m :
  wss_clients h1 = wss_clients h2 -> send_to_open h1 m = send_to_open h2 m.
Proof. intros Hs. unfold send_to_open. by rewrite Hs. Qed.

Lemma truthy_string_some d : d <> ""%string -> truthy_string (Some d) = true.
Proof. intros Hd. simpl. apply negb_true_iff, String.eqb_neq, Hd. Qed.

Lemma truthy_string_inv o :
  truthy_string o = true -> exists d, o = Some d /\ d <> ""%string.
Proof.
  destruct o as [d |]; simpl; [| discriminate].
  intros H. exists d. split; [reflexivity |].
  by apply String.eqb_neq, negb_true_iff.
Qed.

(** ** What [handleSensorData] does with an accepted sample *)

Lemma handleSensorData_accepted sock data client now h d info :
  accepted h data d info ->
  exists h',
    handleSensorData sock data client now h
    = Done h' (sample_effects sock data (record_of data info now) now h
                              (dataCache h'))
    /\ wss_clients h' = wss_clients h
    /\ clients h' = clients h
    /\ deviceData h'
       = <[d := with_history
                  (push_bounded MAX_HISTORY_SIZE (d_history info)
                                (record_of data info now))
                  (with_lastSeen now info)]> (deviceData h)
    /\ recentData h'
       = push_bounded MAX_RECENT_DATA_SIZE (recentData h)
                      (record_of data info now)
    /\ dataCache h'
       = push_bounded MAX_CACHE_SIZE (dataCache h) (record_of data info now).
Proof.
  intros (Hid & Hne & Hts & Hdev & Hnan).
  unfold handleSensorData. rewrite Hid.
  rewrite truthy_string_some by exact Hne. rewrite Hts. simpl negb. simpl orb.
  cbv iota. rewrite Hdev, Hnan.
  match goal with
  | |- exists _, Done (count_packet now ?x) _ = _ /\ _ =>
      exists (count_packet now x);
      destruct (count_packet_fields now x) as (Hs & Hc & Hd & Hr & Hcache)
  end.
  split; [| repeat split; assumption].
  f_equal. unfold sample_effects, record_of, handleEarthquakeAlert.
  rewrite Hcache. simpl dataCache.
  rewrite (broadcast_ext _ h) by assumption.
  rewrite (send_to_open_ext _ h) by assumption.
  reflexivity.
Qed.

Lemma handleSensorData_rejected sock data client now h :
  rejected h data ->
  handleSensorData sock data client now h
  = match client with
    | Some _ => Done h [ELog log_warn]
    | None =>
        if truthy_string (msg_device_id data) && truthy (msg_timestamp data)
        then Done h [ELog log_warn] else Throw
    end.
Proof.
  intros Hr. unfold handleSensorData, invalid_sensor_data.
  destruct (msg_device_id data) as [d |] eqn:Hid.
  - destruct (truthy_string (Some d)) eqn:Hd;
      destruct (truthy (msg_timestamp data)) eqn:Hts; simpl negb; simpl orb;
      simpl andb; cbv iota; try (destruct client; reflexivity).
    destruct (deviceData h !! d) as [info |] eqn:Hdev.
    + destruct (existsb isNaN (parsed_axes data)) eqn:Hnan.
      * destruct client; reflexivity.
      * exfalso.
        destruct Hr as [H | [H | [(d' & Hd' & Hnone) | H]]]; congruence.
    + destruct client; reflexivity.
  - destruct client; reflexivity.
Qed.

Lemma accepted_or_rejected h data :
  (exists d info, accepted h data d info) \/ rejected h data.
Proof.
  unfold accepted, rejected.
  destruct (truthy_string (msg_device_id data)) eqn:Hd; [| by right; left].
  destruct (truthy (msg_timestamp data)) eqn:Hts; [| by right; right; left].
  destruct (existsb isNaN (parsed_axes data)) eqn:Hnan;
    [by right; right; right; right |].
  apply truthy_string_inv in Hd as (d & Hid & Hne).
  destruct (deviceData h !! d) as [info |] eqn:Hdev.
  - left. exists d, info. by rewrite Hid.
  - right. right. right. left. exists d. by rewrite Hid.
Qed.

(** ** Well-formed hubs *)

Lemma map_fst_set_ready_state sock r l :
  map fst (set_ready_state sock r l) = map fst l.
Proof.
  unfold set_ready_state. rewrite map_map. apply map_ext.
  intros [w s]. simpl. by destruct (Nat.eqb w sock).
Qed.

Lemma hub_ok_step h h' :
  hub_ok h ->
  map fst (wss_clients h') = map fst (wss_clients h) ->
  (forall d, is_Some (deviceData h !! d) -> is_Some (deviceData h' !! d)) ->
  (forall sock info', clients h' !! sock = Some info' ->
     exists info, clients h !! sock = Some info
       /\ (c_deviceId info' = c_deviceId info
           \/ exists d, c_deviceId info' = Some d /\ d <> ""%string
                        /\ is_Some (deviceData h' !! d))) ->
  hub_ok h'.
Proof.
  intros (Hnd & Htl & Hbk) Hsock Hdom Hcl.
  split; [unfold sockets_distinct; by rewrite Hsock |]. split.
  - intros sock info' Hl. rewrite Hsock.
    destruct (Hcl _ _ Hl) as (info & Hi & _). by eapply Htl.
  - intros sock info' d Hl Hd.
    destruct (Hcl _ _ Hl) as (info & Hi & [Heq | (d' & Hd' & Hne & Hk)]).
    + rewrite Heq in Hd. destruct (Hbk _ _ _ Hi Hd) as [Hn Hs].
      split; [exact Hn | by apply Hdom].
    + rewrite Hd in Hd'. injection Hd' as <-. by split.
Qed.

Lemma insert_keeps_known (m : gmap string DeviceInfo) k v d :
  is_Some (m !! d) -> is_Some (<[k := v]> m !! d).
Proof. intros H. rewrite lookup_insert_is_Some. destruct (decide (k = d)); auto. Qed.

Lemma known_device_some h o d info :
  known_device h o = Some (d, info) ->
  o = Some d /\ d <> ""%string /\ deviceData h !! d = Some info.
Proof.
  unfold known_device. destruct o as [k |]; [| discriminate].
  destruct (truthy_string (Some k)) eqn:Ht; [| discriminate].
  destruct (deviceData h !! k) as [v |] eqn:Hl; [| discriminate].
  intros [= <- <-]. apply truthy_string_inv in Ht as (k' & [= <-] & Hne).
  auto.
Qed.

Lemma known_device_of_lookup h d info :
  d <> ""%string -> deviceData h !! d = Some info ->
  known_device h (Some d) = Some (d, info).
Proof.
  intros Hne Hl. unfold known_device.
  rewrite truthy_string_some by exact Hne. by rewrite Hl.
Qed.

Lemma histories_bounded_insert m k v :
  histories_bounded m -> (length (d_history v) <= MAX_HISTORY_SIZE)%nat ->
  histories_bounded (<[k := v]> m).
Proof. intros Hm Hv. by apply map_Forall_insert_2. Qed.

Lemma histories_bounded_update m k info f :
  histories_bounded m -> m !! k = Some info ->
  d_history (f info) = d_history info ->
  histories_bounded (<[k := f info]> m).
Proof.
  intros Hm Hk Hf. apply histories_bounded_insert; [exact Hm |].
  rewrite Hf. exact (Hm _ _ Hk).
Qed.

Ltac updated_client sock :=
  let sock' := fresh "sock'" in
  let info' := fresh "info'" in
  let Heq := fresh "Heq" in
  intros sock' info'; simpl; rewrite lookup_insert;
  destruct (decide (sock = sock')) as [Heq | Heq];
  [ try subst sock'; intros [= <-]; eexists; split; [eassumption | simpl]
  | intros ?; eexists; split; [eassumption | by left] ].

Lemma handleSensorData_inv sock data client now h h' out :
  bounded h -> hub_ok h ->
  handleSensorData sock data client now h = Done h' out ->
  bounded h' /\ hub_ok h'.
Proof.
  intros Hb Hok Hrun.
  destruct (accepted_or_rejected h data) as [(d & info & Hacc) | Hrej].
  - destruct (handleSensorData_accepted sock data client now h d info Hacc)
      as (h1 & Heq & Hs & Hc & Hd & Hr & Hcache).
    rewrite Heq in Hrun. injection Hrun as <- _.
    destruct Hacc as (_ & _ & _ & Hdev & _).
    destruct Hb as (Hh & Hrec & Hca). split.
    + unfold bounded. rewrite Hd, Hr, Hcache. repeat split.
      * apply histories_bounded_insert; [exact Hh |]. simpl.
        apply push_bounded_length. exact (Hh _ _ Hdev).
      * by apply push_bounded_length.
      * by apply push_bounded_length.
    + apply (hub_ok_step h); [exact Hok | by rewrite Hs | |].
      * intros d'. rewrite Hd. apply insert_keeps_known.
      * intros s info'. rewrite Hc. intros Hl. eexists. split; [exact Hl | by left].
  - rewrite (handleSensorData_rejected _ _ _ _ _ Hrej) in Hrun.
    destruct client; [| destruct (_ && _)]; try discriminate;
      injection Hrun as <- _; auto.
Qed.

Lemma handleDeviceRegister_inv sock data now h h' out :
  bounded h -> hub_ok h ->
  handleDeviceRegister sock data (clients h !! sock) now h = Done h' out ->
  bounded h' /\ hub_ok h'.
Proof.
  intros Hb Hok. unfold handleDeviceRegister.
  destruct (msg_device_id data) as [d |]; [| intros [= <- _]; auto].
  destruct (truthy_string (Some d)) eqn:Ht; [| intros [= <- _]; auto].
  apply truthy_string_inv in Ht as (d0 & [= <-] & Hne).
  destruct (clients h !! sock) as [client |] eqn:Hcl; [| discriminate].
  intros [= <- _]. destruct Hb as (Hh & Hrec & Hca).
  split.
  - repeat split; try assumption. simpl.
    destruct (deviceData h !! d) as [info |] eqn:Hdev.
    + by apply histories_bounded_update.
    + apply histories_bounded_insert; [exact Hh | simpl; lia].
  - apply (hub_ok_step h); [exact Hok | reflexivity | |].
    + intros d'. simpl. destruct (deviceData h !! d); apply insert_keeps_known.
    + updated_client sock.
      right. exists d. repeat split; [exact Hne |].
      destruct (deviceData h !! d); rewrite lookup_insert_eq; eauto.
Qed.

Lemma handleHeartbeat_inv sock data now h h' out :
  bounded h -> hub_ok h ->
  handleHeartbeat sock data (clients h !! sock) now h = Done h' out ->
  bounded h' /\ hub_ok h'.
Proof.
  intros Hb Hok. unfold handleHeartbeat.
  destruct (clients h !! sock) as [client |] eqn:Hcl;
    [| intros [= <- _]; auto].
  intros [= <- _]. destruct Hb as (Hh & Hrec & Hca).
  destruct (known_device _ (msg_device_id data)) as [[d info] |] eqn:Hk.
  - apply known_device_some in Hk as (_ & Hne & Hdev). simpl in Hdev. split.
    + repeat split; try assumption. simpl.
      by apply histories_bounded_update.
    + apply (hub_ok_step h); [exact Hok | reflexivity | |].
      * intros d'. simpl. apply insert_keeps_known.
      * updated_client sock. by left.
  - split; [repeat split; assumption |].
    apply (hub_ok_step h); [exact Hok | reflexivity | auto |].
    updated_client sock. by left.
Qed.

Lemma handleStatusUpdate_inv sock data client now h h' out :
  bounded h -> hub_ok h ->
  handleStatusUpdate sock data client now h = Done h' out ->
  bounded h' /\ hub_ok h'.
Proof.
  intros Hb Hok. unfold handleStatusUpdate.
  destruct (known_device h (msg_device_id data)) as [[d info] |] eqn:Hk;
    [| intros [= <- _]; auto].
  apply known_device_some in Hk as (_ & Hne & Hdev).
  intros [= <- _]. destruct Hb as (Hh & Hrec & Hca). split.
  - repeat split; try assumption. simpl.
    apply histories_bounded_insert; [exact Hh |]. simpl. exact (Hh _ _ Hdev).
  - apply (hub_ok_step h); [exact Hok | reflexivity | |].
    + intros d'. simpl. apply insert_keeps_known.
    + intros sock' info' Hl. simpl in Hl. eexists. split; [exact Hl | by left].
Qed.

Lemma handleClientRegister_inv sock data now uptime h h' out :
  bounded h -> hub_ok h ->
  handleClientRegister sock data (clients h !! sock) now uptime h
  = Done h' out ->
  bounded h' /\ hub_ok h'.
Proof.
  intros Hb Hok. unfold handleClientRegister.
  destruct (clients h !! sock) as [client |] eqn:Hcl; [| discriminate].
  intros [= <- _]. split; [exact Hb |].
  apply (hub_ok_step h); [exact Hok | reflexivity | auto |].
  updated_client sock. by left.
Qed.

Lemma unroutable_inv client h h' out :
  unroutable client h = Done h' out -> h' = h.
Proof. destruct client; [intros [= <- _] | discriminate]. reflexivity. Qed.

Lemma handleMessage_inv sock data now uptime h h' out :
  bounded h -> hub_ok h ->
  handleMessage sock data now uptime h = Done h' out ->
  bounded h' /\ hub_ok h'.
Proof.
  intros Hb Hok. unfold handleMessage.
  destruct (msg_type data) as [type |];
    [| intros H; apply unroutable_inv in H; by subst].
  repeat (match goal with |- context [if ?c then _ else _] => destruct c end);
    try (intros H; apply unroutable_inv in H; by subst).
  - by apply handleSensorData_inv.
  - by apply handleDeviceRegister_inv.
  - by apply handleHeartbeat_inv.
  - by apply handleStatusUpdate_inv.
  - by apply handleClientRegister_inv.
Qed.

Lemma listed_iff sock (l : list (ws * ReadyState)) :
  existsb (fun entry => Nat.eqb entry.1 sock) l = true <-> In sock (map fst l).
Proof.
  rewrite existsb_exists, in_map_iff. split.
  - intros ([w r] & Hin & Heq). apply Nat.eqb_eq in Heq. simpl in Heq.
    subst. by exists (sock, r).
  - intros ([w r] & Heq & Hin). simpl in Heq. subst.
    exists (sock, r). split; [exact Hin | apply Nat.eqb_refl].
Qed.

Lemma add_socket_listed sock l : In sock (map fst (add_socket sock l)).
Proof.
  unfold add_socket.
  destruct (existsb (fun entry => Nat.eqb entry.1 sock) l) eqn:He.
  - by apply listed_iff.
  - rewrite map_app, in_app_iff. right. by left.
Qed.

Lemma add_socket_keeps sock l w :
  In w (map fst l) -> In w (map fst (add_socket sock l)).
Proof.
  unfold add_socket.
  destruct (existsb (fun entry => Nat.eqb entry.1 sock) l); [auto |].
  rewrite map_app, in_app_iff. auto.
Qed.

Lemma add_socket_distinct sock l :
  NoDup (map fst l) -> NoDup (map fst (add_socket sock l)).
Proof.
  intros Hnd. unfold add_socket.
  destruct (existsb (fun entry => Nat.eqb entry.1 sock) l) eqn:He; [exact Hnd |].
  rewrite map_app. simpl. apply NoDup_app. repeat split.
  - exact Hnd.
  - intros w Hw Hin. apply list_elem_of_In in Hw.
    apply list_elem_of_In in Hin. destruct Hin as [<- | []].
    apply listed_iff in Hw. congruence.
  - apply NoDup_singleton.
Qed.

Lemma remove_socket_fst sock l :
  map fst (remove_socket sock l)
  = List.filter (fun w => negb (Nat.eqb w sock)) (map fst l).
Proof.
  unfold remove_socket. induction l as [| [w r] l IH]; [reflexivity |].
  simpl. destruct (Nat.eqb w sock); simpl; by rewrite IH.
Qed.

Lemma remove_socket_distinct sock l :
  NoDup (map fst l) -> NoDup (map fst (remove_socket sock l)).
Proof.
  intros Hnd. rewrite remove_socket_fst.
  apply NoDup_ListNoDup, List.NoDup_filter, NoDup_ListNoDup, Hnd.
Qed.

Lemma remove_socket_keeps sock l w :
  w <> sock -> In w (map fst l) -> In w (map fst (remove_socket sock l)).
Proof.
  intros Hne Hin. rewrite remove_socket_fst. apply filter_In.
  split; [exact Hin |]. by apply negb_true_iff, Nat.eqb_neq.
Qed.

Lemma on_connection_inv sock ip port now h :
  bounded h -> hub_ok h ->
  bounded (on_connection sock ip port now h).1
  /\ hub_ok (on_connection sock ip port now h).1.
Proof.
  intros Hb (Hnd & Htl & Hbk). split; [exact Hb |].
  split; [by apply add_socket_distinct |]. split.
  - intros w info. simpl. rewrite lookup_insert.
    destruct (decide (sock = w)) as [<- | Hne].
    + intros _. apply add_socket_listed.
    + intros Hl. apply add_socket_keeps. by eapply Htl.
  - intros w info d. simpl. rewrite lookup_insert.
    destruct (decide (sock = w)) as [<- | Hne].
    + intros [= <-]. discriminate.
    + intros Hl Hd. by apply (Hbk _ _ _ Hl Hd).
Qed.

Lemma deleted_client (m : gmap ws ClientInfo) sock sock' info' :
  delete sock m !! sock' = Some info' -> m !! sock' = Some info'.
Proof.
  rewrite lookup_delete. destruct (decide (sock = sock')); [discriminate | auto].
Qed.

Lemma on_pong_inv sock now h :
  bounded h -> hub_ok h ->
  bounded (on_pong sock now h).1 /\ hub_ok (on_pong sock now h).1.
Proof.
  intros Hb Hok. unfold on_pong.
  destruct (clients h !! sock) as [client |] eqn:Hcl; [| auto].
  split; [exact Hb |].
  apply (hub_ok_step h); [exact Hok | reflexivity | auto |].
  updated_client sock. by left.
Qed.

Lemma on_ping_timer_inv sock h :
  bounded h -> hub_ok h ->
  bounded (on_ping_timer sock h).1 /\ hub_ok (on_ping_timer sock h).1.
Proof.
  intros Hb Hok. unfold on_ping_timer.
  destruct (is_open _); [auto |]. split; [exact Hb |].
  apply (hub_ok_step h); [exact Hok | reflexivity | auto |].
  intros sock' info' Hl. simpl in Hl. apply deleted_client in Hl.
  eexists. split; [exact Hl | by left].
Qed.

Lemma on_closing_inv sock h :
  bounded h -> hub_ok h ->
  bounded (on_closing sock h).1 /\ hub_ok (on_closing sock h).1.
Proof.
  intros Hb Hok. split; [exact Hb |].
  apply (hub_ok_step h); [exact Hok | | auto |].
  - apply map_fst_set_ready_state.
  - intros sock' info' Hl. eexists. split; [exact Hl | by left].
Qed.

Lemma on_close_inv sock now h :
  bounded h -> hub_ok h ->
  bounded (on_close sock now h).1 /\ hub_ok (on_close sock now h).1.
Proof.
  intros (Hh & Hrec & Hca) (Hnd & Htl & Hbk). unfold on_close. simpl clients.
  assert (forall s i d', delete sock (clients h) !! s = Some i ->
                         c_deviceId i = Some d' ->
                         d' <> ""%string /\ is_Some (deviceData h !! d'))
    as Hdel.
  { intros s i d' Hl Hd'. apply deleted_client in Hl. by eapply Hbk. }
  assert (forall s i, delete sock (clients h) !! s = Some i ->
                      In s (map fst (remove_socket sock (wss_clients h))))
    as Hlisted.
  { intros s i Hl. apply remove_socket_keeps.
    - intros ->. by rewrite lookup_delete_eq in Hl.
    - apply deleted_client in Hl. by eapply Htl. }
  destruct (clients h !! sock) as [client |] eqn:Hcl.
  - destruct (known_device _ (c_deviceId client)) as [[d info] |] eqn:Hk.
    + apply known_device_some in Hk as (_ & Hne & Hdev). simpl in Hdev.
      split.
      * repeat split; try assumption. simpl.
        by apply histories_bounded_update.
      * split; [by apply remove_socket_distinct |].
        split; [exact Hlisted |].
        intros s i d' Hl Hd'. simpl in Hl.
        destruct (Hdel _ _ _ Hl Hd') as [Hn Hs].
        split; [exact Hn |]. simpl. by apply insert_keeps_known.
    + split; [repeat split; assumption |].
      split; [by apply remove_socket_distinct |].
      split; [exact Hlisted |].
      intros s i d' Hl Hd'. simpl in Hl. by apply (Hdel _ _ _ Hl Hd').
  - split; [repeat split; assumption |].
    split; [by apply remove_socket_distinct |]. split.
    + intros s i Hl. simpl in Hl. apply remove_socket_keeps.
      * intros ->. congruence.
      * by eapply Htl.
    + intros s i d' Hl Hd'. simpl in Hl. by apply (Hbk _ _ _ Hl Hd').
Qed.

Lemma sweep_visit_inv now acc sock :
  bounded acc.1 -> hub_ok acc.1 ->
  bounded (sweep_visit now acc sock).1 /\ hub_ok (sweep_visit now acc sock).1.
Proof.
  destruct acc as [h out]. simpl. intros Hb Hok.
  destruct (clients h !! sock) as [info |] eqn:Hcl; [| auto].
  destruct (stale now info); [| auto].
  destruct (known_device _ (c_deviceId info)) as [[d dev] |] eqn:Hk.
  - apply known_device_some in Hk as (_ & Hne & Hdev). simpl in Hdev.
    destruct Hb as (Hh & Hrec & Hca). split.
    + repeat split; try assumption. simpl.
      by apply histories_bounded_update.
    + apply (hub_ok_step h); [exact Hok | apply map_fst_set_ready_state | |].
      * intros d'. simpl. apply insert_keeps_known.
      * intros s i Hl. simpl in Hl. apply deleted_client in Hl.
        eexists. split; [exact Hl | by left].
  - split; [exact Hb |].
    apply (hub_ok_step h); [exact Hok | apply map_fst_set_ready_state | auto |].
    intros s i Hl. simpl in Hl. apply deleted_client in Hl.
    eexists. split; [exact Hl | by left].
Qed.

Lemma sweep_fold_inv now l acc :
  bounded acc.1 -> hub_ok acc.1 ->
  bounded (fold_left (sweep_visit now) l acc).1
  /\ hub_ok (fold_left (sweep_visit now) l acc).1.
Proof.
  revert acc. induction l as [| s l IH]; intros acc Hb Hok; [auto |].
  simpl. destruct (sweep_visit_inv now acc s Hb Hok). by apply IH.
Qed.

Lemma step_inv h ev :
  bounded h -> hub_ok h -> bounded (step h ev).1 /\ hub_ok (step h ev).1.
Proof.
  intros Hb Hok. destruct ev; simpl.
  - by apply on_connection_inv.
  - unfold on_message. destruct frame as [data |]; [| auto].
    destruct (handleMessage _ _ _ _ _) as [h' out |] eqn:Hm; [| auto].
    by eapply handleMessage_inv.
  - by apply on_pong_inv.
  - by apply on_ping_timer_inv.
  - by apply on_closing_inv.
  - by apply on_close_inv.
  - by apply sweep_fold_inv.
  - unfold test_earthquake.
    destruct (handleSensorData _ _ _ _ _) as [h' out |] eqn:Hm; [| auto].
    by eapply handleSensorData_inv.
  - destruct Hb as (Hh & Hrec & Hca). split; [| exact Hok].
    repeat split; try assumption. simpl. lia.
Qed.

Lemma run_inv evs h :
  bounded h -> hub_ok h -> bounded (run h evs) /\ hub_ok (run h evs).
Proof.
  revert h. induction evs as [| ev evs IH]; intros h Hb Hok; [auto |].
  simpl. destruct (step_inv h ev Hb Hok). by apply IH.
Qed.

Lemma initial_hub_inv loaded now :
  (length loaded <= MAX_CACHE_SIZE)%nat ->
  bounded (initial_hub loaded now) /\ hub_ok (initial_hub loaded now).
Proof.
  intros Hl. split.
  - repeat split; simpl; [apply map_Forall_empty | lia | exact Hl].
  - split; [apply NoDup_nil_2 |]. split.
    + intros s i Hs. simpl in Hs. by rewrite lookup_empty in Hs.
    + intros s i d Hs. simpl in Hs. by rewrite lookup_empty in Hs.
Qed.

(** ** The laboratory hub *)

Lemma lab_hub_device : deviceData lab_hub !! "D1" = Some lab_device.
Proof. vm_compute. reflexivity. Qed.

Lemma lab_hub_client : clients lab_hub !! 1%nat = Some lab_client.
Proof. vm_compute. reflexivity. Qed.

Lemma lab_hub_buffers : recentData lab_hub = [] /\ dataCache lab_hub = [].
Proof. split; vm_compute; reflexivity. Qed.

Lemma lab_accepts ax ay az :
  existsb isNaN (parsed_axes (sample "D1" ax ay az)) = false ->
  accepted lab_hub (sample "D1" ax ay az) "D1" lab_device.
Proof.
  intros Hnan. unfold accepted.
  split; [reflexivity |]. split; [discriminate |]. split; [reflexivity |].
  split; [apply lab_hub_device | exact Hnan].
Qed.

(** ** C1 *)

(** C1. Whatever the hub has processed since start-up (with a snapshot file
    of at most 1000 records, as the hub itself writes it), every device
    history holds at most 100 records, [recentData] at most 100 and the
    snapshot cache at most 1000; and an accepted sample is appended to each
    of the three buffers first-in first-out: the oldest record is dropped
    exactly when the buffer is already full. *)
Theorem buffers_stay_bounded
    (loaded : list EnhancedData) (start : Z) (evs : list Event) :
  (length loaded <= MAX_CACHE_SIZE)%nat ->
  let h := run (initial_hub loaded start) evs in
  (MAX_HISTORY_SIZE = 100 /\ MAX_RECENT_DATA_SIZE = 100
   /\ MAX_CACHE_SIZE = 1000)%nat
  /\ bounded h
  /\ forall sock data client now d info,
       accepted h data d info ->
       exists h' out,
         handleSensorData sock data client now h = Done h' out
         /\ d_history <$> deviceData h' !! d
            = Some (fifo_append MAX_HISTORY_SIZE (d_history info)
                                (record_of data info now))
         /\ recentData h'
            = fifo_append MAX_RECENT_DATA_SIZE (recentData h)
                          (record_of data info now)
         /\ dataCache h'
            = fifo_append MAX_CACHE_SIZE (dataCache h)
                          (record_of data info now).
Proof.
  intros Hload h.
  destruct (initial_hub_inv loaded start Hload) as [Hb0 Hok0].
  destruct (run_inv evs _ Hb0 Hok0) as [Hb _]. fold h in Hb.
  split; [repeat split |]. split; [exact Hb |].
  intros sock data client now d info Hacc.
  destruct (handleSensorData_accepted sock data client now h d info Hacc)
    as (h' & Heq & _ & _ & Hd & Hr & Hc).
  destruct Hb as (Hh & Hrec & Hca).
  destruct Hacc as (_ & _ & _ & Hdev & _).
  exists h', (sample_effects sock data (record_of data info now) now h
                             (dataCache h')).
  split; [exact Heq |]. split; [| split].
  - rewrite Hd, lookup_insert_eq. simpl. f_equal.
    apply push_bounded_fifo; [unfold MAX_HISTORY_SIZE; lia |].
    exact (Hh _ _ Hdev).
  - rewrite Hr. apply push_bounded_fifo;
      [unfold MAX_RECENT_DATA_SIZE; lia | exact Hrec].
  - rewrite Hc. apply push_bounded_fifo;
      [unfold MAX_CACHE_SIZE; lia | exact Hca].
Qed.

Lemma buffers_stay_bounded_witness :
  (length (@nil EnhancedData) <= MAX_CACHE_SIZE)%nat /\ bounded lab_hub.
Proof.
  assert (length (@nil EnhancedData) <= MAX_CACHE_SIZE)%nat as H
    by (unfold MAX_CACHE_SIZE; simpl; lia).
  split; [exact H |].
  exact (proj1 (proj2 (buffers_stay_bounded [] 0 _ H))).
Defined.

(** ** C3 *)

Lemma on_message_sensor sock data now uptime h :
  msg_type data = Some "sensor_data"%string ->
  on_message sock (Some data) now uptime h
  = match handleSensorData (Some sock) data (clients h !! sock) now h with
    | Done h' out => (h', out)
    | Throw => (h, [ELog log_error; ESend sock (error_reply invalid_json)])
    end.
Proof. intros Hty. unfold on_message, handleMessage. rewrite Hty. reflexivity. Qed.

(** C3, as stated, fails: an axis that parses to [Infinity] is not a finite
    number, yet the sample passes the [isNaN] check and is ingested. *)
Lemma infinite_axis_is_ingested :
  msg_type infinite_sample = Some "sensor_data"%string
  /\ rejected_or_infinite lab_hub infinite_sample
  /\ recentData (on_message 1%nat (Some infinite_sample) 5 5 lab_hub).1
     <> recentData lab_hub.
Proof.
  split; [reflexivity |]. split; [right; reflexivity |].
  rewrite on_message_sensor by reflexivity.
  destruct (handleSensorData_accepted (Some 1%nat) infinite_sample
              (clients lab_hub !! 1%nat) 5 lab_hub "D1" lab_device)
    as (h' & Heq & _ & _ & _ & Hr & _).
  { apply lab_accepts. reflexivity. }
  rewrite Heq. simpl. rewrite Hr.
  rewrite (proj1 lab_hub_buffers). discriminate.
Qed.

(** C3, amended. A [sensor_data] message whose device id or timestamp is
    missing, whose device id is not in the Device Directory, or one of whose
    six axis fields parses to NaN, changes nothing in the hub and is
    broadcast to nobody: the only effect is a warning in the log (or, on a
    connection the registry no longer tracks, an error reply to the sender).
    The same holds when the sample comes from the HTTP test endpoint. *)
Theorem rejected_sample_is_dropped
    (sock : ws) (data : Message) (now uptime : Z) (h : Hub) :
  msg_type data = Some "sensor_data"%string ->
  rejected h data ->
  let result := on_message sock (Some data) now uptime h in
  result.1 = h
  /\ List.filter (is_broadcast_to_others sock) result.2 = []
  /\ List.filter is_cache_write result.2 = []
  /\ (is_Some (clients h !! sock) -> result.2 = [ELog log_warn])
  /\ forall caller,
       handleSensorData None data (Some caller) now h
       = Done h [ELog log_warn].
Proof.
  intros Hty Hrej result. subst result.
  rewrite on_message_sensor by exact Hty.
  rewrite (handleSensorData_rejected _ _ _ _ _ Hrej).
  split; [| split; [| split; [| split]]].
  - destruct (clients h !! sock); [| destruct (_ && _)]; reflexivity.
  - destruct (clients h !! sock); [| destruct (_ && _)]; simpl;
      rewrite ?Nat.eqb_refl; reflexivity.
  - destruct (clients h !! sock); [| destruct (_ && _)]; reflexivity.
  - intros [client ->]. reflexivity.
  - intros caller. apply (handleSensorData_rejected _ _ (Some caller)), Hrej.
Qed.

Lemma rejected_sample_is_dropped_witness :
  (msg_type unregistered_sample = Some "sensor_data"%string
   /\ rejected lab_hub unregistered_sample)
  /\ (on_message 1%nat (Some unregistered_sample) 5 5 lab_hub).1 = lab_hub.
Proof.
  assert (rejected lab_hub unregistered_sample) as Hrej.
  { right. right. left. exists "D2"%string. split; [reflexivity |].
    vm_compute. reflexivity. }
  split; [split; [reflexivity | exact Hrej] |].
  exact (proj1 (rejected_sample_is_dropped 1%nat unregistered_sample 5 5
                  lab_hub eq_refl Hrej)).
Defined.

(** ** C6 *)

Lemma on_message_register sock data now uptime h :
  msg_type data = Some "device_register"%string ->
  on_message sock (Some data) now uptime h
  = match handleDeviceRegister sock data (clients h !! sock) now h with
    | Done h' out => (h', out)
    | Throw => (h, [ELog log_error; ESend sock (error_reply invalid_json)])
    end.
Proof. intros Hty. unfold on_message, handleMessage. rewrite Hty. reflexivity. Qed.

(** C6, as stated, fails: registering the known device ["D1"] again from
    another place leaves the location stored in the directory as it was. *)
Lemma reregistration_keeps_stored_location :
  deviceData lab_hub !! "D1" = Some lab_device
  /\ d_location
       <$> deviceData
             (on_message 1%nat (Some (register_message "D1" (Some "Roof")))
                         9 9 lab_hub).1 !! "D1"
     <> Some (Some "Roof"%string).
Proof.
  split; [apply lab_hub_device |]. vm_compute. discriminate.
Qed.

(** C6, amended. A [device_register] message for a device id that the
    directory already knows keeps the device's history and its stored
    location unchanged, sets its status to connected and its [lastSeen] to
    the current time; the location of the message is only forwarded in the
    [device_status] broadcast. *)
Theorem reregistration_preserves_history
    (sock : ws) (data : Message) (now uptime : Z) (h : Hub)
    (client : ClientInfo) (d : string) (info : DeviceInfo) :
  msg_type data = Some "device_register"%string ->
  clients h !! sock = Some client ->
  msg_device_id data = Some d -> d <> ""%string ->
  deviceData h !! d = Some info ->
  let result := on_message sock (Some data) now uptime h in
  (exists info',
     deviceData result.1 !! d = Some info'
     /\ d_history info' = d_history info
     /\ d_location info' = d_location info
     /\ d_status info' = connected
     /\ d_lastSeen info' = now)
  /\ result.2
     = [ELog log_info; ESend sock (device_registered d now)]
       ++ broadcastToDashboards result.1
            (device_status (Some d) (msg_location data) connected now).
Proof.
  intros Hty Hcl Hid Hne Hdev result. subst result.
  rewrite on_message_register by exact Hty.
  unfold handleDeviceRegister.
  rewrite Hid, (truthy_string_some d Hne), Hcl, Hdev. simpl.
  split; [| reflexivity].
  exists (mark connected now info).
  rewrite lookup_insert_eq. repeat split.
Qed.

Lemma reregistration_preserves_history_witness :
  (clients lab_hub !! 1%nat = Some lab_client
   /\ deviceData lab_hub !! "D1" = Some lab_device)
  /\ exists info',
       deviceData
         (on_message 1%nat (Some (register_message "D1" (Some "Roof")))
                     9 9 lab_hub).1 !! "D1" = Some info'
       /\ d_history info' = d_history lab_device
       /\ d_location info' = d_location lab_device
       /\ d_status info' = connected
       /\ d_lastSeen info' = 9%Z.
Proof.
  split; [split; [apply lab_hub_client | apply lab_hub_device] |].
  refine (proj1 (reregistration_preserves_history 1%nat
                   (register_message "D1" (Some "Roof")) 9 9 lab_hub
                   lab_client "D1" lab_device eq_refl lab_hub_client eq_refl
                   _ lab_hub_device)).
  discriminate.
Defined.

(** ** C8 *)

(** C8, as stated, fails: a [sensor_data] message that the hub accepts at
    time 40000 leaves the connection's [lastHeartbeat] at its old value. *)
Lemma sensor_data_leaves_lastHeartbeat :
  clients lab_hub !! 1%nat = Some lab_client
  /\ msg_type quiet_sample = Some "sensor_data"%string
  /\ c_lastHeartbeat
       <$> clients (on_message 1%nat (Some quiet_sample) 40000 40 lab_hub).1
           !! 1%nat
     <> Some 40000%Z.
Proof.
  split; [apply lab_hub_client |]. split; [reflexivity |].
  rewrite on_message_sensor by reflexivity.
  destruct (handleSensorData_accepted (Some 1%nat) quiet_sample
              (clients lab_hub !! 1%nat) 40000 lab_hub "D1" lab_device)
    as (h' & Heq & _ & Hc & _).
  { apply lab_accepts. reflexivity. }
  rewrite Heq. simpl. rewrite Hc, lab_hub_client. discriminate.
Qed.

Lemma handleSensorData_clients sock data client now h h' out :
  handleSensorData sock data client now h = Done h' out ->
  clients h' = clients h.
Proof.
  intros Hrun.
  destruct (accepted_or_rejected h data) as [(d & info & Hacc) | Hrej].
  - destruct (handleSensorData_accepted sock data client now h d info Hacc)
      as (h1 & Heq & _ & Hc & _).
    rewrite Heq in Hrun. by injection Hrun as <- _.
  - rewrite (handleSensorData_rejected _ _ _ _ _ Hrej) in Hrun.
    destruct client; [| destruct (_ && _)]; try discriminate;
      by injection Hrun as <- _.
Qed.

(** C8, amended. The [lastHeartbeat] of a tracked connection is set to the
    current time by an inbound [heartbeat] message and by a pong; a frame of
    any other kind (malformed, untyped, or of another type) leaves it as it
    was. *)
Theorem lastHeartbeat_follows_heartbeat_and_pong
    (sock : ws) (client : ClientInfo) (now uptime : Z) (h : Hub) :
  clients h !! sock = Some client ->
  (forall data, msg_type data = Some "heartbeat"%string ->
     c_lastHeartbeat
       <$> clients (on_message sock (Some data) now uptime h).1 !! sock
     = Some now)
  /\ c_lastHeartbeat <$> clients (on_pong sock now h).1 !! sock = Some now
  /\ (forall frame,
        (forall data, frame = Some data ->
                      msg_type data <> Some "heartbeat"%string) ->
        c_lastHeartbeat
          <$> clients (on_message sock frame now uptime h).1 !! sock
        = Some (c_lastHeartbeat client)).
Proof.
  intros Hcl. split; [| split].
  - intros data Hty. unfold on_message, handleMessage. rewrite Hty, Hcl.
    simpl. destruct (known_device _ _) as [[d info] |]; simpl;
      by rewrite lookup_insert_eq.
  - unfold on_pong. rewrite Hcl. simpl. by rewrite lookup_insert_eq.
  - intros frame Hother. unfold on_message.
    destruct frame as [data |]; [| simpl; by rewrite Hcl].
    specialize (Hother data eq_refl).
    unfold handleMessage. rewrite Hcl.
    destruct (msg_type data) as [type |]; [| simpl; by rewrite Hcl].
    destruct (String.eqb type "") eqn:E0; [simpl; by rewrite Hcl |].
    destruct (String.eqb type "sensor_data") eqn:E1.
    { destruct (handleSensorData _ _ _ _ _) as [h' out |] eqn:Hs; simpl.
      - apply handleSensorData_clients in Hs. by rewrite Hs, Hcl.
      - by rewrite Hcl. }
    destruct (String.eqb type "device_register") eqn:E2.
    { unfold handleDeviceRegister.
      destruct (msg_device_id data) as [d |]; [| simpl; by rewrite Hcl].
      destruct (truthy_string (Some d)); simpl; [| by rewrite Hcl].
      by rewrite lookup_insert_eq. }
    destruct (String.eqb type "heartbeat") eqn:E3.
    { apply String.eqb_eq in E3. congruence. }
    destruct (String.eqb type "status_update") eqn:E4.
    { unfold handleStatusUpdate.
      destruct (known_device _ _) as [[d info] |]; simpl; by rewrite Hcl. }
    destruct (String.eqb type "client_register") eqn:E5.
    { simpl. by rewrite lookup_insert_eq. }
    simpl. by rewrite Hcl.
Qed.

Lemma lastHeartbeat_follows_heartbeat_and_pong_witness :
  clients lab_hub !! 1%nat = Some lab_client
  /\ c_lastHeartbeat
       <$> clients (on_message 1%nat (Some (typed_message "heartbeat"))
                               40000 40 lab_hub).1 !! 1%nat
     = Some 40000%Z.
Proof.
  split; [apply lab_hub_client |].
  exact (proj1 (lastHeartbeat_follows_heartbeat_and_pong 1%nat lab_client
                  40000 40 lab_hub lab_hub_client)
               (typed_message "heartbeat") eq_refl).
Defined.

(** ** C9 *)

Lemma on_message_status sock data now uptime h :
  msg_type data = Some "status_update"%string ->
  on_message sock (Some data) now uptime h
  = match handleStatusUpdate sock data (clients h !! sock) now h with
    | Done h' out => (h', out)
    | Throw => (h, [ELog log_error; ESend sock (error_reply invalid_json)])
    end.
Proof. intros Hty. unfold on_message, handleMessage. rewrite Hty. reflexivity. Qed.

(** Who receives a dashboard broadcast: the open sockets whose registry
    entry is a monitor client or is bound to the reserved id. *)
Lemma broadcast_reaches h message w m :
  In (ESend w m) (broadcastToDashboards h message)
  <-> m = message
      /\ exists info, In (w, OPEN) (wss_clients h)
                      /\ clients h !! w = Some info
                      /\ is_dashboard info = true.
Proof.
  unfold broadcastToDashboards. rewrite in_map_iff. split.
  - intros ([w' r] & [= <- <-] & Hin). apply filter_In in Hin as [Hin Ht].
    unfold dashboard_target in Ht. simpl in Ht.
    destruct (clients h !! w') as [info |] eqn:Hcl; [| discriminate].
    apply andb_true_iff in Ht as [Hopen Hdash].
    destruct r; try discriminate. split; [reflexivity |]. by exists info.
  - intros (-> & info & Hin & Hcl & Hdash). exists (w, OPEN).
    split; [reflexivity |]. apply filter_In. split; [exact Hin |].
    unfold dashboard_target. simpl. by rewrite Hcl, Hdash.
Qed.

Lemma is_dashboard_spec c :
  is_dashboard c = true
  <-> c_deviceId c = Some "DASHBOARD"%string
      \/ c_clientType c = "monitor"%string.
Proof.
  unfold is_dashboard. rewrite orb_true_iff, String.eqb_eq.
  destruct (c_deviceId c) as [d |].
  - rewrite String.eqb_eq. split; intros [H | H]; auto; left; congruence.
  - split; intros [H | H]; auto; discriminate.
Qed.

(** C9. A [status_update] for a device of the Device Directory overwrites
    the three telemetry fields with the values of the message, an absent
    field (read as [undefined]) included, and sends one
    [device_status_update] carrying them to every open connection whose
    registry entry has the device id "DASHBOARD" or the client type
    "monitor", and nothing to anyone else; for a device id that is absent,
    empty or not in the directory the message changes nothing and sends
    nothing. *)
Theorem status_update_overwrites_telemetry
    (sock : ws) (data : Message) (now uptime : Z) (h : Hub) :
  msg_type data = Some "status_update"%string ->
  let result := on_message sock (Some data) now uptime h in
  (forall d info,
     msg_device_id data = Some d -> d <> ""%string ->
     deviceData h !! d = Some info ->
     (exists info',
        deviceData result.1 !! d = Some info'
        /\ d_battery info' = msg_battery data
        /\ d_signal_strength info' = msg_signal_strength data
        /\ d_free_heap info' = msg_free_heap data
        /\ d_history info' = d_history info)
     /\ (forall e,
           In e result.2
           <-> exists w c,
                 e = ESend w (device_status_update d (msg_battery data)
                                (msg_signal_strength data)
                                (msg_free_heap data) now)
                 /\ In (w, OPEN) (wss_clients h)
                 /\ clients h !! w = Some c
                 /\ (c_deviceId c = Some "DASHBOARD"%string
                     \/ c_clientType c = "monitor"%string))
     /\ result.2
        = broadcastToDashboards result.1
            (device_status_update d (msg_battery data)
               (msg_signal_strength data) (msg_free_heap data) now))
  /\ (msg_device_id data = None
      \/ msg_device_id data = Some ""%string
      \/ (exists d, msg_device_id data = Some d /\ deviceData h !! d = None) ->
      result = (h, [])).
Proof.
  intros Hty result. subst result.
  rewrite on_message_status by exact Hty. unfold handleStatusUpdate. split.
  - intros d info Hid Hne Hdev.
    rewrite Hid, (known_device_of_lookup h d info Hne Hdev). simpl.
    split; [| split; [| reflexivity]].
    + exists (mark connected now
                (with_telemetry (msg_battery data) (msg_signal_strength data)
                                (msg_free_heap data) info)).
      rewrite lookup_insert_eq. repeat split.
    + intros e. split.
      * intros Hin. unfold broadcastToDashboards in Hin.
        apply in_map_iff in Hin as (entry & <- & Hentry).
        pose proof (in_map (fun entry : ws * ReadyState => ESend entry.1
                      (device_status_update d (msg_battery data)
                         (msg_signal_strength data) (msg_free_heap data) now))
                      _ _ Hentry) as Hsend.
        apply broadcast_reaches in Hsend as (_ & c & Hopen & Hcl & Hdash).
        exists entry.1, c. split; [reflexivity |]. split; [exact Hopen |].
        split; [exact Hcl | by apply is_dashboard_spec].
      * intros (w & c & -> & Hopen & Hcl & Hdash).
        apply broadcast_reaches. split; [reflexivity |].
        exists c. split; [exact Hopen |]. split; [exact Hcl |].
        by apply is_dashboard_spec.
  - intros Hunknown.
    assert (known_device h (msg_device_id data) = None) as ->; [| reflexivity].
    destruct Hunknown as [-> | [-> | (d & -> & Hnone)]]; try reflexivity.
    unfold known_device. rewrite Hnone. by destruct (truthy_string _).
Qed.

Lemma status_update_overwrites_telemetry_witness :
  (msg_type battery_report = Some "status_update"%string
   /\ deviceData lab_hub !! "D1" = Some lab_device)
  /\ exists info',
       deviceData (on_message 1%nat (Some battery_report) 7 7 lab_hub).1
         !! "D1" = Some info'
       /\ d_battery info' = VNum (JFin 87)
       /\ d_signal_strength info' = VUndef
       /\ d_free_heap info' = VUndef
       /\ d_history info' = [].
Proof.
  split; [split; [reflexivity | apply lab_hub_device] |].
  refine (proj1 (proj1 (status_update_overwrites_telemetry 1%nat
                          battery_report 7 7 lab_hub eq_refl)
                       "D1" lab_device eq_refl _ lab_hub_device)).
  discriminate.
Defined.

(** ** The liveness sweep *)

#[local] Arguments sweep_visit : simpl never.

Lemma sweep_visit_skip now h out sock :
  (forall info, clients h !! sock = Some info -> stale now info = false) ->
  sweep_visit now (h, out) sock = (h, out).
Proof.
  intros Hfresh. unfold sweep_visit.
  destruct (clients h !! sock) as [info |]; [| reflexivity].
  by rewrite (Hfresh info eq_refl).
Qed.

Lemma sweep_visit_evict now h out sock info :
  clients h !! sock = Some info -> stale now info = true ->
  exists h1 extra,
    sweep_visit now (h, out) sock
    = (h1, out ++ [ELog log_warn; ETerminate sock] ++ extra)
    /\ clients h1 = delete sock (clients h)
    /\ wss_clients h1 = set_ready_state sock CLOSING (wss_clients h)
    /\ ((known_device h (c_deviceId info) = None
         /\ extra = [] /\ deviceData h1 = deviceData h)
        \/ exists d dev,
             known_device h (c_deviceId info) = Some (d, dev)
             /\ deviceData h1 = <[d := mark disconnected now dev]> (deviceData h)
             /\ extra = broadcastToDashboards h1
                          (device_status (Some d) None disconnected now)).
Proof.
  intros Hcl Hstale. unfold sweep_visit. rewrite Hcl, Hstale.
  match goal with
  | |- context [known_device ?x _] =>
      change (known_device x (c_deviceId info))
        with (known_device h (c_deviceId info))
  end.
  destruct (known_device h (c_deviceId info)) as [[d dev] |] eqn:Hk.
  - eexists _, _. split; [by rewrite <- app_assoc |].
    split; [reflexivity |]. split; [reflexivity |].
    right. exists d, dev. by repeat split.
  - eexists _, []. split; [by rewrite app_nil_r |].
    split; [reflexivity |]. split; [reflexivity |]. left. by repeat split.
Qed.

Lemma stale_tracked now h w :
  (exists info, clients h !! w = Some info /\ stale now info = true)
  \/ (forall info, clients h !! w = Some info -> stale now info = false).
Proof.
  destruct (clients h !! w) as [info |]; [| right; discriminate].
  destruct (stale now info) eqn:Hst.
  - left. by exists info.
  - right. by intros i [= <-].
Qed.

Lemma sweep_visit_clients now h out sock w :
  clients (sweep_visit now (h, out) sock).1 !! w
  = match clients h !! w with
    | Some info => if survives now [sock] w info then Some info else None
    | None => None
    end.
Proof.
  unfold survives. simpl existsb. rewrite orb_false_r.
  destruct (stale_tracked now h sock) as [(info & Hcl & Hst) | Hfresh].
  - destruct (sweep_visit_evict now h out sock info Hcl Hst)
      as (h1 & extra & -> & Hc & _).
    simpl. rewrite Hc, lookup_delete.
    destruct (Nat.eqb_spec w sock) as [-> | Hne].
    + rewrite decide_True by reflexivity. by rewrite Hcl, Hst.
    + rewrite decide_False by auto. by destruct (clients h !! w).
  - rewrite (sweep_visit_skip now h out sock Hfresh). simpl.
    destruct (clients h !! w) as [i |] eqn:Hw; [| reflexivity].
    destruct (Nat.eqb_spec w sock) as [-> | Hne]; [| reflexivity].
    by rewrite (Hfresh i Hw).
Qed.

Lemma sweep_fold_clients now l acc w :
  clients (fold_left (sweep_visit now) l acc).1 !! w
  = match clients acc.1 !! w with
    | Some info => if survives now l w info then Some info else None
    | None => None
    end.
Proof.
  revert acc. induction l as [| s l IH]; intros [h out].
  - simpl. by destruct (clients h !! w).
  - simpl fold_left. rewrite IH, sweep_visit_clients. simpl.
    destruct (clients h !! w) as [info |]; [| reflexivity].
    unfold survives. simpl. rewrite orb_false_r.
    destruct (stale now info) eqn:Hst, (Nat.eqb w s), (existsb (Nat.eqb w) l);
      simpl; rewrite ?Hst; reflexivity.
Qed.

Lemma existsb_eqb_In (w : ws) l : existsb (Nat.eqb w) l = true <-> In w l.
Proof.
  rewrite existsb_exists. split.
  - intros (x & Hin & Heq). apply Nat.eqb_eq in Heq. by subst.
  - intros Hin. exists w. split; [exact Hin | apply Nat.eqb_refl].
Qed.

Lemma existsb_eqb_notin (w : ws) l : ~ In w l -> existsb (Nat.eqb w) l = false.
Proof.
  intros Hn. destruct (existsb (Nat.eqb w) l) eqn:He; [| reflexivity].
  apply existsb_eqb_In in He. contradiction.
Qed.

Lemma filter_length_app {A} (f : A -> bool) l1 l2 :
  length (List.filter f (l1 ++ l2))
  = (length (List.filter f l1) + length (List.filter f l2))%nat.
Proof. by rewrite List.filter_app, length_app. Qed.

Lemma broadcast_no_terminate h m w :
  List.filter (is_terminate w) (broadcastToDashboards h m) = [].
Proof.
  unfold broadcastToDashboards.
  induction (List.filter (dashboard_target h) (wss_clients h)); [reflexivity |].
  simpl. exact IHl.
Qed.

(** How often a socket is terminated by the visits of [l]. *)
Lemma sweep_fold_terminations now w l :
  NoDup l ->
  forall h out,
    length (List.filter (is_terminate w)
                        (fold_left (sweep_visit now) l (h, out)).2)
    = (length (List.filter (is_terminate w) out)
       + match clients h !! w with
         | Some info => if survives now l w info then 0 else 1
         | None => 0
         end)%nat.
Proof.
  induction l as [| s l IH]; intros Hnd h out.
  - simpl. destruct (clients h !! w); simpl; lia.
  - apply NoDup_cons in Hnd as [Hs Hnd]. rewrite list_elem_of_In in Hs.
    simpl fold_left.
    destruct (sweep_visit now (h, out) s) as [h1 out1] eqn:Hv.
    rewrite (IH Hnd h1 out1).
    pose proof (sweep_visit_clients now h out s w) as Hc.
    rewrite Hv in Hc. simpl in Hc. rewrite Hc.
    unfold survives. simpl existsb. rewrite orb_false_r.
    destruct (stale_tracked now h s) as [(info & Hcl & Hst) | Hfresh].
    + destruct (sweep_visit_evict now h out s info Hcl Hst)
        as (h1' & extra & Hev & _ & _ & Hextra).
      rewrite Hv in Hev. injection Hev as <- ->.
      assert (List.filter (is_terminate w) extra = []) as Hnone.
      { destruct Hextra as [(_ & -> & _) | (d & dev & _ & _ & ->)];
          [reflexivity | by rewrite broadcast_no_terminate]. }
      rewrite filter_length_app. simpl List.filter. rewrite Hnone.
      destruct (Nat.eqb_spec s w) as [-> | Hne].
      * rewrite Hcl, Nat.eqb_refl, Hst. simpl. lia.
      * rewrite (proj2 (Nat.eqb_neq w s)) by auto. simpl.
        destruct (clients h !! w) as [i |]; [| simpl; lia].
        destruct (existsb (Nat.eqb w) l && stale now i); simpl; lia.
    + rewrite (sweep_visit_skip now h out s Hfresh) in Hv.
      injection Hv as <- <-.
      destruct (clients h !! w) as [i |] eqn:Hw; [| lia].
      destruct (Nat.eqb_spec w s) as [-> | Hne].
      * rewrite (Hfresh i Hw). simpl.
        rewrite (Hfresh i Hw), !andb_false_r. simpl. lia.
      * simpl. destruct (existsb (Nat.eqb w) l && stale now i); simpl; lia.
Qed.

Lemma sweep_visit_ok now h out sock :
  hub_ok h -> hub_ok (sweep_visit now (h, out) sock).1.
Proof.
  intros Hok.
  destruct (stale_tracked now h sock) as [(info & Hcl & Hst) | Hfresh];
    [| by rewrite sweep_visit_skip].
  destruct (sweep_visit_evict now h out sock info Hcl Hst)
    as (h1 & extra & -> & Hc & Hs & Hd).
  simpl. apply (hub_ok_step h); [exact Hok | | |].
  - rewrite Hs. apply map_fst_set_ready_state.
  - intros d Hk.
    destruct Hd as [(_ & _ & ->) | (d' & dev & _ & -> & _)];
      [exact Hk | by apply insert_keeps_known].
  - intros s i Hl. rewrite Hc in Hl. apply deleted_client in Hl.
    eexists. split; [exact Hl | by left].
Qed.

Lemma sweep_fold_ok now l acc :
  hub_ok acc.1 -> hub_ok (fold_left (sweep_visit now) l acc).1.
Proof.
  revert acc. induction l as [| s l IH]; intros [h out] Hok; [exact Hok |].
  simpl fold_left. apply IH.
  by apply sweep_visit_ok.
Qed.

Lemma sweep_visit_devices now h out sock d :
  deviceData (sweep_visit now (h, out) sock).1 !! d = deviceData h !! d
  \/ exists dev, deviceData h !! d = Some dev
       /\ deviceData (sweep_visit now (h, out) sock).1 !! d
          = Some (mark disconnected now dev).
Proof.
  destruct (stale_tracked now h sock) as [(info & Hcl & Hst) | Hfresh];
    [| left; by rewrite sweep_visit_skip].
  destruct (sweep_visit_evict now h out sock info Hcl Hst)
    as (h1 & extra & -> & _ & _ & Hd).
  simpl. destruct Hd as [(_ & _ & ->) | (d' & dev & Hk & -> & _)];
    [by left |].
  apply known_device_some in Hk as (_ & _ & Hdev).
  rewrite lookup_insert. destruct (decide (d' = d)) as [<- | Hne];
    [right; by exists dev | by left].
Qed.

Lemma sweep_fold_keeps_disconnected now d l acc :
  d_status <$> deviceData acc.1 !! d = Some disconnected ->
  d_status <$> deviceData (fold_left (sweep_visit now) l acc).1 !! d
  = Some disconnected.
Proof.
  revert acc. induction l as [| s l IH]; intros [h out] Hd; [exact Hd |].
  simpl fold_left. apply IH.
  destruct (sweep_visit_devices now h out s d) as [-> | (dev & _ & ->)];
    [exact Hd | reflexivity].
Qed.

(** A stale connection bound to a known device leaves it disconnected. *)
Lemma sweep_fold_marks now sock info d l :
  In sock l ->
  forall h out,
    clients h !! sock = Some info -> stale now info = true ->
    c_deviceId info = Some d -> d <> ""%string ->
    is_Some (deviceData h !! d) ->
    d_status <$> deviceData (fold_left (sweep_visit now) l (h, out)).1 !! d
    = Some disconnected.
Proof.
  induction l as [| s l IH]; intros Hin h out Hcl Hst Hd Hne Hk; [done |].
  simpl fold_left.
  destruct (Nat.eq_dec s sock) as [-> | Hother].
  - destruct (sweep_visit now (h, out) sock) as [h1 out1] eqn:Hv.
    apply sweep_fold_keeps_disconnected. simpl.
    destruct (sweep_visit_evict now h out sock info Hcl Hst)
      as (h1' & extra & Hev & _ & _ & Hdd).
    rewrite Hv in Hev. injection Hev as <- _.
    destruct Hk as [dev Hdev].
    rewrite Hd, (known_device_of_lookup h d dev Hne Hdev) in Hdd.
    destruct Hdd as [(? & _) | (d' & dev' & [= <- <-] & -> & _)];
      [discriminate |].
    by rewrite lookup_insert_eq.
  - destruct Hin as [-> | Hin]; [done |].
    destruct (sweep_visit now (h, out) s) as [h1 out1] eqn:Hv.
    apply (IH Hin h1 out1); try assumption.
    + pose proof (sweep_visit_clients now h out s sock) as Hc.
      rewrite Hv, Hcl in Hc. simpl in Hc. unfold survives in Hc.
      simpl in Hc. rewrite (proj2 (Nat.eqb_neq sock s)) in Hc by auto.
      exact Hc.
    + destruct (sweep_visit_devices now h out s d) as [He | (dev & _ & He)];
        rewrite Hv in He; simpl in He; rewrite He; [exact Hk | eauto].
Qed.

Lemma sweep_visit_sockets now h out sock :
  map fst (wss_clients (sweep_visit now (h, out) sock).1)
  = map fst (wss_clients h)
  /\ forall w, In (w, OPEN) (wss_clients (sweep_visit now (h, out) sock).1) ->
               In (w, OPEN) (wss_clients h).
Proof.
  destruct (stale_tracked now h sock) as [(info & Hcl & Hst) | Hfresh];
    [| by rewrite sweep_visit_skip].
  destruct (sweep_visit_evict now h out sock info Hcl Hst)
    as (h1 & extra & -> & _ & Hs & _).
  simpl. rewrite Hs. split; [apply map_fst_set_ready_state |].
  intros w Hin. unfold set_ready_state in Hin.
  apply in_map_iff in Hin as ([w' r] & Heq & Hin). simpl in Heq.
  destruct (Nat.eqb w' sock); [discriminate |]. by injection Heq as <- <-.
Qed.

Lemma sweep_fold_open now w l acc :
  In (w, OPEN) (wss_clients (fold_left (sweep_visit now) l acc).1) ->
  In (w, OPEN) (wss_clients acc.1).
Proof.
  revert acc. induction l as [| s l IH]; intros [h out] Hin; [exact Hin |].
  simpl fold_left in Hin. apply IH in Hin.
  by apply (sweep_visit_sockets now h out s).
Qed.

Lemma filter_none {A} (f : A -> bool) l :
  (forall x, In x l -> f x = false) -> List.filter f l = [].
Proof.
  induction l as [| x l IH]; intros Hf; [reflexivity |].
  simpl. rewrite (Hf x) by (by left). apply IH. intros y Hy. apply Hf. by right.
Qed.

Lemma unique_target (P : ws * ReadyState -> bool) w r l :
  NoDup (map fst l) -> In (w, r) l -> P (w, r) = true ->
  length (List.filter (fun entry => Nat.eqb entry.1 w) (List.filter P l))
  = 1%nat.
Proof.
  induction l as [| [w' r'] l IH]; intros Hnd Hin HP; [done |].
  simpl in Hnd. apply NoDup_cons in Hnd as [Hnew Hnd].
  rewrite list_elem_of_In in Hnew.
  destruct Hin as [[= -> ->] | Hin].
  - simpl. rewrite HP. simpl. rewrite Nat.eqb_refl. simpl. f_equal.
    rewrite filter_none; [reflexivity |].
    intros [w2 r2] Hin2. apply filter_In in Hin2 as [Hin2 _].
    simpl. apply Nat.eqb_neq. intros ->.
    apply Hnew, in_map_iff. by exists (w, r2).
  - assert (w' <> w) as Hne.
    { intros ->. apply Hnew, in_map_iff. by exists (w, r). }
    simpl. destruct (P (w', r')); simpl;
      rewrite ?(proj2 (Nat.eqb_neq w' w)) by exact Hne; by apply IH.
Qed.

Lemma notices_in_broadcast h d d' w now :
  length (List.filter (is_disconnect_notice d w)
            (broadcastToDashboards h
               (device_status (Some d') None disconnected now)))
  = if String.eqb d' d
    then length (List.filter (fun entry => Nat.eqb entry.1 w)
                   (List.filter (dashboard_target h) (wss_clients h)))
    else 0%nat.
Proof.
  unfold broadcastToDashboards.
  induction (List.filter (dashboard_target h) (wss_clients h))
    as [| [w' r] l IH]; [by destruct (String.eqb d' d) |].
  simpl. destruct (String.eqb d' d); [| by rewrite andb_false_r].
  rewrite andb_true_r. destruct (Nat.eqb w' w); simpl; by rewrite IH.
Qed.

(** How many disconnect notices for device [d] reach a dashboard that is
    still connected after the visits of [l]: one per evicted connection
    that was bound to [d]. *)
Lemma sweep_fold_notices now d w info l :
  NoDup l ->
  forall h out,
    hub_ok h ->
    let result := fold_left (sweep_visit now) l (h, out) in
    clients result.1 !! w = Some info -> is_dashboard info = true ->
    In (w, OPEN) (wss_clients result.1) ->
    length (List.filter (is_disconnect_notice d w) result.2)
    = (length (List.filter (is_disconnect_notice d w) out)
       + length (List.filter (stale_bound_to now h d) l))%nat.
Proof.
  induction l as [| s l IH]; intros Hnd h out Hok result Hw Hdash Hopen;
    [subst result; simpl; lia |].
  apply NoDup_cons in Hnd as [Hs Hnd]. rewrite list_elem_of_In in Hs.
  subst result. simpl fold_left in *.
  destruct (sweep_visit now (h, out) s) as [h1 out1] eqn:Hv.
  assert (hub_ok h1) as Hok1.
  { pose proof (sweep_visit_ok now h out s Hok) as H. by rewrite Hv in H. }
  rewrite (IH Hnd h1 out1 Hok1 Hw Hdash Hopen).
  assert (List.filter (stale_bound_to now h1 d) l
          = List.filter (stale_bound_to now h d) l) as ->.
  { apply filter_ext_in. intros x Hx. unfold stale_bound_to.
    pose proof (sweep_visit_clients now h out s x) as Hc.
    rewrite Hv in Hc. simpl in Hc. rewrite Hc.
    destruct (clients h !! x) as [i |]; [| reflexivity].
    unfold survives. simpl.
    rewrite (proj2 (Nat.eqb_neq x s)) by (intros ->; contradiction).
    reflexivity. }
  assert (clients h1 !! w = Some info) as Hw1.
  { pose proof (sweep_fold_clients now l (h1, out1) w) as Hc.
    rewrite Hw in Hc. simpl in Hc.
    destruct (clients h1 !! w) as [i |]; [| discriminate].
    by destruct (survives now l w i). }
  assert (In (w, OPEN) (wss_clients h1)) as Hopen1
    by (apply (sweep_fold_open now w l (h1, out1)), Hopen).
  simpl List.filter. unfold stale_bound_to at 2.
  destruct (stale_tracked now h s) as [(i & Hcl & Hst) | Hfresh].
  - destruct (sweep_visit_evict now h out s i Hcl Hst)
      as (h1' & extra & Hev & Hc & Hsock & Hdd).
    rewrite Hv in Hev. injection Hev as <- ->.
    rewrite Hcl, Hst. simpl andb.
    rewrite filter_length_app. simpl List.filter.
    destruct Hdd as [(Hk & -> & _) | (d' & dev & Hk & _ & ->)].
    + destruct (c_deviceId i) as [d' |] eqn:Hbound; [| simpl; lia].
      destruct Hok as (_ & _ & Hbk).
      destruct (Hbk _ _ _ Hcl Hbound) as [Hne [dev Hdev]].
      rewrite (known_device_of_lookup h d' dev Hne Hdev) in Hk. discriminate.
    + apply known_device_some in Hk as (-> & _ & _).
      rewrite notices_in_broadcast.
      destruct (String.eqb d' d); [| simpl; lia].
      rewrite (unique_target (dashboard_target h1) w OPEN).
      * simpl. lia.
      * by destruct Hok1.
      * exact Hopen1.
      * unfold dashboard_target. simpl. by rewrite Hw1, Hdash.
  - rewrite (sweep_visit_skip now h out s Hfresh) in Hv.
    injection Hv as <- <-.
    destruct (clients h !! s) as [i |] eqn:Hcl; [| lia].
    rewrite (Hfresh i eq_refl). simpl. lia.
Qed.

Lemma reachable_hub_ok loaded start evs :
  (length loaded <= MAX_CACHE_SIZE)%nat ->
  hub_ok (run (initial_hub loaded start) evs).
Proof.
  intros Hload. destruct (initial_hub_inv loaded start Hload) as [Hb Hok].
  by destruct (run_inv evs _ Hb Hok).
Qed.

(** ** C7 *)

(** C7. With the period P = 30 s, one liveness sweep at time [now] over a
    well-formed hub treats every tracked connection as follows.  If its
    last-seen time is older than 2P, the socket is terminated exactly once
    and its registry entry is removed; nothing is left for the later [close]
    event or a later sweep to do for it; and if it was bound to a device,
    that device ends the sweep disconnected.  If its last-seen time is not
    older than 2P, it keeps its entry and is not terminated.  Every
    dashboard still connected after the sweep has received exactly one
    [device_status] = disconnected notice for a device per evicted
    connection that was bound to it. *)
Theorem liveness_sweep_evicts_stale (h : Hub) (now : Z) :
  hub_ok h ->
  let result := sweep now h in
  HEARTBEAT_INTERVAL = 30000%Z
  /\ (forall sock info,
        clients h !! sock = Some info ->
        (HEARTBEAT_INTERVAL * 2 < now - c_lastHeartbeat info)%Z ->
        clients result.1 !! sock = None
        /\ length (List.filter (is_terminate sock) result.2) = 1%nat
        /\ (forall later,
              (on_close sock later result.1).2 = []
              /\ List.filter (is_terminate sock) (sweep later result.1).2
                 = [])
        /\ (forall d, c_deviceId info = Some d ->
              d_status <$> deviceData result.1 !! d = Some disconnected))
  /\ (forall sock info,
        clients h !! sock = Some info ->
        (now - c_lastHeartbeat info <= HEARTBEAT_INTERVAL * 2)%Z ->
        clients result.1 !! sock = Some info
        /\ List.filter (is_terminate sock) result.2 = [])
  /\ (forall d w info,
        clients result.1 !! w = Some info -> is_dashboard info = true ->
        In (w, OPEN) (wss_clients result.1) ->
        length (List.filter (is_disconnect_notice d w) result.2)
        = length (List.filter (stale_bound_to now h d)
                              (map fst (wss_clients h)))).
Proof.
  intros Hok result. subst result. unfold sweep.
  pose proof Hok as (Hnd & Htl & Hbk).
  split; [reflexivity |]. split; [| split].
  - intros sock info Hcl Hlate.
    assert (stale now info = true) as Hst by (by apply Z.ltb_lt).
    assert (In sock (map fst (wss_clients h))) as Hin by (by eapply Htl).
    assert (clients (fold_left (sweep_visit now) (map fst (wss_clients h))
                               (h, [])).1 !! sock = None) as Hgone.
    { rewrite sweep_fold_clients. simpl. rewrite Hcl. unfold survives.
      by rewrite (proj2 (existsb_eqb_In sock _) Hin), Hst. }
    split; [exact Hgone |]. split; [| split].
    + rewrite (sweep_fold_terminations now sock _ Hnd h []). simpl.
      rewrite Hcl. unfold survives.
      by rewrite (proj2 (existsb_eqb_In sock _) Hin), Hst.
    + intros later. split.
      * unfold on_close. simpl clients. by rewrite Hgone.
      * apply length_zero_iff_nil.
        match goal with
        | |- context [fold_left (sweep_visit later) _ (?x, [])] =>
            assert (hub_ok x) as Hok'
              by (apply (sweep_fold_ok now _ (h, [])), Hok);
            destruct Hok' as (Hnd' & _);
            rewrite (sweep_fold_terminations later sock _ Hnd' x [])
        end.
        by rewrite Hgone.
    + intros d Hd. destruct (Hbk _ _ _ Hcl Hd) as [Hne Hk].
      by apply (sweep_fold_marks now sock info d).
  - intros sock info Hcl Hfresh.
    assert (stale now info = false) as Hst by (by apply Z.ltb_ge).
    split.
    + rewrite sweep_fold_clients. simpl. rewrite Hcl. unfold survives.
      by rewrite Hst, andb_false_r.
    + apply length_zero_iff_nil.
      rewrite (sweep_fold_terminations now sock _ Hnd h []). simpl.
      rewrite Hcl. unfold survives. by rewrite Hst, andb_false_r.
  - intros d w info Hw Hdash Hopen.
    by rewrite (sweep_fold_notices now d w info _ Hnd h [] Hok Hw Hdash Hopen).
Qed.

Lemma liveness_sweep_evicts_stale_witness :
  (hub_ok watched_hub
   /\ clients watched_hub !! 1%nat = Some lab_client
   /\ (HEARTBEAT_INTERVAL * 2 < 70000 - c_lastHeartbeat lab_client)%Z)
  /\ clients (sweep 70000 watched_hub).1 !! 1%nat = None
  /\ length (List.filter (is_terminate 1%nat) (sweep 70000 watched_hub).2)
     = 1%nat
  /\ d_status <$> deviceData (sweep 70000 watched_hub).1 !! "D1"
     = Some disconnected.
Proof.
  assert (hub_ok watched_hub) as Hok.
  { apply reachable_hub_ok. unfold MAX_CACHE_SIZE. simpl. lia. }
  assert (clients watched_hub !! 1%nat = Some lab_client) as Hcl
    by (vm_compute; reflexivity).
  assert (HEARTBEAT_INTERVAL * 2 < 70000 - c_lastHeartbeat lab_client)%Z
    as Hlate by (vm_compute; reflexivity).
  split; [split; [exact Hok | split; [exact Hcl | exact Hlate]] |].
  destruct (proj1 (proj2 (liveness_sweep_evicts_stale watched_hub 70000 Hok))
              1%nat lab_client Hcl Hlate) as (Hgone & Honce & _ & Hdev).
  split; [exact Hgone |]. split; [exact Honce |].
  by apply Hdev.
Defined.

(** On the watched hub the monitor on socket 2 is told exactly once that
    ["D1"] went away. *)
Lemma watched_monitor_is_told_once :
  length (List.filter (is_disconnect_notice "D1" 2%nat)
                      (sweep 70000 watched_hub).2) = 1%nat.
Proof. vm_compute. reflexivity. Qed.

(** ** C10 *)

Lemma norm_symmetric (x y z : R) (o : Order3) (nx ny nz : bool) :
  reorder o acceleration_norm (flip nx x) (flip ny y) (flip nz z)
  = acceleration_norm (JFin x) (JFin y) (JFin z).
Proof.
  unfold flip.
  destruct o; unfold reorder; rewrite !acceleration_norm_finite;
    unfold euclidean_norm; do 2 f_equal; destruct nx, ny, nz; ring.
Qed.

(** A function of the three axes that only looks at their norm. *)
Lemma reorder_through_norm (F : jsnum -> jsnum) (o : Order3) (a b c : jsnum) :
  reorder o (fun u v w => F (acceleration_norm u v w)) a b c
  = F (reorder o acceleration_norm a b c).
Proof. by destruct o. Qed.

(** In exact arithmetic, where the sum of the squares does not round:
    putting the three axis arguments in any of the six orders and negating
    any of them leaves the magnitude, the intensity (at any distance), the
    JMA intensity and both PGA values (at any correction factor) unchanged,
    each being computed from the Euclidean norm of the axes alone. *)
Lemma enrichment_symmetric_in_exact_arithmetic
    (x y z : R) (o : Order3) (nx ny nz : bool)
    (distance correctionFactor : jsnum) :
  let ax := flip nx x in
  let ay := flip ny y in
  let az := flip nz z in
  reorder o calculateMagnitude ax ay az
  = calculateMagnitude (JFin x) (JFin y) (JFin z)
  /\ reorder o (fun u v w => calculateIntensity u v w distance) ax ay az
     = calculateIntensity (JFin x) (JFin y) (JFin z) distance
  /\ reorder o (fun u v w =>
                  jma_intensity_of
                    (calculateJmaSeismicIntensity u v w correctionFactor))
             ax ay az
     = jma_intensity_of
         (calculateJmaSeismicIntensity (JFin x) (JFin y) (JFin z)
                                       correctionFactor)
  /\ reorder o (fun u v w =>
                  jma_pga_raw
                    (calculateJmaSeismicIntensity u v w correctionFactor))
             ax ay az
     = jma_pga_raw
         (calculateJmaSeismicIntensity (JFin x) (JFin y) (JFin z)
                                       correctionFactor)
  /\ reorder o (fun u v w =>
                  jma_pga
                    (calculateJmaSeismicIntensity u v w correctionFactor))
             ax ay az
     = jma_pga
         (calculateJmaSeismicIntensity (JFin x) (JFin y) (JFin z)
                                       correctionFactor)
  /\ calculateMagnitude (JFin x) (JFin y) (JFin z)
     = JFin (spec_magnitude x y z).
Proof.
  intros ax ay az. subst ax ay az.
  pose proof (norm_symmetric x y z o nx ny nz) as Hn.
  repeat split.
  - unfold calculateMagnitude.
    rewrite (reorder_through_norm
               (fun n => Math.max (JFin 0)
                  (Math.min (js_mul (Math.log10 (js_add n (JFin 1))) (JFin 2))
                            (JFin 10)))).
    by rewrite Hn.
  - unfold calculateIntensity.
    rewrite (reorder_through_norm
               (fun n => Math.max (JFin 1)
                  (Math.min (JFin 12)
                     (js_sub
                        (js_sub
                           (js_mul (Math.log10 (js_add n (JFin 1))) (JFin 2))
                           (js_mul
                              (Math.log10
                                 (if js_le distance (JFin 0) then JFin 1
                                  else distance))
                              (JFin 0.2)))
                        (JFin 0.5))))).
    by rewrite Hn.
  - unfold calculateJmaSeismicIntensity. simpl jma_intensity_of.
    rewrite (reorder_through_norm
               (fun n => JFin (jma_ladder
                                 (js_mul (js_mul n (JFin 9.8))
                                         correctionFactor)))).
    by rewrite Hn.
  - unfold calculateJmaSeismicIntensity. simpl jma_pga_raw.
    rewrite (reorder_through_norm (fun n => js_mul n (JFin 9.8))).
    by rewrite Hn.
  - unfold calculateJmaSeismicIntensity. simpl jma_pga.
    rewrite (reorder_through_norm
               (fun n => js_mul (js_mul n (JFin 9.8)) correctionFactor)).
    by rewrite Hn.
  - apply calculateMagnitude_finite.
Qed.

Lemma square_of_opposite (x : float) :
  Binary64.pow2 (- x) = Binary64.pow2 x.
Proof.
  unfold Binary64.pow2. apply Prim2SF_inj.
  rewrite !mul_spec, opp_spec.
  destruct (Prim2SF x) as [s | s | | s m e]; try destruct s; reflexivity.
Qed.

Lemma binary64_add_comm (x y : float) : (x + y = y + x)%float.
Proof.
  apply Prim2SF_inj. rewrite !add_spec.
  destruct (Prim2SF x) as [sx | sx | | sx mx ex],
           (Prim2SF y) as [sy | sy | | sy my ey];
    try destruct sx; try destruct sy; try reflexivity;
    unfold SF64add, SFadd; rewrite (Z.min_comm ex ey), Z.add_comm;
    reflexivity.
Qed.

Lemma binary64_norm_flip (nx ny nz : bool) (ax ay az : float) :
  Binary64.acceleration_norm (Binary64.flip nx ax) (Binary64.flip ny ay)
                             (Binary64.flip nz az)
  = Binary64.acceleration_norm ax ay az.
Proof.
  unfold Binary64.acceleration_norm, Binary64.flip.
  destruct nx, ny, nz; by rewrite ?square_of_opposite.
Qed.

Lemma binary64_norm_swap (ax ay az : float) :
  Binary64.acceleration_norm ay ax az = Binary64.acceleration_norm ax ay az.
Proof.
  unfold Binary64.acceleration_norm.
  by rewrite (binary64_add_comm (Binary64.pow2 ay)).
Qed.

(** C10, as stated, fails on the numbers the program computes with: for
    these three axes the sum of the squares rounds differently when the
    second and the third are exchanged, the PGA falls below the last step of
    the scale, and the JMA intensity is 6 instead of 6.5. *)
Lemma permuted_axes_change_jma_intensity :
  let x := 2.0540245175361633%float in
  let y := 2.0803020000457764%float in
  let z := 0.00036208709207130596%float in
  Binary64.calculateJmaSeismicIntensity x y z 1
  = Binary64.mkJma 6.5 28.65 28.65
  /\ Binary64.calculateJmaSeismicIntensity x z y 1
     = Binary64.mkJma 6 28.649999999999995 28.649999999999995.
Proof. split; vm_compute; reflexivity. Qed.

(** C10, amended. On binary64 numbers, negating any of the three axes and
    exchanging the first two leaves the magnitude, the intensity (at any
    distance), the JMA intensity and both PGA values (at any correction
    factor) unchanged, whatever [Math.log10] computes. *)
Theorem enrichment_keeps_signs_and_first_swap
    (log10 : float -> float) (ax ay az distance correctionFactor : float)
    (nx ny nz : bool) :
  let bx := Binary64.flip nx ax in
  let by' := Binary64.flip ny ay in
  let bz := Binary64.flip nz az in
  (Binary64.calculateMagnitude log10 bx by' bz
   = Binary64.calculateMagnitude log10 ax ay az
   /\ Binary64.calculateIntensity log10 bx by' bz distance
      = Binary64.calculateIntensity log10 ax ay az distance
   /\ Binary64.calculateJmaSeismicIntensity bx by' bz correctionFactor
      = Binary64.calculateJmaSeismicIntensity ax ay az correctionFactor)
  /\ (Binary64.calculateMagnitude log10 ay ax az
      = Binary64.calculateMagnitude log10 ax ay az
      /\ Binary64.calculateIntensity log10 ay ax az distance
         = Binary64.calculateIntensity log10 ax ay az distance
      /\ Binary64.calculateJmaSeismicIntensity ay ax az correctionFactor
         = Binary64.calculateJmaSeismicIntensity ax ay az correctionFactor).
Proof.
  intros bx by' bz. subst bx by' bz.
  unfold Binary64.calculateMagnitude, Binary64.calculateIntensity,
    Binary64.calculateJmaSeismicIntensity.
  by rewrite binary64_norm_flip, binary64_norm_swap.
Qed.

(** ** C2 *)


Lemma record_magnitude data info now ax ay az :
  parseFloat (msg_ax data) = JFin ax -> parseFloat (msg_ay data) = JFin ay ->
  parseFloat (msg_az data) = JFin az ->
  e_magnitude (record_of data info now)
  = JFin (toFixed_value 4 (spec_magnitude ax ay az))
  /\ e_intensity (record_of data info now)
     = JFin (toFixed_value 4 (spec_intensity ax ay az)).
Proof.
  intros Hx Hy Hz. unfold record_of, enhance.
  cbn [e_magnitude e_intensity]. rewrite Hx, Hy, Hz.
  by rewrite calculateMagnitude_finite, calculateIntensity_finite.
Qed.





(** ** Alerts among the effects of a sample *)

Lemma filter_sends_none (f : Effect -> bool) (l : list (ws * ReadyState)) m :
  (forall w, f (ESend w m) = false) ->
  List.filter f (map (fun entry => ESend entry.1 m) l) = [].
Proof.
  intros Hf. induction l as [| e l IH]; [reflexivity |].
  simpl. by rewrite Hf.
Qed.

Lemma filter_sends_all (f : Effect -> bool) (l : list (ws * ReadyState)) m :
  (forall w, f (ESend w m) = true) ->
  List.filter f (map (fun entry => ESend entry.1 m) l)
  = map (fun entry => ESend entry.1 m) l.
Proof.
  intros Hf. induction l as [| e l IH]; [reflexivity |].
  simpl. by rewrite Hf, IH.
Qed.

Lemma location_resolved (l : option string) :
  location_or_unknown (location_or_null l) = location_or_unknown l.
Proof.
  unfold location_or_null. destruct l as [s |]; [| reflexivity].
  simpl. destruct (String.eqb s "") eqn:E; simpl; rewrite ?E; reflexivity.
Qed.

Lemma record_is_earthquake data info now m :
  calculateMagnitude (parseFloat (msg_ax data)) (parseFloat (msg_ay data))
                     (parseFloat (msg_az data)) = JFin m ->
  e_is_earthquake (record_of data info now) = negb (Rltb m 3.0).
Proof.
  intros Hm. unfold record_of, enhance. cbn [e_is_earthquake].
  rewrite Hm. reflexivity.
Qed.

Lemma alerts_of_sample sock data record now h cache :
  List.filter is_alert (sample_effects sock data record now h cache)
  = if e_is_earthquake record then send_to_open h (alert_of record) else [].
Proof.
  unfold sample_effects. rewrite !List.filter_app.
  assert (forall b : bool, List.filter is_alert
                      (if b then [EWriteCache cache] else []) = []) as ->
    by (by intros []).
  assert (List.filter is_alert
            match sock with
            | Some s =>
                [ESend s (data_received now
                   (calculateMagnitude (parseFloat (msg_ax data))
                      (parseFloat (msg_ay data)) (parseFloat (msg_az data)))
                   (e_is_earthquake record))]
            | None => []
            end = []) as -> by (by destruct sock).
  unfold broadcastToDashboards. rewrite filter_sends_none by reflexivity.
  simpl. destruct (e_is_earthquake record); [| reflexivity].
  simpl. unfold send_to_open, alert_of. by rewrite filter_sends_all.
Qed.

Lemma strong_sample_magnitude :
  calculateMagnitude (JFin 99) (JFin 0) (JFin 0) = JFin 4.
Proof.
  rewrite calculateMagnitude_finite. f_equal. unfold spec_magnitude.
  assert (euclidean_norm 99 0 0 = 99) as ->.
  { unfold euclidean_norm.
    replace (99 * 99 + 0 * 0 + 0 * 0) with (99 * 99) by ring.
    apply sqrt_square. lra. }
  assert (Math.Rlog10 (99 + 1) = 2) as ->.
  { unfold Math.Rlog10. replace (99 + 1) with (10 * 10) by ring.
    rewrite ln_mult by lra. pose proof ln_10_positive. field. lra. }
  rewrite Rmin_left by lra. rewrite Rmax_right by lra. ring.
Qed.

(** ** C5 *)

Lemma push_bounded_full {A : Type} (limit : nat) (l : list A) (x : A) :
  length l = limit -> length (push_bounded limit l x) = limit.
Proof.
  intros Hl. unfold push_bounded. rewrite length_app. simpl.
  destruct (Nat.ltb_spec limit (length l + 1)); [| lia].
  rewrite length_tl, length_app. simpl. lia.
Qed.

Lemma push_bounded_room {A : Type} (limit : nat) (l : list A) (x : A) :
  (length l < limit)%nat -> length (push_bounded limit l x) = S (length l).
Proof.
  intros Hl. unfold push_bounded. rewrite length_app. simpl.
  destruct (Nat.ltb_spec limit (length l + 1)); [lia |].
  rewrite length_app. simpl. lia.
Qed.

(** When ingestion writes the snapshot file, and what it writes. *)
Lemma snapshot_writes_of_sample sock data record now h cache :
  List.filter is_cache_write (sample_effects sock data record now h cache)
  = if (length cache mod 100 =? 0)%nat || e_is_earthquake record
    then [EWriteCache cache] else [].
Proof.
  unfold sample_effects. rewrite !List.filter_app.
  assert (List.filter is_cache_write
            match sock with
            | Some s =>
                [ESend s (data_received now
                   (calculateMagnitude (parseFloat (msg_ax data))
                      (parseFloat (msg_ay data)) (parseFloat (msg_az data)))
                   (e_is_earthquake record))]
            | None => []
            end = []) as -> by (by destruct sock).
  unfold broadcastToDashboards. rewrite filter_sends_none by reflexivity.
  assert (List.filter is_cache_write
            (if e_is_earthquake record
             then handleEarthquakeAlert h record else []) = []) as ->.
  { destruct (e_is_earthquake record); [| reflexivity].
    unfold handleEarthquakeAlert, send_to_open. simpl.
    by rewrite filter_sends_none. }
  assert (forall b : bool,
            List.filter is_cache_write (if b then [EWriteCache cache] else [])
            = if b then [EWriteCache cache] else []) as -> by (by intros []).
  change (List.filter is_cache_write [ELog log_info]) with (@nil Effect).
  by rewrite !app_nil_r.
Qed.

Lemma quiet_sample_magnitude :
  calculateMagnitude (JFin 0) (JFin 0) (JFin 0) = JFin 0.
Proof.
  rewrite calculateMagnitude_finite. f_equal. unfold spec_magnitude.
  assert (euclidean_norm 0 0 0 = 0) as ->.
  { unfold euclidean_norm.
    replace (0 * 0 + 0 * 0 + 0 * 0) with 0 by ring. apply sqrt_0. }
  assert (Math.Rlog10 (0 + 1) = 0) as ->.
  { unfold Math.Rlog10. replace (0 + 1) with 1 by ring.
    rewrite ln_1. pose proof ln_10_positive. field. lra. }
  rewrite Rmin_left by lra. rewrite Rmax_left by lra. reflexivity.
Qed.

Lemma quiet_sample_is_no_earthquake info now :
  e_is_earthquake (record_of quiet_sample info now) = false.
Proof.
  rewrite (record_is_earthquake quiet_sample info now 0 quiet_sample_magnitude).
  rewrite Rltb_true by lra. reflexivity.
Qed.

Lemma quiet_step h client info :
  clients h !! 1%nat = Some client -> deviceData h !! "D1" = Some info ->
  exists h',
    step h quiet_event
    = (h', sample_effects (Some 1%nat) quiet_sample
             (record_of quiet_sample info 5) 5 h (dataCache h'))
    /\ clients h' !! 1%nat = Some client
    /\ is_Some (deviceData h' !! "D1")
    /\ recentData h'
       = push_bounded MAX_RECENT_DATA_SIZE (recentData h)
                      (record_of quiet_sample info 5)
    /\ dataCache h'
       = push_bounded MAX_CACHE_SIZE (dataCache h)
                      (record_of quiet_sample info 5).
Proof.
  intros Hcl Hdev. unfold quiet_event, step.
  rewrite on_message_sensor by reflexivity.
  destruct (handleSensorData_accepted (Some 1%nat) quiet_sample
              (clients h !! 1%nat) 5 h "D1" info)
    as (h' & -> & _ & Hc & Hd & Hr & Hcache).
  { unfold accepted. split; [reflexivity |]. split; [discriminate |].
    split; [reflexivity |]. split; [exact Hdev | reflexivity]. }
  exists h'. split; [reflexivity |]. split; [by rewrite Hc |].
  split; [rewrite Hd, lookup_insert_eq; eauto |]. by split.
Qed.

Lemma quiet_run (n : nat) :
  forall h client,
    clients h !! 1%nat = Some client -> is_Some (deviceData h !! "D1") ->
    (length (dataCache h) + n <= MAX_CACHE_SIZE)%nat ->
    let h' := run h (repeat quiet_event n) in
    clients h' !! 1%nat = Some client
    /\ is_Some (deviceData h' !! "D1")
    /\ length (dataCache h') = (length (dataCache h) + n)%nat.
Proof.
  induction n as [| n IH]; intros h client Hcl Hdev Hlen.
  - simpl. repeat split; [assumption | assumption | lia].
  - destruct Hdev as [info Hdev].
    destruct (quiet_step h client info Hcl Hdev)
      as (h1 & Hstep & Hc1 & Hd1 & _ & Hcache).
    cbn [repeat run]. rewrite Hstep. cbn [fst].
    assert (length (dataCache h1) = S (length (dataCache h))) as Hl1.
    { rewrite Hcache. apply push_bounded_room. lia. }
    destruct (IH h1 client Hc1 Hd1) as (Hc & Hd & Hl); [lia |].
    repeat split; [assumption | assumption | lia].
Qed.

Lemma saturated_hub_facts :
  clients saturated_hub !! 1%nat = Some lab_client
  /\ is_Some (deviceData saturated_hub !! "D1")
  /\ length (dataCache saturated_hub) = 1000%nat.
Proof.
  destruct (quiet_run 1000 lab_hub lab_client lab_hub_client)
    as (Hcl & Hdev & Hlen).
  - rewrite lab_hub_device. eauto.
  - rewrite (proj2 lab_hub_buffers). unfold MAX_CACHE_SIZE. cbn [length]. lia.
  - rewrite (proj2 lab_hub_buffers) in Hlen. cbn [length] in Hlen.
    unfold saturated_hub. split; [exact Hcl |]. split; [exact Hdev |].
    rewrite Hlen. lia.
Qed.

(** C5: the code at the failing input.  After a thousand accepted quiet
    samples the snapshot buffer is full; the next accepted sample, the
    1001st, is no earthquake and 1001 is no multiple of 100, and still the
    whole buffer is written to the snapshot file. *)
Theorem snapshot_rewritten_by_sample_1001 :
  length (dataCache saturated_hub) = 1000%nat
  /\ (1001 mod 100)%nat = 1%nat
  /\ (exists record,
        last (recentData (step saturated_hub quiet_event).1) = Some record
        /\ e_is_earthquake record = false)
  /\ List.filter is_cache_write (step saturated_hub quiet_event).2
     = [EWriteCache (dataCache (step saturated_hub quiet_event).1)].
Proof.
  destruct saturated_hub_facts as (Hcl & [info Hdev] & Hlen).
  destruct (quiet_step saturated_hub lab_client info Hcl Hdev)
    as (h1 & Hstep & _ & _ & Hr & Hcache).
  rewrite Hstep. cbn [fst snd].
  split; [exact Hlen |]. split; [reflexivity |]. split.
  - exists (record_of quiet_sample info 5). split.
    + rewrite Hr. apply push_bounded_last. unfold MAX_RECENT_DATA_SIZE. lia.
    + apply quiet_sample_is_no_earthquake.
  - rewrite snapshot_writes_of_sample.
    rewrite Hcache, push_bounded_full by exact Hlen.
    reflexivity.
Qed.

(** ** The rounded magnitude at the alert threshold *)

Lemma ln_10_above_1 : 1 <= ln 10.
Proof.
  rewrite <- (ln_exp 1). pose proof exp_le_3 as H3. pose proof (exp_pos 1).
  destruct (Rle_lt_or_eq_dec _ _ H3) as [Hlt | Heq].
  - left. apply ln_increasing; lra.
  - rewrite Heq. left. apply ln_increasing; lra.
Qed.

Lemma borderline_score :
  2.99995 <= Math.Rlog10 (30.622 + 1) * 2 < 3.
Proof.
  pose proof ln_10_positive as H10. pose proof ln_10_above_1 as H1.
  assert (ln (31.622 * 31.622) = 2 * ln 31.622) as Hsq
    by (rewrite ln_mult by lra; ring).
  assert (ln (10 * 10 * 10) = 3 * ln 10) as Hcube
    by (rewrite !ln_mult by lra; ring).
  assert (2 * ln 31.622 < 3 * ln 10) as Hup.
  { rewrite <- Hsq, <- Hcube. apply ln_increasing; lra. }
  assert (3 * ln 10 - 2 * ln 31.622 < 0.00005) as Hgap.
  { rewrite <- Hsq, <- Hcube.
    replace (ln (10 * 10 * 10) - ln (31.622 * 31.622))
      with (ln (10 * 10 * 10 / (31.622 * 31.622)))
      by (unfold Rdiv; rewrite ln_mult, ln_Rinv by
            (try apply Rinv_0_lt_compat; lra); ring).
    set (q := 10 * 10 * 10 / (31.622 * 31.622)).
    assert (0 < q - 1 < 0.00005) as Hq by (unfold q; lra).
    pose proof (exp_ineq1 (q - 1)) as He.
    assert (q - 1 <> 0) as Hnz by lra. specialize (He Hnz).
    assert (ln q < ln (exp (q - 1))) as Hln by (apply ln_increasing; lra).
    rewrite ln_exp in Hln. lra. }
  replace (30.622 + 1) with 31.622 by lra.
  unfold Math.Rlog10. split.
  - apply Rmult_le_reg_r with (ln 10); [exact H10 |].
    replace (ln 31.622 / ln 10 * 2 * ln 10) with (2 * ln 31.622)
      by (field; lra).
    nra.
  - apply Rmult_lt_reg_r with (ln 10); [exact H10 |].
    replace (ln 31.622 / ln 10 * 2 * ln 10) with (2 * ln 31.622)
      by (field; lra).
    lra.
Qed.

(** The flag is decided on the computed magnitude and the record stores the
    rounded one: for the axes (30.622, 0, 0) the record shows the magnitude
    3 and is no earthquake. *)
Lemma rounded_magnitude_reaches_threshold :
  accepted lab_hub borderline_sample "D1" lab_device
  /\ e_magnitude (record_of borderline_sample lab_device 5) = JFin 3
  /\ e_is_earthquake (record_of borderline_sample lab_device 5) = false.
Proof.
  pose proof borderline_score as [Hlow Hhigh].
  assert (spec_magnitude 30.622 0 0 = Math.Rlog10 (30.622 + 1) * 2) as Hm.
  { unfold spec_magnitude.
    assert (euclidean_norm 30.622 0 0 = 30.622) as ->.
    { unfold euclidean_norm.
      replace (30.622 * 30.622 + 0 * 0 + 0 * 0) with (30.622 * 30.622) by ring.
      apply sqrt_square. lra. }
    rewrite Rmin_left by lra. rewrite Rmax_right by lra. reflexivity. }
  split; [apply lab_accepts; reflexivity |]. split.
  - rewrite (proj1 (record_magnitude borderline_sample lab_device 5
                      30.622 0 0 eq_refl eq_refl eq_refl)).
    f_equal. rewrite Hm.
    apply Rmult_eq_reg_r with (10 ^ 4); [| pose proof (pow10_positive 4); lra].
    rewrite toFixed_value_grid by lra.
    unfold round_half_up.
    rewrite <- (Int_part_spec (Math.Rlog10 (30.622 + 1) * 2 * 10 ^ 4 + / 2)
                              30000); [simpl; lra |].
    simpl. lra.
  - rewrite (record_is_earthquake borderline_sample lab_device 5
               (spec_magnitude 30.622 0 0)).
    + rewrite Rltb_true by lra. reflexivity.
    + apply calculateMagnitude_finite.
Qed.

(** ** The enrichment functions on every JavaScript number *)

(** The norm of axes none of which is NaN: a finite value or [Infinity]. *)
Lemma acceleration_norm_cases a b c :
  any_NaN a b c = false ->
  (exists n, 0 <= n /\ acceleration_norm a b c = JFin n)
  \/ acceleration_norm a b c = PosInf.
Proof.
  unfold any_NaN. intros H.
  destruct a as [| x | na]; [discriminate | |];
    (destruct b as [| y | nb]; [discriminate | |]);
    (destruct c as [| z | nc]; [discriminate | |]);
    try (right; reflexivity).
  left. exists (euclidean_norm x y z).
  split; [apply norm_nonneg | apply acceleration_norm_finite].
Qed.

Lemma acceleration_norm_NaN a b c :
  any_NaN a b c = true -> acceleration_norm a b c = JNaN.
Proof.
  unfold any_NaN, acceleration_norm. intros H.
  destruct a as [| x | na]; [reflexivity | |];
    (destruct b as [| y | nb]; [reflexivity | |]);
    (destruct c as [| z | nc]; try reflexivity; try discriminate).
Qed.

Lemma raw_score_infinite :
  js_mul (Math.log10 (js_add PosInf (JFin 1))) (JFin 2) = PosInf.
Proof.
  simpl. unfold inf_times.
  rewrite Reqb_false by lra. rewrite Rltb_false by lra. reflexivity.
Qed.

Lemma Rlog10_10 : Math.Rlog10 10 = 1.
Proof. unfold Math.Rlog10. pose proof ln_10_positive. field. lra. Qed.

Lemma Rlog10_nonneg r : 1 <= r -> 0 <= Math.Rlog10 r.
Proof.
  intros Hr. unfold Math.Rlog10. pose proof ln_10_positive as H10.
  apply Rmult_le_pos; [| left; by apply Rinv_0_lt_compat].
  rewrite <- ln_1. destruct Hr as [Hr | <-]; [left; apply ln_increasing; lra | lra].
Qed.

Lemma Rlog10_increasing r s : 0 < r -> r <= s -> Math.Rlog10 r <= Math.Rlog10 s.
Proof.
  intros Hr Hrs. unfold Math.Rlog10. pose proof ln_10_positive as H10.
  apply Rmult_le_compat_r; [left; by apply Rinv_0_lt_compat |].
  destruct Hrs as [Hlt | <-]; [left; apply ln_increasing; lra | lra].
Qed.

(** The intensity at a positive distance, in closed form. *)
Lemma calculateIntensity_at a b c d :
  0 < d ->
  calculateIntensity (JFin a) (JFin b) (JFin c) (JFin d)
  = JFin (Rmax 1 (Rmin 12 (Math.Rlog10 (euclidean_norm a b c + 1) * 2
                           - Math.Rlog10 d * 0.2 - 0.5))).
Proof.
  intros Hd. unfold calculateIntensity.
  rewrite acceleration_norm_finite.
  rewrite raw_score_finite by apply norm_nonneg.
  replace (js_le (JFin d) (JFin 0)) with false
    by (unfold js_le, js_lt; rewrite Rltb_true by lra; reflexivity).
  rewrite log10_positive by lra.
  rewrite mul_finite, !sub_finite, min_finite, max_finite.
  reflexivity.
Qed.

Lemma calculateIntensity_nonpositive a b c d :
  d <= 0 ->
  calculateIntensity a b c (JFin d) = calculateIntensity a b c (JFin 1).
Proof.
  intros Hd. unfold calculateIntensity.
  replace (js_le (JFin d) (JFin 0)) with true
    by (unfold js_le, js_lt; rewrite Rltb_false by lra; reflexivity).
  replace (js_le (JFin 1) (JFin 0)) with false
    by (unfold js_le, js_lt; rewrite Rltb_true by lra; reflexivity).
  reflexivity.
Qed.

Lemma jma_ladder_range p : 0 <= jma_ladder p <= 6.5.
Proof.
  unfold jma_ladder.
  repeat match goal with
         | |- context [if ?c then _ else _] => destruct c
         end; lra.
Qed.

Lemma scores_finite_bounds_at_infinity a b c :
  acceleration_norm a b c = PosInf ->
  calculateMagnitude a b c = JFin 10
  /\ calculateIntensity a b c (JFin 10) = JFin 12.
Proof.
  intros Hnorm. unfold calculateMagnitude, calculateIntensity.
  rewrite Hnorm, raw_score_infinite. split.
  - unfold Math.min, js_lt, PosInf. simpl negb. cbv iota.
    rewrite max_finite. f_equal. apply Rmax_right. lra.
  - replace (js_le (JFin 10) (JFin 0)) with false
      by (unfold js_le, js_lt; rewrite Rltb_true by lra; reflexivity).
    rewrite log10_positive by lra. rewrite mul_finite.
    change (js_sub (js_sub PosInf (JFin (Math.Rlog10 10 * 0.2))) (JFin 0.5))
      with PosInf.
    unfold Math.min, js_lt, PosInf. cbv iota.
    rewrite max_finite. f_equal. apply Rmax_right. lra.
Qed.

(** X1. Whatever numbers the three axes are, infinities included, as long
    as none is NaN: the magnitude is a finite number in [0,10], the
    intensity at 10 km a finite number in [1,12] and the JMA intensity a
    finite number in [0,6.5]. *)
Theorem scores_finite_without_NaN (a b c : jsnum) :
  any_NaN a b c = false ->
  (exists m, calculateMagnitude a b c = JFin m /\ 0 <= m <= 10)
  /\ (exists i, calculateIntensity a b c (JFin 10) = JFin i /\ 1 <= i <= 12)
  /\ (exists j,
        jma_intensity_of (calculateJmaSeismicIntensity a b c (JFin 1.0))
        = JFin j /\ 0 <= j <= 6.5).
Proof.
  intros Hn. split; [| split].
  - unfold calculateMagnitude.
    destruct (acceleration_norm_cases a b c Hn) as [(n & Hn0 & ->) | ->].
    + rewrite raw_score_finite by exact Hn0.
      rewrite min_finite, max_finite. eexists. split; [reflexivity |].
      split; [apply Rmax_l | apply Rmax_lub; [lra | apply Rmin_r]].
    + rewrite raw_score_infinite. exists 10. split; [| lra].
      unfold Math.min, js_lt, PosInf. simpl negb. cbv iota.
      rewrite max_finite. f_equal. apply Rmax_right. lra.
  - unfold calculateIntensity.
    replace (js_le (JFin 10) (JFin 0)) with false
      by (unfold js_le, js_lt; rewrite Rltb_true by lra; reflexivity).
    rewrite log10_positive by lra. rewrite mul_finite.
    destruct (acceleration_norm_cases a b c Hn) as [(n & Hn0 & ->) | ->].
    + rewrite raw_score_finite by exact Hn0.
      rewrite !sub_finite, min_finite, max_finite.
      eexists. split; [reflexivity |].
      split; [apply Rmax_l | apply Rmax_lub; [lra | apply Rmin_l]].
    + rewrite raw_score_infinite. exists 12. split; [| lra].
      change (js_sub (js_sub PosInf (JFin (Math.Rlog10 10 * 0.2))) (JFin 0.5))
        with PosInf.
      unfold Math.min, js_lt, PosInf. cbv iota.
      rewrite max_finite. f_equal. apply Rmax_right. lra.
  - simpl. eexists. split; [reflexivity | apply jma_ladder_range].
Qed.

Lemma scores_finite_without_NaN_witness :
  any_NaN PosInf (JFin 0) (JFin 0) = false
  /\ exists m, calculateMagnitude PosInf (JFin 0) (JFin 0) = JFin m
               /\ 0 <= m <= 10.
Proof.
  split; [reflexivity |].
  exact (proj1 (scores_finite_without_NaN PosInf (JFin 0) (JFin 0) eq_refl)).
Defined.

(** X2. A NaN in any axis makes the magnitude and the intensity NaN (the
    clamp does not repair it); on that NaN magnitude the JMA scale and the
    classifier answer their highest value, while the detector and the alert
    assessment answer that nothing happened. *)
Theorem NaN_axis_splits_the_verdicts
    (a b c distance correctionFactor : jsnum) :
  any_NaN a b c = true ->
  calculateMagnitude a b c = JNaN
  /\ calculateIntensity a b c distance = JNaN
  /\ jma_intensity_of (calculateJmaSeismicIntensity a b c correctionFactor)
     = JFin 6.5
  /\ classifyEarthquake (calculateMagnitude a b c) = "巨大地震"%string
  /\ detectEarthquake (calculateMagnitude a b c) default_threshold = false
  /\ level (assessAlertLevel (calculateMagnitude a b c)
                             (calculateIntensity a b c distance))
     = "無"%string.
Proof.
  intros Hn.
  assert (calculateMagnitude a b c = JNaN) as Hm.
  { unfold calculateMagnitude. by rewrite (acceleration_norm_NaN a b c Hn). }
  assert (calculateIntensity a b c distance = JNaN) as Hi.
  { unfold calculateIntensity. rewrite (acceleration_norm_NaN a b c Hn).
    reflexivity. }
  rewrite Hm, Hi. repeat split.
  unfold calculateJmaSeismicIntensity.
  rewrite (acceleration_norm_NaN a b c Hn). reflexivity.
Qed.

Lemma NaN_axis_splits_the_verdicts_witness :
  any_NaN (JFin 1) JNaN (JFin 0) = true
  /\ calculateMagnitude (JFin 1) JNaN (JFin 0) = JNaN.
Proof.
  split; [reflexivity |].
  exact (proj1 (NaN_axis_splits_the_verdicts (JFin 1) JNaN (JFin 0)
                  (JFin 10) (JFin 1) eq_refl)).
Defined.

(** X3. At a greater distance the intensity of the same shaking is never
    higher, and a distance of zero or less counts as 1 km. *)
Theorem intensity_falls_with_distance (a b c d1 d2 : R) :
  0 < d1 -> d1 <= d2 ->
  (exists i1 i2,
     calculateIntensity (JFin a) (JFin b) (JFin c) (JFin d1) = JFin i1
     /\ calculateIntensity (JFin a) (JFin b) (JFin c) (JFin d2) = JFin i2
     /\ i2 <= i1)
  /\ forall d, d <= 0 ->
       calculateIntensity (JFin a) (JFin b) (JFin c) (JFin d)
       = calculateIntensity (JFin a) (JFin b) (JFin c) (JFin 1).
Proof.
  intros H1 H12. split; [| intros d; apply calculateIntensity_nonpositive].
  rewrite !calculateIntensity_at by lra.
  eexists _, _. split; [reflexivity |]. split; [reflexivity |].
  apply Rle_max_compat_l, Rle_min_compat_l.
  pose proof (Rlog10_increasing d1 d2 H1 H12). lra.
Qed.

Lemma intensity_falls_with_distance_witness :
  (0 < 10 /\ 10 <= 100)
  /\ exists i1 i2,
       calculateIntensity (JFin 3) (JFin 4) (JFin 0) (JFin 10) = JFin i1
       /\ calculateIntensity (JFin 3) (JFin 4) (JFin 0) (JFin 100) = JFin i2
       /\ i2 <= i1.
Proof.
  assert (0 < 10) as H1 by lra. assert (10 <= 100) as H2 by lra.
  split; [split; assumption |].
  exact (proj1 (intensity_falls_with_distance 3 4 0 10 100 H1 H2)).
Defined.

Lemma magnitude_dominates_intensity a b c :
  any_NaN a b c = false ->
  exists m i,
    calculateMagnitude a b c = JFin m
    /\ calculateIntensity a b c (JFin 10) = JFin i
    /\ 0 <= m <= 10
    /\ (i <= 1 \/ Rmin (i + 0.7) 10 <= m).
Proof.
  intros Hn.
  destruct (acceleration_norm_cases a b c Hn) as [(n & Hn0 & Hnorm) | Hnorm].
  - unfold calculateMagnitude, calculateIntensity. rewrite Hnorm.
    replace (js_le (JFin 10) (JFin 0)) with false
      by (unfold js_le, js_lt; rewrite Rltb_true by lra; reflexivity).
    rewrite log10_positive by lra. rewrite mul_finite.
    rewrite raw_score_finite by exact Hn0.
    rewrite !sub_finite, !min_finite, !max_finite, Rlog10_10.
    eexists _, _. split; [reflexivity |]. split; [reflexivity |].
    assert (0 <= Math.Rlog10 (n + 1) * 2) as Hraw.
    { pose proof (Rlog10_nonneg (n + 1)). lra. }
    revert Hraw. generalize (Math.Rlog10 (n + 1) * 2). intros raw Hraw.
    unfold Rmax, Rmin. repeat destruct (Rle_dec _ _); lra.
  - destruct (scores_finite_bounds_at_infinity a b c Hnorm) as [-> ->].
    exists 10, 12. repeat split; try lra.
    right. unfold Rmin. destruct (Rle_dec _ _); lra.
Qed.

Ltac split_comparisons :=
  repeat match goal with
         | |- context [Rlt_dec ?x ?y] =>
             destruct (Rlt_dec x y); try (exfalso; lra)
         end.

(** X5. With the intensity the hub computes (distance 10 km) the alert
    assessment is decided by the magnitude alone: it is the assessment the
    same magnitude gets with the lowest intensity, 1. *)
Theorem alert_level_decided_by_magnitude (a b c : jsnum) :
  any_NaN a b c = false ->
  assessAlertLevel (calculateMagnitude a b c)
                   (calculateIntensity a b c (JFin 10))
  = assessAlertLevel (calculateMagnitude a b c) (JFin 1).
Proof.
  intros Hn.
  destruct (magnitude_dominates_intensity a b c Hn)
    as (m & i & -> & -> & Hm & Hi).
  assert (i <= 1 \/ (i + 0.7 <= m \/ 10 <= m)) as Hi'.
  { destruct Hi as [Hi | Hi]; [by left | right].
    revert Hi. unfold Rmin. destruct (Rle_dec _ _); lra. }
  unfold assessAlertLevel, js_ge, js_le, js_lt, Rltb.
  split_comparisons; try reflexivity; exfalso; lra.
Qed.

Lemma alert_level_decided_by_magnitude_witness :
  any_NaN (JFin 30) (JFin 40) PosInf = false
  /\ assessAlertLevel (calculateMagnitude (JFin 30) (JFin 40) PosInf)
                      (calculateIntensity (JFin 30) (JFin 40) PosInf (JFin 10))
     = assessAlertLevel (calculateMagnitude (JFin 30) (JFin 40) PosInf)
                        (JFin 1).
Proof.
  split; [reflexivity |].
  exact (alert_level_decided_by_magnitude (JFin 30) (JFin 40) PosInf eq_refl).
Defined.

(** X6. In the record the hub builds from axes without NaN the three
    verdicts agree: the earthquake flag is set exactly when the alert level
    is not "none", and exactly when the class is neither of the two lowest
    ones. *)
Theorem record_verdicts_agree
    (data : Message) (deviceInfo : DeviceInfo) (now : Z) (a b c : jsnum) :
  any_NaN a b c = false ->
  let r := enhance data deviceInfo now a b c in
  (e_is_earthquake r = true <-> e_alert_level r <> "無"%string)
  /\ (e_is_earthquake r = true <->
      e_earthquake_type r <> "微震"%string
      /\ e_earthquake_type r <> "弱震"%string).
Proof.
  intros Hn r. subst r. unfold enhance.
  cbn [e_is_earthquake e_alert_level e_earthquake_type].
  destruct (magnitude_dominates_intensity a b c Hn)
    as (m & i & -> & -> & Hm & Hi).
  assert (i <= 1 \/ (i + 0.7 <= m \/ 10 <= m)) as Hi'.
  { destruct Hi as [Hi | Hi]; [by left | right].
    revert Hi. unfold Rmin. destruct (Rle_dec _ _); lra. }
  unfold detectEarthquake, default_threshold, assessAlertLevel,
    classifyEarthquake, js_ge, js_le, js_lt, Rltb.
  split_comparisons; cbn [negb orb level];
    (split; split; try split; intros; try congruence; try discriminate;
     by intuition).
Qed.

Lemma record_verdicts_agree_witness :
  any_NaN (JFin 30) (JFin 40) (JFin 0) = false
  /\ (e_is_earthquake
        (enhance strong_sample lab_device 0 (JFin 30) (JFin 40) (JFin 0))
      = true
      <-> e_alert_level
            (enhance strong_sample lab_device 0 (JFin 30) (JFin 40) (JFin 0))
          <> "無"%string).
Proof.
  split; [reflexivity |].
  exact (proj1 (record_verdicts_agree strong_sample lab_device 0
                  (JFin 30) (JFin 40) (JFin 0) eq_refl)).
Defined.

Lemma Rpower_10_positive r : 0 < Rpower 10 r.
Proof. unfold Rpower. apply exp_pos. Qed.

Lemma Rpower_10_one_and_a_half : 31 < Rpower 10 1.5 < 32.
Proof.
  replace 1.5 with (1 + / 2) by lra.
  rewrite Rpower_plus, Rpower_1, Rpower_sqrt by lra.
  assert (3.1 < sqrt 10 < 3.2) as H; [| lra].
  split.
  - rewrite <- (sqrt_square 3.1) by lra. apply sqrt_lt_1_alt. lra.
  - rewrite <- (sqrt_square 3.2) by lra. apply sqrt_lt_1_alt. lra.
Qed.

Lemma div_finite x y : y <> 0 -> js_div (JFin x) (JFin y) = JFin (x / y).
Proof. intros Hy. unfold js_div. by rewrite Reqb_false. Qed.

Lemma Rpower_10_nat (n : nat) : Rpower 10 (INR n) = IZR (10 ^ Z.of_nat n).
Proof. rewrite Rpower_pow by lra. by rewrite pow_IZR. Qed.

Lemma Rpower_10_monotone x y : x <= y -> Rpower 10 x <= Rpower 10 y.
Proof. intros Hxy. apply Rle_Rpower; lra. Qed.

(** Where [Math.pow(10, y)] is a finite positive number, and where it is
    [Infinity]. *)
Lemma pow10_in_range x :
  0 <= x <= 308 ->
  Math.pow10 (JFin x) = JFin (Rpower 10 x) /\ 1 <= Rpower 10 x.
Proof.
  intros [H0 H308].
  assert (1 <= Rpower 10 x) as Hlow.
  { rewrite <- (Rpower_O 10) by lra. by apply Rpower_10_monotone. }
  assert (Rpower 10 x < Math.overflow_threshold) as Hhigh.
  { eapply Rle_lt_trans; [apply (Rpower_10_monotone x (INR 308)) |].
    - replace (INR 308) with 308 by (simpl; lra). exact H308.
    - rewrite Rpower_10_nat. apply IZR_lt. reflexivity. }
  assert (Math.underflow_threshold < 1) as Hunder.
  { unfold Math.underflow_threshold. rewrite <- Rinv_1.
    assert (1 < IZR (2 ^ 1075)) as Hbig by (apply IZR_lt; reflexivity).
    apply Rinv_lt_contravar; lra. }
  split; [| exact Hlow]. unfold Math.pow10.
  rewrite Rleb_false by exact Hhigh. rewrite Rleb_false by lra. reflexivity.
Qed.

Lemma pow10_overflows x : 309 <= x -> Math.pow10 (JFin x) = PosInf.
Proof.
  intros Hx. unfold Math.pow10. rewrite Rleb_true; [reflexivity |].
  eapply Rle_trans; [| apply (Rpower_10_monotone (INR 309) x)].
  - rewrite Rpower_10_nat. apply IZR_le.
    apply Z.lt_le_incl. reflexivity.
  - replace (INR 309) with 309 by (simpl; lra). exact Hx.
Qed.

(** X7. For a magnitude between 0 and 200, the range of [calculateMagnitude]
    included, [calculateEnergy] is a finite number of at least 10^4, and one
    more unit of magnitude multiplies it by a factor between 31 and 32
    (10^1.5).  From magnitude 203 on the result is [Infinity]. *)
Theorem energy_per_unit_of_magnitude (m : R) :
  (0 <= m <= 200 ->
   exists e e1,
     calculateEnergy (JFin m) = JFin e
     /\ calculateEnergy (JFin (m + 1)) = JFin e1
     /\ 10000 <= e
     /\ 31 * e < e1 < 32 * e)
  /\ (203 <= m -> calculateEnergy (JFin m) = PosInf).
Proof.
  unfold calculateEnergy. rewrite !mul_finite. unfold js_add. split.
  - intros Hm.
    destruct (pow10_in_range (4.8 + 1.5 * m)) as [-> Hlow]; [lra |].
    destruct (pow10_in_range (4.8 + 1.5 * (m + 1))) as [-> _]; [lra |].
    eexists _, _. split; [reflexivity |]. split; [reflexivity |].
    pose proof (Rpower_10_positive (4.8 + 1.5 * m)) as Hpos.
    assert (Rpower 10 (4.8 + 1.5 * (m + 1))
            = Rpower 10 1.5 * Rpower 10 (4.8 + 1.5 * m)) as Heq.
    { rewrite <- Rpower_plus. f_equal. lra. }
    split.
    + eapply Rle_trans; [| apply (Rpower_10_monotone (INR 4))].
      * rewrite Rpower_10_nat. apply IZR_le. by apply Z.eq_le_incl.
      * simpl. lra.
    + rewrite Heq. pose proof Rpower_10_one_and_a_half. nra.
  - intros Hm. apply pow10_overflows. lra.
Qed.

Lemma energy_per_unit_of_magnitude_witness :
  0 <= 4 <= 200
  /\ exists e e1,
       calculateEnergy (JFin 4) = JFin e
       /\ calculateEnergy (JFin (4 + 1)) = JFin e1
       /\ 10000 <= e
       /\ 31 * e < e1 < 32 * e.
Proof.
  assert (0 <= 4 <= 200) as H by lra.
  split; [exact H | exact (proj1 (energy_per_unit_of_magnitude 4) H)].
Defined.

(** X8. For a magnitude between 0 and 459, the range of [calculateMagnitude]
    included, the four impact radii are finite and nested:
    extreme <= strong <= moderate <= felt.  From magnitude 461 on the felt
    radius is [Infinity]. *)
Theorem impact_radii_nested (m : R) :
  (0 <= m <= 459 ->
   exists e s d f,
     calculateImpactRadius (JFin m)
     = mkRadius (JFin e) (JFin s) (JFin d) (JFin f)
     /\ 0 <= e <= s /\ s <= d /\ d <= f)
  /\ (461 <= m -> felt (calculateImpactRadius (JFin m)) = PosInf).
Proof.
  unfold calculateImpactRadius, js_gt, js_lt, js_sub, js_neg.
  rewrite !div_finite by lra. unfold js_add. cbn [felt]. split.
  - intros Hm.
    destruct (pow10_in_range (m / 2.5)) as [E1 Hp1]; [lra |].
    destruct (pow10_in_range (m / 2)) as [E2 Hp2]; [lra |].
    destruct (pow10_in_range (m / 2 + 1)) as [E3 _]; [lra |].
    destruct (pow10_in_range (m / 1.5 + 2)) as [E4 _]; [lra |].
    rewrite E1, E2, E3, E4.
    pose proof (Rpower_10_monotone (m / 2 + - (1)) (m / 2)) as H1.
    pose proof (Rpower_10_monotone (m / 2.5) (m / 2 + 1)) as H2.
    pose proof (Rpower_10_monotone (m / 2) (m / 2 + 1)) as H3.
    pose proof (Rpower_10_monotone (m / 2 + 1) (m / 1.5 + 2)) as H4.
    pose proof (Rpower_10_positive (m / 2 + - (1))) as Hp3.
    unfold Rltb. destruct (Rlt_dec 6.0 m) as [H6 | H6], (Rlt_dec 5.0 m);
      try (destruct (pow10_in_range (m / 2 + - (1))) as [-> _]; [lra |]);
      eexists _, _, _, _; (split; [reflexivity |]);
      repeat split; try lra.
  - intros Hm. apply pow10_overflows. lra.
Qed.

Lemma impact_radii_nested_witness :
  0 <= 6.5 <= 459
  /\ exists e s d f,
       calculateImpactRadius (JFin 6.5)
       = mkRadius (JFin e) (JFin s) (JFin d) (JFin f)
       /\ 0 <= e <= s /\ s <= d /\ d <= f.
Proof.
  assert (0 <= 6.5 <= 459) as H by lra.
  split; [exact H | exact (proj1 (impact_radii_nested 6.5) H)].
Defined.

(** ** How the handlers change the stored data *)

Lemma data_change_refl h : data_change h h.
Proof. by apply data_kept. Qed.

Lemma handleSensorData_change sock data client now h h' out :
  handleSensorData sock data client now h = Done h' out -> data_change h h'.
Proof.
  intros Hrun.
  destruct (accepted_or_rejected h data) as [(d & info & Hacc) | Hrej].
  - destruct (handleSensorData_accepted sock data client now h d info Hacc)
      as (h1 & Heq & _ & _ & Hd & Hr & Hcache).
    rewrite Heq in Hrun. injection Hrun as <- _.
    by eapply sample_stored.
  - rewrite (handleSensorData_rejected _ _ _ _ _ Hrej) in Hrun.
    destruct client; [| destruct (_ && _)]; try discriminate;
      injection Hrun as <- _; apply data_change_refl.
Qed.

Lemma handleDeviceRegister_change sock data client now h h' out :
  handleDeviceRegister sock data client now h = Done h' out ->
  data_change h h'.
Proof.
  unfold handleDeviceRegister.
  destruct (msg_device_id data) as [d |];
    [| intros [= <- _]; apply data_change_refl].
  destruct (truthy_string (Some d)) eqn:Ht;
    [| intros [= <- _]; apply data_change_refl].
  apply truthy_string_inv in Ht as (d0 & [= <-] & Hne).
  destruct client as [client |]; [| discriminate].
  intros [= <- _].
  destruct (deviceData h !! d) as [info |] eqn:Hdev.
  - by eapply (device_touched _ _ d info (mark connected now info)).
  - by eapply (device_created _ _ d
                 (mkDevice (msg_location data) connected now now []
                           VUndef VUndef VUndef)).
Qed.

Lemma handleHeartbeat_change sock data client now h h' out :
  handleHeartbeat sock data client now h = Done h' out -> data_change h h'.
Proof.
  unfold handleHeartbeat.
  destruct client as [client |]; [| intros [= <- _]; apply data_change_refl].
  intros [= <- _].
  destruct (known_device _ (msg_device_id data)) as [[d info] |] eqn:Hk.
  - apply known_device_some in Hk as (_ & Hne & Hdev). simpl in Hdev.
    by eapply (device_touched _ _ d info (mark connected now info)).
  - by apply data_kept.
Qed.

Lemma handleStatusUpdate_change sock data client now h h' out :
  handleStatusUpdate sock data client now h = Done h' out ->
  data_change h h'.
Proof.
  unfold handleStatusUpdate.
  destruct (known_device h (msg_device_id data)) as [[d info] |] eqn:Hk;
    [| intros [= <- _]; apply data_change_refl].
  apply known_device_some in Hk as (_ & Hne & Hdev).
  intros [= <- _].
  by eapply (device_touched _ _ d info
               (mark connected now
                  (with_telemetry (msg_battery data)
                     (msg_signal_strength data) (msg_free_heap data) info))).
Qed.

Lemma handleClientRegister_change sock data client now uptime h h' out :
  handleClientRegister sock data client now uptime h = Done h' out ->
  data_change h h'.
Proof.
  unfold handleClientRegister.
  destruct client as [client |]; [| discriminate].
  intros [= <- _]. by apply data_kept.
Qed.

Lemma handleMessage_change sock data now uptime h h' out :
  handleMessage sock data now uptime h = Done h' out -> data_change h h'.
Proof.
  unfold handleMessage.
  destruct (msg_type data) as [type |];
    [| intros H; apply unroutable_inv in H; subst; apply data_change_refl].
  repeat (match goal with |- context [if ?c then _ else _] => destruct c end);
    try (intros H; apply unroutable_inv in H; subst; apply data_change_refl).
  - apply handleSensorData_change.
  - apply handleDeviceRegister_change.
  - apply handleHeartbeat_change.
  - apply handleStatusUpdate_change.
  - apply handleClientRegister_change.
Qed.

Lemma on_close_change sock now h : data_change h (on_close sock now h).1.
Proof.
  unfold on_close. simpl clients.
  destruct (clients h !! sock) as [client |]; [| by apply data_kept].
  destruct (known_device _ (c_deviceId client)) as [[d info] |] eqn:Hk.
  - apply known_device_some in Hk as (_ & Hne & Hdev). simpl in Hdev.
    by eapply (device_touched _ _ d info (mark disconnected now info)).
  - by apply data_kept.
Qed.

Lemma sweep_visit_change now acc sock :
  data_change acc.1 (sweep_visit now acc sock).1.
Proof.
  destruct acc as [h out]. unfold sweep_visit.
  destruct (clients h !! sock) as [info |]; [| apply data_change_refl].
  destruct (stale now info); [| apply data_change_refl].
  destruct (known_device _ (c_deviceId info)) as [[d dev] |] eqn:Hk.
  - apply known_device_some in Hk as (_ & Hne & Hdev). simpl in Hdev.
    by eapply (device_touched _ _ d dev (mark disconnected now dev)).
  - by apply data_kept.
Qed.

Section Invariants.

Variable P : Hub -> Prop.
Hypothesis P_change : forall h h', data_change h h' -> P h -> P h'.

Lemma sweep_fold_preserves now l acc :
  P acc.1 -> P (fold_left (sweep_visit now) l acc).1.
Proof.
  revert acc. induction l as [| s l IH]; intros acc HP; [exact HP |].
  simpl. apply IH. eapply P_change; [apply sweep_visit_change | exact HP].
Qed.

Lemma step_preserves h ev : P h -> P (step h ev).1.
Proof.
  intros HP. destruct ev; simpl.
  - eapply P_change; [| exact HP]. by apply data_kept.
  - unfold on_message. destruct frame as [data |]; [| exact HP].
    destruct (handleMessage _ _ _ _ _) as [h' out |] eqn:Hm; [| exact HP].
    eapply P_change; [| exact HP]. by eapply handleMessage_change.
  - unfold on_pong. destruct (clients h !! sock); [| exact HP].
    eapply P_change; [| exact HP]. by apply data_kept.
  - unfold on_ping_timer. destruct (is_open _); [exact HP |].
    eapply P_change; [| exact HP]. by apply data_kept.
  - eapply P_change; [| exact HP]. by apply data_kept.
  - eapply P_change; [apply on_close_change | exact HP].
  - by apply sweep_fold_preserves.
  - unfold test_earthquake.
    destruct (handleSensorData _ _ _ _ _) as [h' out |] eqn:Hm; [| exact HP].
    eapply P_change; [| exact HP]. by eapply handleSensorData_change.
  - eapply P_change; [| exact HP]. by apply cache_cleared.
Qed.

Lemma run_preserves evs : forall h, P h -> P (run h evs).
Proof.
  induction evs as [| ev evs IH]; intros h HP; [exact HP |].
  simpl. apply IH. by apply step_preserves.
Qed.

End Invariants.

(** ** The device directory only grows *)

(** X9. The hub never forgets a device: whatever events follow, a device
    of the directory stays in it, with the location and the connection
    time it was created with. *)
Theorem devices_are_never_forgotten
    (h : Hub) (evs : list Event) (d : string) (info : DeviceInfo) :
  deviceData h !! d = Some info ->
  exists info',
    deviceData (run h evs) !! d = Some info'
    /\ d_location info' = d_location info
    /\ d_connectedAt info' = d_connectedAt info.
Proof.
  intros Hdev.
  apply (run_preserves
           (fun h' => exists info',
                deviceData h' !! d = Some info'
                /\ d_location info' = d_location info
                /\ d_connectedAt info' = d_connectedAt info)).
  - clear. intros h h' Hch (cur & Hcur & Hloc & Hat).
    destruct Hch as [Hd _ _
                    | d0 info0 info1 Hd0 (Hl & Ha & _) Hd _ _
                    | d0 info1 Hd0 _ _ _ Hd _ _
                    | data d0 info0 now (_ & _ & _ & Hd0 & _) Hd _ _
                    | Hd _ _]; rewrite Hd.
    + eauto.
    + destruct (decide (d0 = d)) as [-> | Hne].
      * rewrite lookup_insert_eq. exists info1.
        rewrite Hcur in Hd0. injection Hd0 as <-.
        split; [reflexivity |]. split; congruence.
      * rewrite lookup_insert_ne by exact Hne. eauto.
    + destruct (decide (d0 = d)) as [-> | Hne]; [congruence |].
      rewrite lookup_insert_ne by exact Hne. eauto.
    + destruct (decide (d0 = d)) as [-> | Hne].
      * rewrite lookup_insert_eq. eexists. split; [reflexivity |].
        rewrite Hcur in Hd0. injection Hd0 as <-. by split.
      * rewrite lookup_insert_ne by exact Hne. eauto.
    + eauto.
  - eauto.
Qed.

Lemma devices_are_never_forgotten_witness :
  deviceData lab_hub !! "D1" = Some lab_device
  /\ exists info',
       deviceData
         (run lab_hub
              [EvMessage 1%nat (Some (register_message "D1" (Some "Roof")))
                         7 7;
               EvClose 1%nat 9; EvClearCache]) !! "D1" = Some info'
       /\ d_location info' = d_location lab_device
       /\ d_connectedAt info' = d_connectedAt lab_device.
Proof.
  split; [exact lab_hub_device |].
  exact (devices_are_never_forgotten lab_hub _ "D1" lab_device lab_hub_device).
Defined.

(** ** What the buffers hold *)

Lemma intensity_without_NaN a b c :
  any_NaN a b c = false ->
  exists i, calculateIntensity a b c (JFin 10) = JFin i /\ 1 <= i <= 12.
Proof.
  intros Hn.
  destruct (acceleration_norm_cases a b c Hn) as [(n & Hn0 & Hnorm) | Hnorm].
  - unfold calculateIntensity. rewrite Hnorm.
    replace (js_le (JFin 10) (JFin 0)) with false
      by (unfold js_le, js_lt; rewrite Rltb_true by lra; reflexivity).
    rewrite log10_positive by lra. rewrite mul_finite.
    rewrite raw_score_finite by exact Hn0.
    rewrite !sub_finite, min_finite, max_finite.
    eexists. split; [reflexivity |].
    split; [apply Rmax_l | apply Rmax_lub; [lra | apply Rmin_l]].
  - destruct (scores_finite_bounds_at_infinity a b c Hnorm) as [_ ->].
    exists 12. split; [reflexivity | lra].
Qed.

Lemma accepted_axes h data d info :
  accepted h data d info ->
  any_NaN (parseFloat (msg_ax data)) (parseFloat (msg_ay data))
          (parseFloat (msg_az data)) = false.
Proof.
  intros (_ & _ & _ & _ & Hax). unfold parsed_axes in Hax. simpl in Hax.
  unfold any_NaN.
  destruct (isNaN (parseFloat (msg_ax data))); [discriminate |].
  destruct (isNaN (parseFloat (msg_ay data))); [discriminate |].
  destruct (isNaN (parseFloat (msg_az data))); [discriminate |].
  reflexivity.
Qed.

Lemma accepted_record_ok h data d info now :
  accepted h data d info ->
  record_ok (record_of data info now)
  /\ msg_device_id (e_data (record_of data info now)) = Some d.
Proof.
  intros Hacc. pose proof (accepted_axes h data d info Hacc) as Hn.
  destruct Hacc as (Hid & Hne & _).
  destruct (magnitude_dominates_intensity _ _ _ Hn)
    as (m & i0 & Hm & _ & Hm_range & _).
  destruct (intensity_without_NaN _ _ _ Hn) as (i & Hi & Hi_range).
  unfold record_of, enhance, record_ok.
  cbn [e_magnitude e_intensity e_data]. rewrite Hm, Hi.
  cbn [toFixed_parsed].
  split; [| exact Hid]. split; [| split].
  - eexists. split; [reflexivity |].
    apply (toFixed_value_between 4 0 10); [lia | lra | lra].
  - eexists. split; [reflexivity |].
    apply (toFixed_value_between 4 1 12); [lia | lra | lra].
  - by exists d.
Qed.

Lemma Forall_push_bounded {A : Type} (Q : A -> Prop) limit l x :
  Forall Q l -> Q x -> Forall Q (push_bounded limit l x).
Proof.
  intros Hl Hx. unfold push_bounded.
  assert (Forall Q (l ++ [x])) as Hall
    by (apply Forall_app; split; [exact Hl | by constructor]).
  destruct (_ <? _)%nat; [| exact Hall].
  destruct (l ++ [x]) as [| y l']; [constructor |].
  simpl. by inversion Hall.
Qed.

Lemma records_ok_change h h' : data_change h h' -> records_ok h -> records_ok h'.
Proof.
  intros Hch (Hr & Hc & Hh). unfold records_ok.
  destruct Hch as [Hd Hr' Hc'
                  | d0 info0 info1 Hd0 (_ & _ & Hhist) Hd Hr' Hc'
                  | d0 info1 Hd0 _ Hhist _ Hd Hr' Hc'
                  | data d0 info0 now Hacc Hd Hr' Hc'
                  | Hd Hr' Hc']; rewrite Hd, Hr', Hc'.
  - auto.
  - repeat split; try assumption.
    apply map_Forall_insert_2; [| exact Hh].
    rewrite Hhist. exact (Hh _ _ Hd0).
  - repeat split; try assumption.
    apply map_Forall_insert_2; [| exact Hh].
    rewrite Hhist. constructor.
  - destruct (accepted_record_ok h data d0 info0 now Hacc) as [Hok Hid].
    destruct Hacc as (_ & _ & _ & Hd0 & _).
    split; [by apply Forall_push_bounded |].
    split; [by apply Forall_push_bounded |].
    apply map_Forall_insert_2; [| exact Hh].
    cbn [d_history with_history with_lastSeen mark].
    apply Forall_push_bounded; [exact (Hh _ _ Hd0) | by split].
  - repeat split; try assumption. constructor.
Qed.

(** X10. From start-up on, every record the hub holds is well formed: in
    the recent list, in the snapshot buffer (given that the loaded snapshot
    was) and in every device history the magnitude is a finite number in
    [0,10], the intensity a finite number in [1,12], the device id is not
    empty, and a history holds only records of its own device. *)
Theorem stored_records_are_well_formed
    (loaded : list EnhancedData) (start : Z) (evs : list Event) :
  Forall record_ok loaded ->
  records_ok (run (initial_hub loaded start) evs).
Proof.
  intros Hloaded. apply (run_preserves records_ok records_ok_change).
  unfold records_ok, initial_hub. simpl.
  split; [constructor |]. split; [exact Hloaded |].
  apply map_Forall_empty.
Qed.

Lemma stored_records_are_well_formed_witness :
  Forall record_ok []
  /\ records_ok
       (run (initial_hub [] 0)
            [EvConnection 1%nat "10.0.0.7" 50000 0;
             EvMessage 1%nat (Some (register_message "D1" (Some "Lab"))) 0 0;
             EvMessage 1%nat (Some strong_sample) 5 5]).
Proof.
  split; [constructor |].
  apply stored_records_are_well_formed. constructor.
Defined.

(** ** Samples below the detection threshold *)

Lemma Rlog10_below x y : 0 < x -> x < Rpower 10 y -> Math.Rlog10 x < y.
Proof.
  intros Hx Hxy. unfold Math.Rlog10.
  pose proof ln_10_positive as H10.
  apply (Rmult_lt_reg_r (ln 10)); [exact H10 |].
  replace (ln x / ln 10 * ln 10) with (ln x) by (field; lra).
  replace (y * ln 10) with (ln (Rpower 10 y))
    by (unfold Rpower; apply ln_exp).
  by apply ln_increasing.
Qed.

Lemma spec_magnitude_below ax ay az bound y :
  0 <= bound -> ax * ax + ay * ay + az * az <= bound * bound ->
  bound + 1 < Rpower 10 y -> 0 < y ->
  spec_magnitude ax ay az < 2 * y.
Proof.
  intros Hb Hsq Hpow Hy.
  assert (euclidean_norm ax ay az <= bound) as Hn.
  { unfold euclidean_norm. rewrite <- (sqrt_square bound) by exact Hb.
    by apply sqrt_le_1_alt. }
  pose proof (norm_nonneg ax ay az) as H0.
  assert (Math.Rlog10 (euclidean_norm ax ay az + 1) < y) as Hlog
    by (apply Rlog10_below; lra).
  unfold spec_magnitude.
  apply Rmax_lub_lt; [lra |].
  eapply Rle_lt_trans; [apply Rmin_l | lra].
Qed.

Lemma gentle_sample sock data client now h h' out ax ay az :
  parseFloat (msg_ax data) = JFin ax -> parseFloat (msg_ay data) = JFin ay ->
  parseFloat (msg_az data) = JFin az ->
  spec_magnitude ax ay az < 3 ->
  handleSensorData sock data client now h = Done h' out ->
  List.filter is_alert out = []
  /\ forall d info,
       accepted h data d info ->
       e_is_earthquake (record_of data info now) = false
       /\ last (recentData h') = Some (record_of data info now).
Proof.
  intros Hx Hy Hz Hm Hrun.
  assert (forall info, e_is_earthquake (record_of data info now) = false)
    as Hquiet.
  { intros info.
    rewrite (record_is_earthquake data info now (spec_magnitude ax ay az))
      by (rewrite Hx, Hy, Hz; apply calculateMagnitude_finite).
    rewrite Rltb_true by lra. reflexivity. }
  destruct (accepted_or_rejected h data) as [(d & info & Hacc) | Hrej].
  - destruct (handleSensorData_accepted sock data client now h d info Hacc)
      as (h1 & Heq & _ & _ & _ & Hr & _).
    rewrite Heq in Hrun. injection Hrun as <- <-. split.
    + by rewrite alerts_of_sample, Hquiet.
    + intros d' info' Hacc'.
      assert (d' = d /\ info' = info) as [-> ->].
      { destruct Hacc as (Hid & _ & _ & Hdev & _).
        destruct Hacc' as (Hid' & _ & _ & Hdev' & _).
        assert (d' = d) as -> by congruence. split; congruence. }
      split; [apply Hquiet |].
      rewrite Hr. apply push_bounded_last. unfold MAX_RECENT_DATA_SIZE. lia.
  - rewrite (handleSensorData_rejected _ _ _ _ _ Hrej) in Hrun. split.
    + destruct client; [| destruct (_ && _)]; try discriminate;
        by injection Hrun as <- <-.
    + intros d info (Hid & Hne & Hts & Hdev & Hax).
      exfalso. destruct Hrej as [Hr | [Hr | [(d0 & Hd0 & Hnone) | Hr]]].
      * rewrite Hid, (truthy_string_some d Hne) in Hr. discriminate.
      * congruence.
      * congruence.
      * congruence.
Qed.

(** X11. [POST /api/test/earthquake] raises no alert for a requested
    magnitude between -80 and 80, the default 4.5 included: the axes it
    builds from the request give a computed magnitude below the threshold 3.
    When the device is registered the record it stores is no earthquake. *)
Theorem test_endpoint_raises_no_alert
    (h : Hub) (magnitude : option jsnum) (device_id : option string)
    (iso : string) (now : Z) (m : R) :
  default (JFin 4.5) magnitude = JFin m -> -80 <= m <= 80 ->
  let result := test_earthquake magnitude device_id iso now h in
  List.filter is_alert result.2 = []
  /\ forall info,
       deviceData h !! default "test_device"%string device_id = Some info ->
       default "test_device"%string device_id <> ""%string ->
       iso <> ""%string ->
       exists r, last (recentData result.1) = Some r
                 /\ e_is_earthquake r = false.
Proof.
  intros Hm Hrange result. subst result. unfold test_earthquake.
  rewrite Hm. cbn [js_mul].
  set (data := mkMessage _ _ _ _ _ _ _ _ _ _ _ _ _ _).
  assert (spec_magnitude (m * 0.1) (m * 0.2) (m * 0.3) < 3) as Hweak.
  { replace 3 with (2 * 1.5) by lra.
    apply (spec_magnitude_below _ _ _ 30); [lra | nra | | lra].
    pose proof Rpower_10_one_and_a_half. lra. }
  destruct (handleSensorData None data _ now h) as [h' out |] eqn:Hrun.
  - destruct (gentle_sample None data _ now h h' out
                (m * 0.1) (m * 0.2) (m * 0.3) eq_refl eq_refl eq_refl
                Hweak Hrun) as [Hnone Hrec].
    split; [exact Hnone |].
    intros info Hdev Hne Hiso.
    assert (accepted h data (default "test_device"%string device_id) info)
      as Hacc.
    { split; [reflexivity |]. split; [exact Hne |].
      split; [simpl; by apply negb_true_iff, String.eqb_neq |].
      split; [exact Hdev | reflexivity]. }
    destruct (Hrec _ _ Hacc) as [Hq Hlast]. eauto.
  - split; [reflexivity |].
    intros info Hdev Hne Hiso. exfalso.
    assert (accepted h data (default "test_device"%string device_id) info)
      as Hacc.
    { split; [reflexivity |]. split; [exact Hne |].
      split; [simpl; by apply negb_true_iff, String.eqb_neq |].
      split; [exact Hdev | reflexivity]. }
    destruct (handleSensorData_accepted None data
                (Some (mkClient ("test_api"%string, 0%Z, 0%Z) "" 0%Z 0%Z
                                None "")) now h _ _ Hacc)
      as (h1 & Heq & _).
    congruence.
Qed.

Lemma test_endpoint_raises_no_alert_witness :
  (default (JFin 4.5) None = JFin 4.5 /\ -80 <= 4.5 <= 80)
  /\ List.filter is_alert
       (test_earthquake None (Some "D1"%string) "2026-01-11T10:00:00.000Z"
                        5 lab_hub).2 = [].
Proof.
  assert (-80 <= 4.5 <= 80) as Hr by lra.
  split; [split; [reflexivity | exact Hr] |].
  exact (proj1 (test_endpoint_raises_no_alert lab_hub None (Some "D1"%string)
                  "2026-01-11T10:00:00.000Z" 5 4.5 eq_refl Hr)).
Defined.

(** X12. The sample of the command-line dashboard's [test] command never
    raises an alert on the hub.  When ["TEST_DEVICE"] is not registered the
    hub only logs a warning and sends nothing back; when it is, the record
    is stored with the lowest class and without the earthquake flag. *)
Theorem simulated_earthquake_raises_no_alert
    (h : Hub) (sock : ws) (iso : string) (now uptime : Z) :
  let result := on_message sock (Some (simulateEarthquake iso)) now uptime h in
  List.filter is_alert result.2 = []
  /\ (forall client,
        clients h !! sock = Some client ->
        deviceData h !! "TEST_DEVICE" = None ->
        result = (h, [ELog log_warn]))
  /\ forall info,
       deviceData h !! "TEST_DEVICE" = Some info -> iso <> ""%string ->
       exists r, last (recentData result.1) = Some r
                 /\ e_is_earthquake r = false
                 /\ e_earthquake_type r = "微震"%string.
Proof.
  intros result. subst result.
  rewrite on_message_sensor by reflexivity.
  set (data := simulateEarthquake iso).
  assert (spec_magnitude 5.0 4.5 5.5 < 2) as Hmicro.
  { replace 2 with (2 * 1) by lra.
    apply (spec_magnitude_below _ _ _ 8.9); [lra | lra | | lra].
    rewrite Rpower_1 by lra. lra. }
  assert (spec_magnitude 5.0 4.5 5.5 < 3) as Hweak by lra.
  assert (forall info, iso <> ""%string ->
            deviceData h !! "TEST_DEVICE" = Some info ->
            accepted h data "TEST_DEVICE" info) as Haccept.
  { intros info Hiso Hdev. split; [reflexivity |]. split; [discriminate |].
    split; [simpl; by apply negb_true_iff, String.eqb_neq |].
    split; [exact Hdev | reflexivity]. }
  destruct (handleSensorData (Some sock) data _ now h) as [h' out |] eqn:Hrun.
  - destruct (gentle_sample (Some sock) data _ now h h' out 5.0 4.5 5.5
                eq_refl eq_refl eq_refl Hweak Hrun) as [Hnone Hrec].
    split; [exact Hnone |]. split.
    + intros client Hcl Hdev.
      rewrite handleSensorData_rejected in Hrun
        by (right; right; left; by exists "TEST_DEVICE"%string).
      rewrite Hcl in Hrun. by injection Hrun as <- <-.
    + intros info Hdev Hiso.
      destruct (Hrec _ _ (Haccept info Hiso Hdev)) as [Hq Hlast].
      eexists. split; [exact Hlast |]. split; [exact Hq |].
      unfold record_of, enhance. cbn [e_earthquake_type].
      change (parseFloat (msg_ax data)) with (JFin 5.0).
      change (parseFloat (msg_ay data)) with (JFin 4.5).
      change (parseFloat (msg_az data)) with (JFin 5.5).
      rewrite calculateMagnitude_finite.
      unfold classifyEarthquake, js_lt. by rewrite Rltb_true by lra.
  - split; [reflexivity |]. split.
    + intros client Hcl Hdev.
      rewrite handleSensorData_rejected in Hrun
        by (right; right; left; by exists "TEST_DEVICE"%string).
      rewrite Hcl in Hrun. discriminate.
    + intros info Hdev Hiso. exfalso.
      destruct (handleSensorData_accepted (Some sock) data
                  (clients h !! sock) now h _ _ (Haccept info Hiso Hdev))
        as (h1 & Heq & _).
      congruence.
Qed.

(** ** The command-line dashboard on the hub *)

(** X13. The command-line dashboard registers as the device
    ["DASHBOARD_CLI"]: after its connection and registration the hub lists
    it as a connected device, and no broadcast to dashboards is sent to its
    socket. *)
Theorem cli_dashboard_is_no_broadcast_target
    (h : Hub) (sock : ws) (ip : string) (port t t' uptime : Z) :
  let h' := run h [EvConnection sock ip port t;
                   EvMessage sock (Some dashboard_registration) t' uptime] in
  (forall message w m,
     In (ESend w m) (broadcastToDashboards h' message) -> w <> sock)
  /\ exists info,
       deviceData h' !! "DASHBOARD_CLI" = Some info
       /\ d_status info = connected.
Proof.
  intros h'. subst h'. cbn [run step].
  set (h1 := (on_connection sock ip port t h).1).
  assert (clients h1 !! sock
          = Some (mkClient (generateClientId ip port t) ip t t None "unknown"))
    as Hcl by (unfold h1, on_connection; simpl; apply lookup_insert_eq).
  rewrite on_message_register by reflexivity.
  unfold handleDeviceRegister. rewrite Hcl.
  cbn [msg_device_id dashboard_registration truthy_string String.eqb
       Ascii.eqb Bool.eqb negb fst].
  split.
  - intros message w m Hin ->.
    apply broadcast_reaches in Hin as (_ & info & _ & Hinfo & Hdash).
    simpl in Hinfo. rewrite lookup_insert_eq in Hinfo.
    injection Hinfo as <-. discriminate.
  - simpl. destruct (deviceData h !! "DASHBOARD_CLI");
      rewrite lookup_insert_eq; eauto.
Qed.

(** ** A second look at the liveness sweep *)

Lemma stale_monotone now now' info :
  (now' <= now)%Z -> stale now' info = true -> stale now info = true.
Proof.
  unfold stale. intros Hle H. apply Z.ltb_lt in H. apply Z.ltb_lt. lia.
Qed.

Lemma sweep_fold_skip now l :
  forall h out,
    (forall w info, In w l -> clients h !! w = Some info ->
                    stale now info = false) ->
    fold_left (sweep_visit now) l (h, out) = (h, out).
Proof.
  induction l as [| s l IH]; intros h out Hfresh; [reflexivity |].
  cbn [fold_left]. rewrite sweep_visit_skip.
  - apply IH. intros w info Hin. apply Hfresh. by right.
  - intros info. apply Hfresh. by left.
Qed.

Lemma sweep_fold_sockets now l :
  forall acc,
    map fst (wss_clients (fold_left (sweep_visit now) l acc).1)
    = map fst (wss_clients acc.1).
Proof.
  induction l as [| s l IH]; intros [h out]; [reflexivity |].
  cbn [fold_left]. rewrite IH. apply sweep_visit_sockets.
Qed.

(** X14. After a sweep, a second sweep at the same or an earlier time
    finds nothing to do: it leaves the hub as it is and has no effect. *)
Theorem second_sweep_is_idle (h : Hub) (now now' : Z) :
  (now' <= now)%Z ->
  sweep now' (sweep now h).1 = ((sweep now h).1, []).
Proof.
  intros Hle. unfold sweep at 1.
  destruct (sweep now h) as [h1 out1] eqn:Hsweep. simpl fst.
  apply sweep_fold_skip. intros w info Hin Hcl.
  assert (h1 = (sweep now h).1) as -> by (by rewrite Hsweep).
  unfold sweep in Hin, Hcl.
  rewrite sweep_fold_sockets in Hin. simpl in Hin.
  rewrite sweep_fold_clients in Hcl. simpl in Hcl.
  destruct (clients h !! w) as [info0 |]; [| discriminate].
  destruct (survives now _ w info0) eqn:Hs; [| discriminate].
  injection Hcl as ->. unfold survives in Hs.
  apply negb_true_iff, andb_false_iff in Hs as [Hs | Hs].
  - apply existsb_eqb_In in Hin. congruence.
  - destruct (stale now' info) eqn:Hst; [| reflexivity].
    apply (stale_monotone now) in Hst; [congruence | exact Hle].
Qed.

Lemma second_sweep_is_idle_witness :
  (70000 <= 70000)%Z
  /\ sweep 70000 (sweep 70000 watched_hub).1
     = ((sweep 70000 watched_hub).1, []).
Proof.
  assert (70000 <= 70000)%Z as H by lia.
  split; [exact H | exact (second_sweep_is_idle watched_hub 70000 70000 H)].
Defined.

(** ** A connection that goes away unnoticed *)

Lemma closing_is_not_open sock l :
  is_open (ready_state (set_ready_state sock CLOSING l) sock) = false.
Proof.
  induction l as [| [w r] l IH]; [reflexivity |].
  simpl. destruct (Nat.eqb w sock) eqn:He; simpl; rewrite He; [reflexivity |].
  exact IH.
Qed.

(** X15. When a connection's ping timer fires while the socket is closing,
    the connection is dropped from the registry without a word: the later
    [close] event finds nothing to do, so the device it was bound to keeps
    its status and no dashboard is told. *)
Theorem closing_connection_is_dropped_silently
    (h : Hub) (sock : ws) (now : Z) :
  let h1 := (step h (EvClosing sock)).1 in
  let timer := step h1 (EvPingTimer sock) in
  let close := step timer.1 (EvClose sock now) in
  timer.2 = [] /\ close.2 = []
  /\ clients close.1 = delete sock (clients h)
  /\ deviceData close.1 = deviceData h.
Proof.
  intros h1 timer close. subst h1 timer close. cbn [step].
  unfold on_ping_timer, on_closing. cbn [fst wss_clients with_sockets].
  rewrite closing_is_not_open. cbn [fst snd].
  unfold on_close. cbn [clients with_sockets with_clients].
  rewrite lookup_delete_eq. auto.
Qed.

(** ** Who receives a sample *)

Lemma send_to_open_message h m w m' :
  In (ESend w m') (send_to_open h m) -> m' = m.
Proof.
  unfold send_to_open. rewrite in_map_iff.
  intros (entry & Heq & _). congruence.
Qed.

Lemma record_in_sample_effects sock data record now h cache w :
  In (ESend w (sensor_record record))
     (sample_effects sock data record now h cache)
  <-> In (ESend w (sensor_record record))
         (broadcastToDashboards h (sensor_record record)).
Proof.
  unfold sample_effects, handleEarthquakeAlert. rewrite !in_app_iff. split.
  - intros [H | [H | [H | [H | H]]]].
    + destruct (_ || _); [destruct H as [H | []]; discriminate | destruct H].
    + destruct H as [H | []]. discriminate.
    + destruct sock; [destruct H as [H | []]; discriminate | destruct H].
    + exact H.
    + destruct (e_is_earthquake record); [| destruct H].
      destruct H as [H | H]; [discriminate |].
      apply send_to_open_message in H. discriminate.
  - auto.
Qed.

(** X16. The record of an accepted sample is sent to exactly the open
    sockets that are dashboards ("DASHBOARD" device id or "monitor" client
    type) and to no other socket. *)
Theorem sample_record_goes_to_dashboards
    (h : Hub) (sock : ws) (data : Message) (now uptime : Z)
    (d : string) (info : DeviceInfo) :
  msg_type data = Some "sensor_data"%string ->
  accepted h data d info ->
  forall w,
    In (ESend w (sensor_record (record_of data info now)))
       (on_message sock (Some data) now uptime h).2
    <-> exists c, In (w, OPEN) (wss_clients h)
                  /\ clients h !! w = Some c
                  /\ is_dashboard c = true.
Proof.
  intros Hty Hacc w. rewrite on_message_sensor by exact Hty.
  destruct (handleSensorData_accepted (Some sock) data (clients h !! sock)
              now h d info Hacc) as (h1 & -> & _).
  cbn [snd]. rewrite record_in_sample_effects, broadcast_reaches. split.
  - intros (_ & c & H). by exists c.
  - intros (c & H). split; [reflexivity | by exists c].
Qed.

Lemma sample_record_goes_to_dashboards_witness :
  (msg_type strong_sample = Some "sensor_data"%string
   /\ accepted lab_hub strong_sample "D1" lab_device)
  /\ (In (ESend 1%nat (sensor_record (record_of strong_sample lab_device 5)))
         (on_message 1%nat (Some strong_sample) 5 5 lab_hub).2
      <-> exists c, In (1%nat, OPEN) (wss_clients lab_hub)
                    /\ clients lab_hub !! 1%nat = Some c
                    /\ is_dashboard c = true).
Proof.
  assert (accepted lab_hub strong_sample "D1" lab_device) as Hacc
    by (by apply lab_accepts).
  split; [split; [reflexivity | exact Hacc] |].
  exact (sample_record_goes_to_dashboards lab_hub 1%nat strong_sample 5 5
           "D1" lab_device eq_refl Hacc 1%nat).
Defined.

(** X17. A client that registers with client type "monitor" on an open,
    tracked socket is answered with four messages, all on its own socket:
    the acknowledgement, the health report, the device list and the recent
    records.  The stored data stay as they are, and the socket is a
    dashboard in the hub the registration leaves: the record of an accepted
    sample handled in that hub is sent to it. *)
Theorem monitor_is_caught_up_and_subscribed
    (h : Hub) (sock : ws) (client : ClientInfo) (reg : Message)
    (t uptime : Z) :
  clients h !! sock = Some client ->
  In (sock, OPEN) (wss_clients h) ->
  msg_type reg = Some "client_register"%string ->
  msg_client_type reg = Some "monitor"%string ->
  let result := on_message sock (Some reg) t uptime h in
  result.2
  = [ESend sock (client_registered "monitor" t);
     ESend sock
       (server_health
          (mkHealth t (size (clients h)) (size (deviceData h)) uptime));
     ESend sock
       (devices_data
          ((fun info => (last (d_history info), info)) <$> deviceData h));
     ESend sock (recent_data (recentData h))]
  /\ deviceData result.1 = deviceData h
  /\ recentData result.1 = recentData h
  /\ dataCache result.1 = dataCache h
  /\ forall s data now up d info,
       msg_type data = Some "sensor_data"%string ->
       accepted result.1 data d info ->
       In (ESend sock (sensor_record (record_of data info now)))
          (on_message s (Some data) now up result.1).2.
Proof.
  intros Hcl Hopen Hty Hmon result.
  assert (result
          = (with_clients (<[sock := with_clientType "monitor" client]>
                             (clients h)) h,
             [ESend sock (client_registered "monitor" t);
              ESend sock
                (server_health
                   (mkHealth t (size (clients h)) (size (deviceData h))
                             uptime));
              ESend sock
                (devices_data
                   ((fun info => (last (d_history info), info))
                      <$> deviceData h));
              ESend sock (recent_data (recentData h))])) as ->.
  { subst result. unfold on_message, handleMessage.
    rewrite Hty. cbn [String.eqb Ascii.eqb Bool.eqb].
    unfold handleClientRegister. rewrite Hcl, Hmon.
    cbn [default String.eqb Ascii.eqb Bool.eqb].
    unfold getHealthStatus. cbn [clients with_clients deviceData recentData].
    rewrite map_size_insert_Some by (by rewrite Hcl). reflexivity. }
  cbn [fst snd]. repeat split.
  intros s data now up d info Hsd Hacc.
  rewrite on_message_sensor by exact Hsd.
  set (h0 := with_clients _ h) in *.
  destruct (handleSensorData_accepted (Some s) data (clients h0 !! s) now h0
              d info Hacc) as (h1 & -> & _).
  cbn [snd]. rewrite record_in_sample_effects, broadcast_reaches.
  split; [reflexivity |].
  exists (with_clientType "monitor" client).
  split; [exact Hopen |]. split; [apply lookup_insert_eq |].
  unfold is_dashboard. cbn [c_clientType with_clientType].
  apply orb_true_r.
Qed.

Lemma monitor_is_caught_up_and_subscribed_witness :
  (clients lab_hub !! 1%nat = Some lab_client
   /\ In (1%nat, OPEN) (wss_clients lab_hub))
  /\ deviceData (on_message 1%nat (Some monitor_message) 7 7 lab_hub).1
     = deviceData lab_hub.
Proof.
  assert (In (1%nat, OPEN) (wss_clients lab_hub)) as Hopen
    by (vm_compute; by left).
  split; [split; [exact lab_hub_client | exact Hopen] |].
  exact (proj1 (proj2 (monitor_is_caught_up_and_subscribed lab_hub 1%nat
                         lab_client monitor_message 7 7 lab_hub_client Hopen
                         eq_refl eq_refl))).
Defined.

(** ** The device history endpoint *)

Lemma slice_last_n {A : Type} (n : Z) (l : list A) :
  (0 < n)%Z -> slice (- n) l = drop (length l - Z.to_nat n) l.
Proof.
  intros Hn. unfold slice.
  destruct (Z.ltb_spec (- n) 0) as [_ | H]; [| lia].
  f_equal. lia.
Qed.

Lemma slice_drop_first {A : Type} (n : Z) (l : list A) :
  (n < 0)%Z -> slice (- n) l = drop (Z.to_nat (- n)) l.
Proof.
  intros Hn. unfold slice.
  destruct (Z.ltb_spec (- n) 0) as [H | _]; [lia |].
  destruct (Z.le_gt_cases (- n) (Z.of_nat (length l))) as [Hle | Hgt].
  - f_equal. lia.
  - rewrite !drop_ge by lia. reflexivity.
Qed.

(** X18. [GET /api/device/:id/data] answers 404 for an unknown device.  For
    a known one, on a hub within its bounds: without a usable [limit] (absent,
    not a number, or 0) the whole history; with a positive [limit] the last
    [limit] records, in order; with a negative [limit] the history without
    its first [-limit] records. *)
Theorem device_history_endpoint
    (h : Hub) (deviceId : string) (limit : option string) :
  bounded h ->
  match deviceData h !! deviceId with
  | None => api_device_data h deviceId limit = None
  | Some info =>
      exists answer,
        api_device_data h deviceId limit = Some answer
        /\ match parseInt limit with
           | None | Some 0%Z => answer = d_history info
           | Some n =>
               if (0 <? n)%Z
               then answer = drop (length (d_history info) - Z.to_nat n)
                                  (d_history info)
                    /\ length answer
                       = Nat.min (Z.to_nat n) (length (d_history info))
               else answer = drop (Z.to_nat (- n)) (d_history info)
           end
  end.
Proof.
  intros (Hh & _ & _). unfold api_device_data.
  destruct (deviceData h !! deviceId) as [info |] eqn:Hdev; [| reflexivity].
  eexists. split; [reflexivity |].
  pose proof (Hh _ _ Hdev) as Hlen. simpl in Hlen.
  unfold MAX_HISTORY_SIZE in Hlen.
  assert (slice (Z.opp 100%Z) (d_history info) = d_history info) as Hall.
  { rewrite slice_last_n by lia.
    replace (length (d_history info) - Z.to_nat 100)%nat with 0%nat by lia.
    reflexivity. }
  unfold limit_or_default.
  destruct (parseInt limit) as [n |]; [| exact Hall].
  destruct (Z.eqb_spec n 0) as [-> | Hn0]; [exact Hall |].
  destruct n as [| p | p]; [lia | |].
  - simpl Z.ltb. cbv iota. rewrite slice_last_n by lia.
    split; [reflexivity |]. rewrite length_drop. lia.
  - simpl Z.ltb. cbv iota. by rewrite slice_drop_first by lia.
Qed.

Lemma device_history_endpoint_witness :
  bounded lab_hub
  /\ api_device_data lab_hub "D1" (Some "0x10"%string) = Some [].
Proof.
  assert (bounded lab_hub) as Hb.
  { apply run_inv; apply initial_hub_inv; unfold MAX_CACHE_SIZE; simpl; lia. }
  split; [exact Hb |].
  pose proof (device_history_endpoint lab_hub "D1" (Some "0x10"%string) Hb)
    as H.
  rewrite lab_hub_device in H. destruct H as (answer & -> & Hans).
  f_equal. vm_compute in Hans. by destruct Hans.
Defined.

(** ** The web interface's periodic registration *)

Lemma client_register_result sock data now uptime h client :
  msg_type data = Some "client_register"%string ->
  clients h !! sock = Some client ->
  (on_message sock (Some data) now uptime h).1
  = with_clients
      (<[sock := with_clientType (default "generic"%string
                                    (msg_client_type data)) client]>
         (clients h)) h.
Proof.
  intros Hty Hcl. unfold on_message, handleMessage.
  rewrite Hty. cbn [String.eqb Ascii.eqb Bool.eqb].
  unfold handleClientRegister. rewrite Hcl. reflexivity.
Qed.

(** X19. The web interface registers as a monitor again every 30 seconds
    and at every browser connection.  Repeating a [client_register] message
    on a tracked socket leaves the hub exactly as the first one left it. *)
Theorem repeated_client_register_changes_nothing
    (h : Hub) (sock : ws) (client : ClientInfo) (reg : Message)
    (t uptime t' uptime' : Z) :
  clients h !! sock = Some client ->
  msg_type reg = Some "client_register"%string ->
  let h1 := (on_message sock (Some reg) t uptime h).1 in
  (on_message sock (Some reg) t' uptime' h1).1 = h1.
Proof.
  intros Hcl Hty h1. subst h1.
  rewrite (client_register_result sock reg t uptime h client Hty Hcl).
  set (registered := with_clientType _ client).
  rewrite (client_register_result sock reg t' uptime' _ registered Hty)
    by apply lookup_insert_eq.
  unfold with_clients. cbn [wss_clients clients deviceData recentData
                            dataCache packetCount lastPacketReset currentPps].
  f_equal. rewrite insert_insert_eq. reflexivity.
Qed.

Lemma repeated_client_register_changes_nothing_witness :
  (clients lab_hub !! 1%nat = Some lab_client
   /\ msg_type monitor_message = Some "client_register"%string)
  /\ (on_message 1%nat (Some monitor_message) 30000 30
        (on_message 1%nat (Some monitor_message) 0 0 lab_hub).1).1
     = (on_message 1%nat (Some monitor_message) 0 0 lab_hub).1.
Proof.
  split; [split; [exact lab_hub_client | reflexivity] |].
  exact (repeated_client_register_changes_nothing lab_hub 1%nat lab_client
           monitor_message 0 0 30000 30 lab_hub_client eq_refl).
Defined.

(** ** The command-line dashboard's counters *)

Section Dashboard.

Import MonitorDashboard.

Lemma dashboard_run_app st l1 l2 : run st (l1 ++ l2) = run (run st l1) l2.
Proof. apply fold_left_app. Qed.

Lemma is_record_of_inv d i data :
  is_record_of d i = Some data ->
  exists now, i = Received (sensor_record data) now
              /\ msg_type (e_data data) = Some "sensor_data"%string
              /\ msg_device_id (e_data data) = d.
Proof.
  destruct i as [[] now |]; try discriminate. simpl.
  destruct (msg_type (e_data record)) as [type |] eqn:Hty; [| discriminate].
  destruct (String.eqb type "sensor_data") eqn:He; [| discriminate].
  case_bool_decide as Hd; [| discriminate].
  intros [= <-]. apply String.eqb_eq in He. subst. eauto.
Qed.

Lemma step_record st data now :
  msg_type (e_data data) = Some "sensor_data"%string ->
  step st (Received (sensor_record data) now) = handleSensorData data st.
Proof. intros Hty. simpl. by rewrite Hty. Qed.

Lemma step_other_record st d data now :
  is_record_of d (Received (sensor_record data) now) = None ->
  devices (step st (Received (sensor_record data) now)) !! d
  = devices st !! d.
Proof.
  simpl. destruct (msg_type (e_data data)) as [type |]; [| reflexivity].
  destruct (String.eqb type "sensor_data"); [| reflexivity]. simpl.
  case_bool_decide as Hd; [discriminate |]. intros _.
  unfold handleSensorData.
  destruct (devices st !! msg_device_id (e_data data)); simpl;
    by rewrite lookup_insert_ne.
Qed.

Lemma step_update st d device_id b s f t now :
  exists device' : Device -> Device,
    devices (step st (Received (device_status_update device_id b s f t) now))
      !! d
    = (if bool_decide (Some device_id = d) then device'
       else fun device => device)
        <$> devices st !! d
    /\ forall device : Device,
         alertCount (device' device) = alertCount device.
Proof.
  exists (fun device =>
            mkDevice (lastMagnitude device) (stamp_now now) (status device)
                     (alertCount device) (Some b) (Some s)).
  split; [| reflexivity]. simpl. unfold handleDeviceUpdate.
  case_bool_decide as Hd.
  - subst d. destruct (devices st !! Some device_id) as [device |] eqn:Hl.
    + simpl. by rewrite lookup_insert_eq.
    + by rewrite Hl.
  - destruct (devices st !! Some device_id) as [device |] eqn:Hl.
    + simpl. rewrite lookup_insert_ne by exact Hd.
      by destruct (devices st !! d).
    + by destruct (devices st !! d).
Qed.

Lemma step_unmentioned st d i :
  devices st !! d = None -> mentions d i = false ->
  devices (step st i) !! d = None.
Proof.
  intros Hnone Hm. destruct i as [m now |]; [| exact Hnone].
  destruct m; try exact Hnone.
  - rewrite step_other_record; [exact Hnone |].
    unfold mentions in Hm. apply bool_decide_eq_false in Hm.
    destruct (is_record_of d (Received (sensor_record record) now));
      [| reflexivity].
    exfalso. apply Hm. eauto.
  - simpl in Hm. case_bool_decide as Hd; [discriminate |].
    simpl. unfold handleDeviceStatus.
    destruct (devices st !! device_id); simpl;
      by rewrite lookup_insert_ne.
  - match goal with
    | |- context [device_status_update ?a ?b ?c ?e ?g] =>
        destruct (step_update st d a b c e g now) as (f' & -> & _)
    end.
    by rewrite Hnone.
Qed.

Lemma step_first_mention st d i :
  devices st !! d = None -> mentions d i = true ->
  exists device,
    devices (step st i) !! d = Some device /\ alertCount device = 0%nat.
Proof.
  intros Hnone Hm. destruct i as [m now |]; [| discriminate].
  destruct m; try discriminate.
  - unfold mentions in Hm. apply bool_decide_eq_true in Hm.
    destruct Hm as [data Hr].
    apply is_record_of_inv in Hr as (now' & [= <- <-] & Hty & Hid).
    rewrite step_record by exact Hty. unfold handleSensorData.
    rewrite Hid, Hnone. simpl. rewrite lookup_insert_eq. eauto.
  - simpl in Hm. case_bool_decide as Hd; [| discriminate]. subst d.
    simpl. unfold handleDeviceStatus. rewrite Hnone. simpl.
    rewrite lookup_insert_eq. eauto.
Qed.

Lemma step_counts st d i device :
  devices st !! d = Some device ->
  exists device',
    devices (step st i) !! d = Some device'
    /\ alertCount device'
       = (alertCount device + if is_quake_of d i then 1 else 0)%nat.
Proof.
  intros Hdev. unfold is_quake_of.
  destruct (is_record_of d i) as [data |] eqn:Hr.
  - apply is_record_of_inv in Hr as (now & -> & Hty & Hid).
    rewrite step_record by exact Hty. unfold handleSensorData.
    rewrite Hid, Hdev. simpl. rewrite lookup_insert_eq.
    eexists. split; [reflexivity |]. simpl.
    destruct (e_is_earthquake data); lia.
  - destruct i as [m now |]; [| exists device; split; [exact Hdev | lia]].
    destruct m; try (exists device; split; [exact Hdev | lia]).
    + rewrite step_other_record by exact Hr.
      exists device. split; [exact Hdev | lia].
    + simpl. unfold handleDeviceStatus.
      destruct (decide (device_id = d)) as [-> | Hne].
      * rewrite Hdev. simpl. rewrite lookup_insert_eq.
        eexists. split; [reflexivity | simpl; lia].
      * destruct (devices st !! device_id); simpl;
          rewrite lookup_insert_ne by exact Hne;
          (exists device; split; [exact Hdev | lia]).
    + match goal with
      | |- context [device_status_update ?a ?b ?c ?e ?g] =>
          destruct (step_update st d a b c e g now) as (f' & -> & Hcount)
      end.
      rewrite Hdev. simpl. eexists. split; [reflexivity |].
      case_bool_decide; [rewrite Hcount |]; simpl; lia.
Qed.

Lemma run_unmentioned d l :
  forall st,
    devices st !! d = None ->
    forallb (fun i => negb (mentions d i)) l = true ->
    devices (run st l) !! d = None.
Proof.
  induction l as [| i l IH]; intros st Hnone Hall; [exact Hnone |].
  simpl in Hall. apply andb_true_iff in Hall as [Hi Hl].
  apply negb_true_iff in Hi. simpl. apply IH; [| exact Hl].
  by apply step_unmentioned.
Qed.

Lemma run_counts d l :
  forall st device,
    devices st !! d = Some device ->
    exists device',
      devices (run st l) !! d = Some device'
      /\ alertCount device'
         = (alertCount device + length (List.filter (is_quake_of d) l))%nat.
Proof.
  induction l as [| i l IH]; intros st device Hdev.
  - exists device. split; [exact Hdev | simpl; lia].
  - destruct (step_counts st d i device Hdev) as (dev1 & Hdev1 & Hc1).
    destruct (IH _ _ Hdev1) as (dev2 & Hdev2 & Hc2).
    exists dev2. split; [exact Hdev2 |]. rewrite Hc2, Hc1. simpl.
    destruct (is_quake_of d i); simpl; lia.
Qed.

(** X20. The dashboard's alert counter of a device starts at 0 with the
    first message that names the device, and counts the earthquake records
    received after it: an earthquake record that is the first news of its
    device is not counted. *)
Theorem alert_count_starts_after_first_mention
    (d : option string) (pre post : list Input) (first : Input) :
  forallb (fun i => negb (mentions d i)) pre = true ->
  mentions d first = true ->
  exists device,
    devices (run initial (pre ++ first :: post)) !! d = Some device
    /\ alertCount device = length (List.filter (is_quake_of d) post).
Proof.
  intros Hpre Hfirst. rewrite dashboard_run_app.
  change (run (run initial pre) (first :: post))
    with (run (step (run initial pre) first) post).
  assert (devices (run initial pre) !! d = None) as Hnone
    by (by apply run_unmentioned).
  destruct (step_first_mention _ d first Hnone Hfirst) as (dev & Hdev & H0).
  destruct (run_counts d post _ dev Hdev) as (dev' & Hdev' & Hc).
  exists dev'. split; [exact Hdev' | lia].
Qed.

Lemma alert_count_starts_after_first_mention_witness :
  (forallb (fun i => negb (mentions (Some "D1"%string) i)) [] = true
   /\ mentions (Some "D1"%string)
        (Received (sensor_record (record_of strong_sample lab_device 5)) 6)
      = true)
  /\ exists device,
       devices
         (run initial
            ([] ++ Received
                     (sensor_record (record_of strong_sample lab_device 5)) 6
                :: [Received
                      (sensor_record (record_of strong_sample lab_device 7))
                      8]))
         !! Some "D1"%string = Some device
       /\ alertCount device
          = length
              (List.filter (is_quake_of (Some "D1"%string))
                 [Received
                    (sensor_record (record_of strong_sample lab_device 7))
                    8]).
Proof.
  assert (mentions (Some "D1"%string)
            (Received (sensor_record (record_of strong_sample lab_device 5)) 6)
          = true) as Hm by reflexivity.
  split; [split; [reflexivity | exact Hm] |].
  exact (alert_count_starts_after_first_mention (Some "D1"%string) [] _ _
           eq_refl Hm).
Defined.

Lemma dashboard_alerts_bounded l :
  forall st,
    (length (earthquakeAlerts st) <= 10)%nat ->
    (length (earthquakeAlerts (run st l)) <= 10)%nat.
Proof.
  induction l as [| i l IH]; intros st Hlen; [exact Hlen |].
  simpl. apply IH. destruct i as [m now |]; [| simpl; lia].
  destruct m; try exact Hlen.
  - simpl. destruct (msg_type _); [| exact Hlen].
    destruct (String.eqb _ _); [| exact Hlen].
    unfold handleSensorData. by destruct (devices st !! _).
  - simpl. unfold handleDeviceStatus. by destruct (devices st !! _).
  - simpl. unfold handleDeviceUpdate. by destruct (devices st !! _).
  - simpl. unfold dashboard_handleEarthquakeAlert.
    destruct (10 <? _)%nat eqn:Hfull; [| apply Nat.ltb_ge in Hfull; exact Hfull].
    rewrite removelast_firstn_len, length_take. simpl. lia.
Qed.

Lemma alert_goes_first (inputs : list Input) (now : Z)
    (alert_level : string) (device_id : option string) (magnitude : jsnum)
    (timestamp : Z) (location : string) :
  let alert :=
    earthquake_alert alert_level device_id magnitude timestamp location in
  earthquakeAlerts (run initial (inputs ++ [Received alert now]))
  = mkReceived alert now :: firstn 9 (earthquakeAlerts (run initial inputs))
  /\ (length (earthquakeAlerts (run initial (inputs ++ [Received alert now])))
      <= 10)%nat.
Proof.
  intros alert.
  split; [| apply dashboard_alerts_bounded; simpl; lia].
  assert (length (earthquakeAlerts (run initial inputs)) <= 10)%nat as Hlen
    by (apply dashboard_alerts_bounded; simpl; lia).
  rewrite dashboard_run_app. simpl.
  set (before := earthquakeAlerts (run initial inputs)) in *.
  unfold dashboard_handleEarthquakeAlert.
  destruct (10 <? _)%nat eqn:Hfull.
  - apply Nat.ltb_lt in Hfull. simpl in Hfull.
    assert (length before = 10%nat) as H10 by lia.
    destruct before as [| a l]; [discriminate |].
    change (removelast (mkReceived alert now :: a :: l))
      with (mkReceived alert now :: removelast (a :: l)).
    f_equal. rewrite removelast_firstn_len. f_equal. rewrite H10. reflexivity.
  - apply Nat.ltb_ge in Hfull. simpl in Hfull.
    f_equal. symmetry. apply firstn_all2. lia.
Qed.

(** X21. The dashboard never holds more than ten alerts.  A new alert
    goes to the front and the nine newest of the old ones follow it; the
    [clear] command empties the list. *)
Theorem dashboard_keeps_the_ten_newest_alerts
    (inputs : list Input) (alert_level : string) (device_id : option string)
    (magnitude : jsnum) (timestamp : Z) (location : string) (now : Z) :
  let before := earthquakeAlerts (run initial inputs) in
  let alert :=
    earthquake_alert alert_level device_id magnitude timestamp location in
  (length before <= 10)%nat
  /\ earthquakeAlerts (run initial (inputs ++ [Received alert now]))
     = mkReceived alert now :: firstn 9 before
  /\ earthquakeAlerts (run initial (inputs ++ [Clear])) = [].
Proof.
  intros before alert.
  assert (length before <= 10)%nat as Hlen
    by (apply dashboard_alerts_bounded; simpl; lia).
  split; [exact Hlen |]. rewrite !dashboard_run_app. split; [| reflexivity].
  simpl. fold before. unfold dashboard_handleEarthquakeAlert.
  destruct (10 <? _)%nat eqn:Hfull.
  - apply Nat.ltb_lt in Hfull. simpl in Hfull.
    assert (length before = 10%nat) as H10 by lia.
    destruct before as [| a l]; [discriminate |].
    change (removelast (mkReceived alert now :: a :: l))
      with (mkReceived alert now :: removelast (a :: l)).
    f_equal. rewrite removelast_firstn_len. f_equal. rewrite H10. reflexivity.
  - apply Nat.ltb_ge in Hfull. simpl in Hfull.
    f_equal. symmetry. apply firstn_all2. lia.
Qed.

End Dashboard.

(** ** The web interface's chart series *)

Section Charts.

Import WebInterface.

Variable getTime : jsval -> jsnum.

Lemma number_or_zero_not_NaN v : isNaN (number_or_zero v) = false.
Proof.
  unfold number_or_zero. destruct (parseFloat v) as [| r | n]; simpl.
  - reflexivity.
  - by destruct (negb _).
  - reflexivity.
Qed.

Lemma Forall_tail {A : Type} (Q : A -> Prop) (l : list A) :
  Forall Q l -> Forall Q (tail l).
Proof. intros H. destruct H; [constructor | assumption]. Qed.

Lemma series_ok_shift n c : series_ok n c -> series_ok (n - 1) (shift c).
Proof.
  intros (Ht & Hs). split; [simpl; rewrite length_tl; lia |].
  repeat match goal with
         | H : Forall _ (_ :: _) |- _ => inversion_clear H
         end.
  repeat constructor; simpl;
    try (rewrite length_tl; lia); apply Forall_tail; tauto.
Qed.

Lemma series_ok_push n c time message :
  series_ok n c -> series_ok (S n) (push time message c).
Proof.
  intros (Ht & Hs). split; [simpl; rewrite length_app; simpl; lia |].
  repeat match goal with
         | H : Forall _ (_ :: _) |- _ => inversion_clear H
         end.
  repeat constructor; simpl;
    try (rewrite length_app; simpl; lia);
    (apply Forall_app; split; [tauto |]);
    repeat constructor; apply number_or_zero_not_NaN.
Qed.

Lemma chart_step_aligned now message st :
  map_Forall (fun _ c => aligned c) (deviceChartData st) ->
  map_Forall (fun _ c => aligned c)
             (deviceChartData (chart_sensor_data getTime now message st).1).
Proof.
  intros Hinv. unfold chart_sensor_data.
  destruct (msg_type message) as [type |]; [| exact Hinv].
  destruct (String.eqb type "sensor_data"); [| exact Hinv].
  destruct (negb _ && _); [| exact Hinv].
  cbn [fst deviceChartData]. apply map_Forall_insert_2; [| exact Hinv].
  set (key := property_key (msg_device_id message)).
  assert (exists n, (n <= 100)%nat
                    /\ series_ok n (default empty_chart
                                      (deviceChartData st !! key)))
    as (n & Hn & Hok).
  { destruct (deviceChartData st !! key) as [c |] eqn:Hl.
    - apply Hinv in Hl as (n & Hn & Hok).
      exists n. split; [lia | exact Hok].
    - exists 0%nat. split; [lia |]. split; [reflexivity |].
      repeat constructor. }
  unfold aligned.
  pose proof Hok as [Hlen _]. rewrite Hlen.
  destruct (Nat.leb_spec 100 n) as [Hfull | Hroom].
  - exists (S (n - 1)). split; [lia |].
    by apply series_ok_push, series_ok_shift.
  - exists (S n). split; [lia |]. by apply series_ok_push.
Qed.

(** X22. Every chart the web interface keeps has seven series of the same
    length, between 1 and 100 points, and no NaN among the axis values,
    whatever messages arrive. *)
Theorem chart_series_stay_aligned (inputs : list (Z * Message)) :
  map_Forall (fun _ c => aligned c)
             (deviceChartData (run getTime initial inputs)).
Proof.
  unfold run.
  assert (map_Forall (fun _ c => aligned c) (deviceChartData initial)) as H0
    by apply map_Forall_empty.
  revert H0. generalize initial.
  induction inputs as [| [now message] inputs IH]; intros st Hst;
    [exact Hst |].
  simpl. apply IH. by apply chart_step_aligned.
Qed.

(** X23. A sample is charted at most every 500 ms per device: after a
    charted sample at time [now], a sample of the same device that arrives
    less than 500 ms later changes nothing and emits nothing.  A device id
    that names a property of [Object.prototype] is never charted. *)
Theorem chart_is_throttled
    (st : State) (now now' : Z) (message message' : Message)
    (payload : option string * ChartData) :
  (chart_sensor_data getTime now message st).2 = Some payload ->
  property_key (msg_device_id message')
  = property_key (msg_device_id message) ->
  (0 < now)%Z -> (now' - now < SEND_INTERVAL)%Z ->
  let st1 := (chart_sensor_data getTime now message st).1 in
  chart_sensor_data getTime now' message' st1 = (st1, None)
  /\ inherited (property_key (msg_device_id message)) = false.
Proof.
  intros Hsent Hkey Hpos Hsoon st1.
  set (key := property_key (msg_device_id message)) in *.
  assert (inherited key = false
          /\ lastSendTime st1 !! key = Some now) as [Hinh Hlast].
  { subst st1. unfold chart_sensor_data in Hsent |- *. fold key in Hsent |- *.
    destruct (msg_type message) as [type |]; [| discriminate].
    destruct (String.eqb type "sensor_data"); [| discriminate].
    destruct (inherited key); [discriminate |].
    destruct (may_send now _); [| discriminate].
    split; [reflexivity |]. cbn [negb andb fst lastSendTime].
    apply lookup_insert_eq. }
  split; [| exact Hinh]. clearbody st1.
  unfold chart_sensor_data.
  destruct (msg_type message') as [type' |]; [| reflexivity].
  destruct (String.eqb type' "sensor_data"); [| reflexivity].
  rewrite Hkey, Hinh, Hlast. unfold may_send.
  replace (now =? 0)%Z with false by (symmetry; apply Z.eqb_neq; lia).
  replace (SEND_INTERVAL <=? now' - now)%Z with false
    by (symmetry; apply Z.leb_gt; lia).
  reflexivity.
Qed.

End Charts.

Lemma chart_is_throttled_witness :
  ((0 < 1000)%Z /\ (1200 - 1000 < WebInterface.SEND_INTERVAL)%Z)
  /\ WebInterface.chart_sensor_data (fun _ => JFin 0) 1200 quiet_sample
       (WebInterface.chart_sensor_data (fun _ => JFin 0) 1000 quiet_sample
          WebInterface.initial).1
     = ((WebInterface.chart_sensor_data (fun _ => JFin 0) 1000 quiet_sample
           WebInterface.initial).1, None).
Proof.
  assert (0 < 1000)%Z as Hpos by lia.
  assert (1200 - 1000 < WebInterface.SEND_INTERVAL)%Z as Hsoon
    by (unfold WebInterface.SEND_INTERVAL; lia).
  split; [split; assumption |].
  refine (proj1 (chart_is_throttled (fun _ => JFin 0) WebInterface.initial
                   1000 1200 quiet_sample quiet_sample _ _ eq_refl
                   Hpos Hsoon)).
  reflexivity.
Defined.

(** ** The sender of a sample *)

(** X25. The hub does not look at who sends a sample: whenever the handler
    returns for two senders, tracked or not, the hub it leaves is the same.
    Only the acknowledgement goes to the sender. *)
Theorem sample_is_stored_whoever_sends_it
    (h : Hub) (data : Message) (now : Z)
    (sock sock' : option ws) (client client' : option ClientInfo)
    (h1 h2 : Hub) (out1 out2 : list Effect) :
  handleSensorData sock data client now h = Done h1 out1 ->
  handleSensorData sock' data client' now h = Done h2 out2 ->
  h1 = h2
  /\ List.filter (fun e => negb (is_acknowledgement e)) out1
     = List.filter (fun e => negb (is_acknowledgement e)) out2.
Proof.
  unfold handleSensorData, invalid_sensor_data.
  destruct (msg_device_id data) as [d |].
  - destruct (negb _ || negb _).
    + destruct client, client'; try discriminate.
      by intros [= <- <-] [= <- <-].
    + destruct (deviceData h !! d) as [info |];
        [| by intros [= <- <-] [= <- <-]].
      destruct (existsb isNaN _); [by intros [= <- <-] [= <- <-] |].
      intros [= <- <-] [= <- <-]. split; [reflexivity |].
      destruct sock, sock'; rewrite !List.filter_app;
        cbn [List.filter app is_acknowledgement negb]; reflexivity.
  - destruct client, client'; try discriminate.
    by intros [= <- <-] [= <- <-].
Qed.

Lemma sample_is_stored_whoever_sends_it_witness :
  exists h1 out1 h2 out2,
    (handleSensorData (Some 1%nat) strong_sample (Some lab_client) 5 lab_hub
     = Done h1 out1
     /\ handleSensorData None strong_sample None 5 lab_hub = Done h2 out2)
    /\ h1 = h2.
Proof.
  destruct (handleSensorData_accepted (Some 1%nat) strong_sample
              (Some lab_client) 5 lab_hub "D1" lab_device)
    as (h1 & H1 & _); [by apply lab_accepts |].
  destruct (handleSensorData_accepted None strong_sample None 5 lab_hub
              "D1" lab_device) as (h2 & H2 & _); [by apply lab_accepts |].
  eexists h1, _, h2, _. split; [split; [exact H1 | exact H2] |].
  exact (proj1 (sample_is_stored_whoever_sends_it lab_hub strong_sample 5
                  (Some 1%nat) None (Some lab_client) None h1 h2 _ _ H1 H2)).
Defined.

(** ** The two shared buffers *)

Lemma push_bounded_suffix {A : Type} limit (l k : list A) x :
  l `suffix_of` k -> push_bounded limit l x `suffix_of` k ++ [x].
Proof.
  intros Hs. unfold push_bounded.
  assert (l ++ [x] `suffix_of` k ++ [x]) as Hsnoc by (by apply suffix_snoc).
  destruct (_ <? _)%nat; [| exact Hsnoc].
  etrans; [| exact Hsnoc]. apply (suffix_drop _ 1).
Qed.

Lemma common_tail_change h h' :
  data_change h h' -> common_tail h -> common_tail h'.
Proof.
  intros Hch (l & Hr & Hc). unfold common_tail.
  destruct Hch as [_ Hr' Hc' | ? ? ? _ _ _ Hr' Hc' | ? ? _ _ _ _ _ Hr' Hc'
                  | data d info now _ _ Hr' Hc' | _ Hr' Hc'];
    rewrite Hr', Hc'.
  - eauto.
  - eauto.
  - eauto.
  - exists (l ++ [record_of data info now]).
    split; by apply push_bounded_suffix.
  - exists l. split; [exact Hr | apply suffix_nil].
Qed.

(** X26. The recent list and the snapshot buffer always end with the same
    records: the shorter of the two is the tail of the longer one.  (After
    [/api/clear-cache] the snapshot buffer is the shorter one.) *)
Theorem buffers_share_their_tail
    (loaded : list EnhancedData) (start : Z) (evs : list Event) :
  let h := run (initial_hub loaded start) evs in
  (recentData h `suffix_of` dataCache h
   \/ dataCache h `suffix_of` recentData h)
  /\ ((length (recentData h) <= length (dataCache h))%nat ->
      recentData h
      = drop (length (dataCache h) - length (recentData h)) (dataCache h)).
Proof.
  intros h.
  assert (common_tail h) as (l & Hr & Hc).
  { apply (run_preserves common_tail common_tail_change).
    exists loaded. split; [apply suffix_nil | reflexivity]. }
  pose proof (suffix_weak_total _ _ _ Hr Hc) as Htot.
  split; [exact Htot |]. intros Hlen.
  assert (recentData h `suffix_of` dataCache h) as [k Hk].
  { destruct Htot as [H | H]; [exact H |].
    assert (dataCache h = recentData h) as ->; [| reflexivity].
    destruct H as [k Hk]. rewrite Hk in Hlen. rewrite length_app in Hlen.
    destruct k; [by rewrite Hk | simpl in Hlen; lia]. }
  rewrite Hk, length_app.
  replace (length k + length (recentData h) - length (recentData h))%nat
    with (length k) by lia.
  by rewrite drop_app_length.
Qed.

(** ** C4 *)

(** C4, as stated, fails for a record whose magnitude reaches 3.0 only by
    the rounding: the sample with the axes (30.622, 0, 0) is accepted, its
    record shows the magnitude 3, and it is no earthquake and raises no
    alert. *)
Lemma record_at_threshold_raises_no_alert :
  accepted lab_hub borderline_sample "D1" lab_device
  /\ (exists record,
        last (recentData
                (on_message 1%nat (Some borderline_sample) 5 5 lab_hub).1)
        = Some record
        /\ e_magnitude record = JFin 3
        /\ e_is_earthquake record = false)
  /\ forall w level device magnitude timestamp place,
       ~ In (ESend w (earthquake_alert level device magnitude timestamp place))
            (on_message 1%nat (Some borderline_sample) 5 5 lab_hub).2.
Proof.
  destruct rounded_magnitude_reaches_threshold as (Hacc & Hmag & Hflag).
  split; [exact Hacc |].
  rewrite on_message_sensor by reflexivity.
  destruct (handleSensorData_accepted (Some 1%nat) borderline_sample
              (clients lab_hub !! 1%nat) 5 lab_hub "D1" lab_device Hacc)
    as (h' & -> & _ & _ & _ & Hr & _).
  cbn [fst snd]. split.
  - exists (record_of borderline_sample lab_device 5). split; [| by split].
    rewrite Hr. apply push_bounded_last. unfold MAX_RECENT_DATA_SIZE. lia.
  - intros w level device magnitude timestamp place Hin.
    assert (In (ESend w (earthquake_alert level device magnitude timestamp
                           place))
               (List.filter is_alert
                  (sample_effects (Some 1%nat) borderline_sample
                     (record_of borderline_sample lab_device 5) 5 lab_hub
                     (dataCache h')))) as Hal
      by (apply filter_In; by split).
    rewrite alerts_of_sample, Hflag in Hal. destruct Hal.
Qed.

(** C4, amended. An accepted sample whose computed magnitude, the value
    [calculateMagnitude] returns before the record rounds it, is at least
    3.0 is flagged as an earthquake and raises one [earthquake_alert]
    record: level "warning", the device id, the magnitude of the record
    (rounded to four decimals), the server time, and the device's stored
    location, or the text "未知位置" when the device has none or an empty
    one.  It is sent to every open socket, whatever the role of its
    connection, and to no other; no other alert is among the effects.  The
    dashboard program that receives the alert puts it first in its alert
    list, followed by the nine newest of the alerts it held, so that list
    never exceeds ten. *)
Theorem strong_sample_raises_one_alert
    (sock : option ws) (data : Message) (client : option ClientInfo)
    (now : Z) (h : Hub) (d : string) (info : DeviceInfo) (m : R)
    (inputs : list MonitorDashboard.Input) (received : Z) :
  accepted h data d info ->
  calculateMagnitude (parseFloat (msg_ax data)) (parseFloat (msg_ay data))
                     (parseFloat (msg_az data)) = JFin m ->
  3.0 <= m ->
  let record := record_of data info now in
  let location :=
    match d_location info with
    | Some place => if String.eqb place "" then "未知位置"%string else place
    | None => "未知位置"%string
    end in
  let alert :=
    earthquake_alert "warning" (Some d) (JFin (toFixed_value 4 m)) now
                     location in
  e_is_earthquake record = true
  /\ e_magnitude record = JFin (toFixed_value 4 m)
  /\ (exists h' out,
        handleSensorData sock data client now h = Done h' out
        /\ (forall w, In (ESend w alert) out <-> In (w, OPEN) (wss_clients h))
        /\ (forall w level device magnitude timestamp place,
              In (ESend w (earthquake_alert level device magnitude timestamp
                             place)) out ->
              earthquake_alert level device magnitude timestamp place = alert)
        /\ List.filter is_alert out
           = map (fun entry => ESend entry.1 alert)
                 (List.filter (fun entry => is_open entry.2) (wss_clients h)))
  /\ MonitorDashboard.earthquakeAlerts
       (MonitorDashboard.run MonitorDashboard.initial
          (inputs ++ [MonitorDashboard.Received alert received]))
     = mkReceived alert received
       :: firstn 9 (MonitorDashboard.earthquakeAlerts
                      (MonitorDashboard.run MonitorDashboard.initial inputs))
  /\ (length (MonitorDashboard.earthquakeAlerts
                (MonitorDashboard.run MonitorDashboard.initial
                   (inputs ++ [MonitorDashboard.Received alert received])))
      <= 10)%nat.
Proof.
  intros Hacc Hm Hstrong record location alert.
  assert (e_is_earthquake record = true) as Hquake.
  { subst record. rewrite (record_is_earthquake data info now m Hm).
    rewrite Rltb_false by lra. reflexivity. }
  assert (e_magnitude record = JFin (toFixed_value 4 m)) as Hmag.
  { subst record. unfold record_of, enhance. cbn [e_magnitude].
    by rewrite Hm. }
  assert (alert_of record = alert) as Halert.
  { unfold alert_of. rewrite Hmag. subst record alert location.
    unfold record_of, enhance.
    cbn [e_data e_server_timestamp e_location].
    destruct Hacc as (-> & _). cbn [d_location with_lastSeen mark].
    rewrite location_resolved. reflexivity. }
  split; [exact Hquake |]. split; [exact Hmag |]. split.
  - destruct (handleSensorData_accepted sock data client now h d info Hacc)
      as (h' & Heq & _).
    eexists _, _. split; [exact Heq |]. fold record.
    assert (List.filter is_alert
              (sample_effects sock data record now h (dataCache h'))
            = map (fun entry => ESend entry.1 alert)
                  (List.filter (fun entry => is_open entry.2) (wss_clients h)))
      as Hfilter by (by rewrite alerts_of_sample, Hquake, Halert).
    split; [| split; [| exact Hfilter]].
    + intros w. split.
      * intros Hin.
        assert (In (ESend w alert)
                   (List.filter is_alert
                      (sample_effects sock data record now h (dataCache h'))))
          as Hal by (apply filter_In; by split).
        rewrite Hfilter in Hal.
        apply in_map_iff in Hal as ([w' r] & [= ->] & Hentry).
        apply filter_In in Hentry as [Hentry Hopen].
        by destruct r.
      * intros Hopen.
        assert (In (ESend w alert)
                   (List.filter is_alert
                      (sample_effects sock data record now h (dataCache h'))))
          as Hal.
        { rewrite Hfilter. apply in_map_iff. exists (w, OPEN).
          split; [reflexivity |]. apply filter_In. by split. }
        by apply filter_In in Hal as [Hal _].
    + intros w level device magnitude timestamp place Hin.
      assert (In (ESend w (earthquake_alert level device magnitude timestamp
                             place))
                 (List.filter is_alert
                    (sample_effects sock data record now h (dataCache h'))))
        as Hal by (apply filter_In; by split).
      rewrite Hfilter in Hal.
      apply in_map_iff in Hal as (entry & He & _). congruence.
  - subst alert. apply alert_goes_first.
Qed.

Lemma strong_sample_raises_one_alert_witness :
  (accepted lab_hub strong_sample "D1" lab_device
   /\ calculateMagnitude (parseFloat (msg_ax strong_sample))
        (parseFloat (msg_ay strong_sample))
        (parseFloat (msg_az strong_sample)) = JFin 4
   /\ 3.0 <= 4)
  /\ e_is_earthquake (record_of strong_sample lab_device 5) = true.
Proof.
  assert (accepted lab_hub strong_sample "D1" lab_device) as Hacc
    by (apply lab_accepts; reflexivity).
  assert (3.0 <= 4) as Hge by lra.
  split; [split; [exact Hacc | split; [exact strong_sample_magnitude | exact Hge]] |].
  exact (proj1 (strong_sample_raises_one_alert (Some 1%nat) strong_sample
                  (Some lab_client) 5 lab_hub "D1" lab_device 4 [] 6 Hacc
                  strong_sample_magnitude Hge)).
Defined.
